(** * The video-generation handler and the echo handler, embedded in Rocq

    Two Python request handlers are modelled here:

    - [Route]: [src/app/api/generate-video/route.py], the pipeline that asks a
      generative model for a Manim script, renders it in a Daytona sandbox and
      returns the video;
    - [Index]: [api/python/index.py], the health-check / echo handler.

    [Py] holds the Python built-ins and standard-library functions the two
    handlers call ([str.replace], [str.strip], [int], [json.loads],
    [uuid.uuid4], ...).  [Http] holds the effects of a handler: the calls it
    makes to the outside, recorded in order, and a small exception monad.
    [Spec] holds the notions of the specification, [Scenario] concrete
    requests; the facts and the properties follow.

    A handler runs in a [World], which holds the request and what every
    remote call answers, and writes to a [Client], which may fail on any
    write.  [Route.serve] and [Index.serve] are the handlers for any
    client; [Route.handle] and [Index.handle] are the handlers for the
    client that takes all that is written.

    What the model leaves out of Python: the conversion of a decimal
    literal to a double, of which only the test for zero is kept; the
    decimal digits beyond ASCII, which [int] reads and the value of a
    header cannot hold; a read that waits for octets the client never
    sends; the objects made at lines 50 and 51 of [route.py], which are
    taken to be made.  The
    text of an exception raised by a built-in is kept without the value or
    position it names, except where it counts digits and for
    [UnicodeEncodeError], the one such text a handler sends to the
    client. *)

From Stdlib Require Import List ZArith NArith Lia Bool String Ascii.
Import ListNotations.

Set Warnings "-register-all".

(* ===================================================================== *)
(** * Python built-ins *)
(* ===================================================================== *)

Module Py.

(** A Python [str] is a sequence of code points, a [bytes] a sequence of
    octets. *)
Definition str := list N.
Definition bytes := list N.

(** A literal of the source, as a [str]. *)
Definition py (s : string) : str := map N_of_ascii (list_ascii_of_string s).

Fixpoint str_eqb (a b : str) : bool :=
  match a, b with
  | [], [] => true
  | x :: a', y :: b' => N.eqb x y && str_eqb a' b'
  | _, _ => false
  end.

(** ** Exceptions *)

(** The exception classes that occur, with [BaseExceptionOnly] for the ones
    that derive from [BaseException] but not from [Exception]
    ([KeyboardInterrupt], [SystemExit], ...). *)
Inductive exc_class :=
| BaseExceptionOnly
| Exception
| TypeError
| ValueError
| OverflowError
| RecursionError
| MemoryError
| AttributeError
| UnicodeDecodeError
| UnicodeEncodeError
| JSONDecodeError.

Record exn := Exn { exn_class : exc_class; exn_str : str }.

(** [except Exception] catches every class but the first. *)
Definition is_Exception (e : exn) : bool :=
  match exn_class e with BaseExceptionOnly => false | _ => true end.

Definition is_JSONDecodeError (e : exn) : bool :=
  match exn_class e with JSONDecodeError => true | _ => false end.

(** The outcome of a call: a value, or a raised exception. *)
Inductive Result (A : Type) :=
| Val (a : A)
| Raise (e : exn).
Arguments Val {A} a.
Arguments Raise {A} e.

Definition rbind {A B} (r : Result A) (k : A -> Result B) : Result B :=
  match r with Val a => k a | Raise e => Raise e end.

(** ** [str] methods *)

(** [str.isspace] on one code point. *)
Definition isspace (c : N) : bool :=
  ((9 <=? c) && (c <=? 13) || (28 <=? c) && (c <=? 32)
   || (c =? 133) || (c =? 160) || (c =? 5760)
   || (8192 <=? c) && (c <=? 8202)
   || (c =? 8232) || (c =? 8233) || (c =? 8239) || (c =? 8287)
   || (c =? 12288))%N.

Fixpoint lstrip (s : str) : str :=
  match s with
  | c :: s' => if isspace c then lstrip s' else s
  | [] => []
  end.

Definition rstrip (s : str) : str := rev (lstrip (rev s)).

Definition strip (s : str) : str := rstrip (lstrip s).

Fixpoint startswith (s p : str) {struct p} : bool :=
  match p, s with
  | [], _ => true
  | c :: p', d :: s' => N.eqb c d && startswith s' p'
  | _ :: _, [] => false
  end.

(** [s.replace(old, new)] for a non-empty [old]: the occurrences of [old]
    are found from the left and do not overlap.  [skip] counts the
    characters of a match still to be dropped. *)
Fixpoint replace_from (skip : nat) (s old new : str) : str :=
  match s with
  | [] => []
  | c :: s' =>
      match skip with
      | S k => replace_from k s' old new
      | O =>
          if startswith s old
          then new ++ replace_from (List.length old - 1) s' old new
          else c :: replace_from 0 s' old new
      end
  end.

Definition replace (s old new : str) : str :=
  match old with
  | [] => new ++ flat_map (fun c => c :: new) s
  | _ :: _ => replace_from 0 s old new
  end.

(** [old in s]. *)
Fixpoint contains (s old : str) : bool :=
  startswith s old ||
  match s with
  | [] => false
  | _ :: s' => contains s' old
  end.

(** ASCII lower-casing, as header names are compared. *)
Definition lower (s : str) : str :=
  map (fun c => if ((65 <=? c) && (c <=? 90))%N then (c + 32)%N else c) s.

(** ** Numbers as text *)

Definition hexdigit (d : N) : N := nth (N.to_nat d) (py "0123456789abcdef") 48%N.

(** The [k] lowest hexadecimal digits of [n], most significant first
    (['%0kx' % n] when [n < 16^k]). *)
Definition hex (k : nat) (n : N) : str :=
  map (fun i => hexdigit ((n / 16 ^ N.of_nat i) mod 16)%N) (rev (seq 0 k)).

Fixpoint str_of_uint (d : Decimal.uint) : str :=
  match d with
  | Decimal.Nil => []
  | Decimal.D0 d' => 48%N :: str_of_uint d'
  | Decimal.D1 d' => 49%N :: str_of_uint d'
  | Decimal.D2 d' => 50%N :: str_of_uint d'
  | Decimal.D3 d' => 51%N :: str_of_uint d'
  | Decimal.D4 d' => 52%N :: str_of_uint d'
  | Decimal.D5 d' => 53%N :: str_of_uint d'
  | Decimal.D6 d' => 54%N :: str_of_uint d'
  | Decimal.D7 d' => 55%N :: str_of_uint d'
  | Decimal.D8 d' => 56%N :: str_of_uint d'
  | Decimal.D9 d' => 57%N :: str_of_uint d'
  end.

(** [str(n)] for a natural number. *)
Definition str_of_nat (n : nat) : str := str_of_uint (Nat.to_uint n).

(** ** [int(x)] *)

Definition isdigit (c : N) : bool := ((48 <=? c) && (c <=? 57))%N.

(** The white space [int] skips around a literal: tab to carriage return
    and the space; beyond ASCII, what [str.isspace] holds.  (The
    separators U+001C to U+001F, white space for [str.strip], are none
    for [int].) *)
Definition int_space (c : N) : bool :=
  ((9 <=? c) && (c <=? 13) || (c =? 32) || (127 <? c) && isspace c)%N.

Fixpoint drop_spaces (s : str) : str :=
  match s with
  | c :: s' => if int_space c then drop_spaces s' else s
  | [] => []
  end.

(** The digits and underscores a text starts with, and what follows
    them. *)
Fixpoint literal_run (s : str) : str * str :=
  match s with
  | c :: s' =>
      if isdigit c || (c =? 95)%N
      then let '(run, rest) := literal_run s' in (c :: run, rest)
      else ([], s)
  | [] => ([], [])
  end.

(** The value of a run of digits, where single underscores may separate
    digits: [acc] is the value read so far, [prev_digit] tells whether the
    previous character was a digit. *)
Fixpoint int_digits (s : str) (prev_digit : bool) (acc : Z) : option Z :=
  match s with
  | [] => if prev_digit then Some acc else None
  | c :: s' =>
      if isdigit c then int_digits s' true (10 * acc + Z.of_N (c - 48))%Z
      else if (c =? 95)%N && prev_digit then
        match s' with
        | d :: _ => if isdigit d then int_digits s' false acc else None
        | [] => None
        end
      else None
  end.

Definition invalid_literal : exn :=
  Exn ValueError (py "invalid literal for int() with base 10").

(** The error of a decimal literal of more than 4300 digits
    ([sys.int_info.default_max_str_digits]). *)
Definition too_many_digits (digits : nat) : exn :=
  Exn ValueError
    (py "Exceeds the limit (4300 digits) for integer string conversion: value has "
     ++ str_of_nat digits
     ++ py " digits; use sys.set_int_max_str_digits() to increase the limit").

Definition over_limit (digits : nat) : bool := (4300 <? digits)%nat.

(** [int(s)] for a [str] of code points below 256, as the value of a
    header is: the white space around the literal is dropped, an optional
    sign and the digits follow.  The digits are counted before what
    follows them is looked at. *)
Definition int_of_str (s : str) : Result Z :=
  match rev (drop_spaces (rev (drop_spaces s))) with
  | [] => Raise invalid_literal
  | c :: s' =>
      let '(neg, ds) :=
        if (c =? 45)%N then (true, s')
        else if (c =? 43)%N then (false, s')
        else (false, c :: s') in
      let '(run, rest) := literal_run ds in
      match int_digits run false 0 with
      | None => Raise invalid_literal
      | Some n =>
          let digits := List.length (filter isdigit run) in
          if over_limit digits then Raise (too_many_digits digits)
          else
            match rest with
            | [] => Val (if neg then (- n)%Z else n)
            | _ :: _ => Raise invalid_literal
            end
      end
  end.

(** [int(x)] where [x] is a [str] or [None]. *)
Definition int (x : option str) : Result Z :=
  match x with
  | Some s => int_of_str s
  | None =>
      Raise (Exn TypeError
        (py "int() argument must be a string, a bytes-like object or a real number, not 'NoneType'"))
  end.

(** ** UTF-8 *)

Definition in_range (lo hi c : N) : bool := ((lo <=? c) && (c <=? hi))%N.

Definition is_surrogate (c : N) : bool := in_range 55296 57343 c.

Definition cannot_decode : exn :=
  Exn UnicodeDecodeError (py "'utf-8' codec can't decode byte").

(** [b.decode('utf-8')], and [b.decode('utf-8', 'surrogatepass')] when
    [surrogatepass] is set.  [None] stands for [UnicodeDecodeError]. *)
Fixpoint utf8_decode (surrogatepass : bool) (b : bytes) : option str :=
  match b with
  | [] => Some []
  | b0 :: r0 =>
      if (b0 <? 128)%N then option_map (cons b0) (utf8_decode surrogatepass r0)
      else
        match r0 with
        | [] => None
        | b1 :: r1 =>
            if in_range 194 223 b0 then
              if in_range 128 191 b1
              then option_map (cons ((b0 - 192) * 64 + (b1 - 128))%N)
                              (utf8_decode surrogatepass r1)
              else None
            else
              match r1 with
              | [] => None
              | b2 :: r2 =>
                  if in_range 224 239 b0 then
                    if (if (b0 =? 224)%N then in_range 160 191 b1
                        else if (b0 =? 237)%N
                             then in_range 128 (if surrogatepass then 191 else 159) b1
                             else in_range 128 191 b1)
                       && in_range 128 191 b2
                    then option_map
                           (cons ((b0 - 224) * 4096 + (b1 - 128) * 64 + (b2 - 128))%N)
                           (utf8_decode surrogatepass r2)
                    else None
                  else
                    match r2 with
                    | [] => None
                    | b3 :: r3 =>
                        if in_range 240 244 b0
                           && (if (b0 =? 240)%N then in_range 144 191 b1
                               else if (b0 =? 244)%N then in_range 128 143 b1
                                    else in_range 128 191 b1)
                           && in_range 128 191 b2 && in_range 128 191 b3
                        then option_map
                               (cons ((b0 - 240) * 262144 + (b1 - 128) * 4096
                                      + (b2 - 128) * 64 + (b3 - 128))%N)
                               (utf8_decode surrogatepass r3)
                        else None
                    end
              end
        end
  end.

Definition decode (surrogatepass : bool) (b : bytes) : Result str :=
  match utf8_decode surrogatepass b with
  | Some s => Val s
  | None => Raise cannot_decode
  end.

(** ** UTF-16 and UTF-32 *)

(** Two octets as one number, in the order [big] tells. *)
Definition unit16 (big : bool) (b0 b1 : N) : N :=
  (if big then b0 * 256 + b1 else b0 + b1 * 256)%N.

Definition unit32 (big : bool) (b0 b1 b2 b3 : N) : N :=
  (if big then b0 * 16777216 + b1 * 65536 + b2 * 256 + b3
   else b0 + b1 * 256 + b2 * 65536 + b3 * 16777216)%N.

(** [b.decode('utf-16-le', 'surrogatepass')], or [-be] when [big] is set:
    a high surrogate and the low one after it make one code point, a
    surrogate on its own passes, an odd octet at the end is an error. *)
Fixpoint utf16_decode (big : bool) (b : bytes) : option str :=
  match b with
  | [] => Some []
  | [_] => None
  | b0 :: b1 :: r =>
      let u := unit16 big b0 b1 in
      match r with
      | c0 :: c1 :: r' =>
          let v := unit16 big c0 c1 in
          if in_range 55296 56319 u && in_range 56320 57343 v
          then option_map (cons (65536 + (u - 55296) * 1024 + (v - 56320))%N)
                          (utf16_decode big r')
          else option_map (cons u) (utf16_decode big r)
      | _ => option_map (cons u) (utf16_decode big r)
      end
  end.

(** [b.decode('utf-32-le', 'surrogatepass')], or [-be]: four octets make a
    code point, which is below 1114112; fewer than four at the end are an
    error. *)
Fixpoint utf32_decode (big : bool) (b : bytes) : option str :=
  match b with
  | [] => Some []
  | b0 :: b1 :: b2 :: b3 :: r =>
      let u := unit32 big b0 b1 b2 b3 in
      if (u <? 1114112)%N then option_map (cons u) (utf32_decode big r) else None
  | _ => None
  end.

(** The encodings [json.loads] tells apart. *)
Inductive encoding :=
| Utf8 (sig : bool)
| Utf16 (bom big : bool)
| Utf32 (bom big : bool).

(** The name of a codec in the text of its errors. *)
Definition codec_name (enc : encoding) : str :=
  match enc with
  | Utf8 false => py "utf-8"
  | Utf8 true => py "utf-8-sig"
  | Utf16 true _ => py "utf-16"
  | Utf16 false false => py "utf-16-le"
  | Utf16 false true => py "utf-16-be"
  | Utf32 true _ => py "utf-32"
  | Utf32 false false => py "utf-32-le"
  | Utf32 false true => py "utf-32-be"
  end.

(** [b.decode(enc, 'surrogatepass')]: the codecs with a byte-order mark
    drop the mark [b] starts with. *)
Definition decode_as (enc : encoding) (b : bytes) : Result str :=
  match
    match enc with
    | Utf8 false => utf8_decode true b
    | Utf8 true => utf8_decode true (skipn 3 b)
    | Utf16 bom big => utf16_decode big (if bom then skipn 2 b else b)
    | Utf32 bom big => utf32_decode big (if bom then skipn 4 b else b)
    end
  with
  | Some s => Val s
  | None =>
      Raise (Exn UnicodeDecodeError
               (py "'" ++ codec_name enc ++ py "' codec can't decode byte"))
  end.

Definition utf8_encode_char (c : N) : bytes :=
  (if c <? 128 then [c]
   else if c <? 2048 then [192 + c / 64; 128 + c mod 64]
   else if c <? 65536 then [224 + c / 4096; 128 + (c / 64) mod 64; 128 + c mod 64]
   else [240 + c / 262144; 128 + (c / 4096) mod 64; 128 + (c / 64) mod 64;
         128 + c mod 64])%N.

(** The number of surrogates [s] starts with. *)
Fixpoint surrogate_run (s : str) : nat :=
  match s with
  | c :: s' => if is_surrogate c then S (surrogate_run s') else O
  | [] => O
  end.

(** [str(e)] of the [UnicodeEncodeError] for the surrogates at [pos]. *)
Definition cannot_encode (pos : nat) (c : N) (run : nat) : exn :=
  Exn UnicodeEncodeError
    (match run with
     | 1%nat =>
         py "'utf-8' codec can't encode character '\u" ++ hex 4 c
         ++ py "' in position " ++ str_of_nat pos
     | _ =>
         py "'utf-8' codec can't encode characters in position " ++ str_of_nat pos
         ++ py "-" ++ str_of_nat (pos + run - 1)
     end ++ py ": surrogates not allowed").

Fixpoint encode_from (pos : nat) (s : str) : Result bytes :=
  match s with
  | [] => Val []
  | c :: s' =>
      if is_surrogate c then Raise (cannot_encode pos c (surrogate_run s))
      else rbind (encode_from (S pos) s') (fun b => Val (utf8_encode_char c ++ b))
  end.

(** [s.encode()]. *)
Definition encode (s : str) : Result bytes := encode_from 0 s.

(** ** Values *)

(** A [float] read from a decimal literal is kept as that literal's value
    [(-1)^neg * m * 10^e]; the conversion to a double is left implicit. *)
Inductive pyfloat :=
| FDec (neg : bool) (m : N) (e : Z)
| FInf (neg : bool)
| FNaN.

(** The values [json.loads] builds.  A [dict] keeps its keys in insertion
    order. *)
Inductive pyval :=
| PNone
| PBool (b : bool)
| PInt (n : Z)
| PFloat (f : pyfloat)
| PStr (s : str)
| PList (l : list pyval)
| PDict (d : list (str * pyval)).

(** [bool(f)]: the double nearest to [m * 10^e] is zero exactly when
    [m * 10^e <= 2^-1075]. *)
Definition float_truthy (f : pyfloat) : bool :=
  match f with
  | FDec _ m e =>
      if (m =? 0)%N then false
      else if (0 <=? e)%Z then true
      else (10 ^ (- e) <? Z.of_N m * 2 ^ 1075)%Z
  | FInf _ | FNaN => true
  end.

(** [bool(v)]. *)
Definition truthy (v : pyval) : bool :=
  match v with
  | PNone => false
  | PBool b => b
  | PInt n => negb (n =? 0)%Z
  | PFloat f => float_truthy f
  | PStr s => match s with [] => false | _ => true end
  | PList l => match l with [] => false | _ => true end
  | PDict d => match d with [] => false | _ => true end
  end.

(** [all(l)]. *)
Definition all (l : list pyval) : bool := forallb truthy l.

(** [d.get(k)]: [None] when the key is absent. *)
Fixpoint dict_get (d : list (str * pyval)) (k : str) : option pyval :=
  match d with
  | [] => None
  | (k', v) :: d' => if str_eqb k' k then Some v else dict_get d' k
  end.

(** [d[k] = v]. *)
Fixpoint dict_set (d : list (str * pyval)) (k : str) (v : pyval)
  : list (str * pyval) :=
  match d with
  | [] => [(k, v)]
  | (k', v') :: d' =>
      if str_eqb k' k then (k', v) :: d' else (k', v') :: dict_set d' k v
  end.

Definition no_attribute_get : exn :=
  Exn AttributeError (py "object has no attribute 'get'").

(** [x.get(k, default)] for a value [x]: only a [dict] has the method. *)
Definition get (x : pyval) (k : str) (default : pyval) : Result pyval :=
  match x with
  | PDict d => Val (match dict_get d k with Some v => v | None => default end)
  | _ => Raise no_attribute_get
  end.

(** [len(x)]. *)
Definition len (x : pyval) : Result Z :=
  match x with
  | PStr s => Val (Z.of_nat (List.length s))
  | PList l => Val (Z.of_nat (List.length l))
  | PDict d => Val (Z.of_nat (List.length d))
  | _ => Raise (Exn TypeError (py "object has no len()"))
  end.

(** The value of an optional configuration string. *)
Definition of_option (x : option str) : pyval :=
  match x with Some s => PStr s | None => PNone end.

(** ** [json.loads] *)

Module Json.

Definition err (msg : string) : exn := Exn JSONDecodeError (py msg).

(** The error of a container nested deeper than the recursion limit
    allows. *)
Definition too_deep (what : string) : exn :=
  Exn RecursionError
    (py "maximum recursion depth exceeded while decoding a JSON " ++ py what
     ++ py " from a unicode string").

Definition is_ws (c : N) : bool :=
  ((c =? 32) || (c =? 9) || (c =? 10) || (c =? 13))%N.

Fixpoint skip_ws (s : str) : str :=
  match s with
  | c :: s' => if is_ws c then skip_ws s' else s
  | [] => []
  end.

Definition hexval (c : N) : option N :=
  if in_range 48 57 c then Some (c - 48)%N
  else if in_range 97 102 c then Some (c - 87)%N
  else if in_range 65 70 c then Some (c - 55)%N
  else None.

(** The four hexadecimal digits after a backslash-u. *)
Definition decode_uXXXX (s : str) : option (N * str) :=
  match s with
  | a :: b :: c :: d :: r =>
      match hexval a, hexval b, hexval c, hexval d with
      | Some x, Some y, Some z, Some w =>
          Some ((x * 4096 + y * 256 + z * 16 + w)%N, r)
      | _, _, _, _ => None
      end
  | _ => None
  end.

Definition backslash (c : N) : option N :=
  if (c =? 34)%N then Some 34%N          (* double quote *)
  else if (c =? 92)%N then Some 92%N     (* backslash *)
  else if (c =? 47)%N then Some 47%N     (* slash *)
  else if (c =? 98)%N then Some 8%N      (* b *)
  else if (c =? 102)%N then Some 12%N    (* f *)
  else if (c =? 110)%N then Some 10%N    (* n *)
  else if (c =? 114)%N then Some 13%N    (* r *)
  else if (c =? 116)%N then Some 9%N     (* t *)
  else None.

Definition push {A} (c : N) (r : Result (str * A)) : Result (str * A) :=
  rbind r (fun '(t, rest) => Val (c :: t, rest)).

(** [scanstring]: the text of a string literal, read from just after its
    opening quote, and what follows the closing quote. *)
Fixpoint scanstring (fuel : nat) (s : str) : Result (str * str) :=
  match fuel with
  | O => Raise (err "Unterminated string starting at")
  | S f =>
      match s with
      | [] => Raise (err "Unterminated string starting at")
      | c :: r =>
          if (c =? 34)%N then Val ([], r)
          else if (c =? 92)%N then
            match r with
            | [] => Raise (err "Unterminated string starting at")
            | e :: r' =>
                if (e =? 117)%N then
                  match decode_uXXXX r' with
                  | None => Raise (err "Invalid \uXXXX escape")
                  | Some (uni, r2) =>
                      if in_range 55296 56319 uni && startswith r2 [92; 117]%N then
                        match decode_uXXXX (skipn 2 r2) with
                        | None => Raise (err "Invalid \uXXXX escape")
                        | Some (uni2, r4) =>
                            if in_range 56320 57343 uni2
                            then push (65536 + (uni - 55296) * 1024
                                       + (uni2 - 56320))%N (scanstring f r4)
                            else push uni (scanstring f r2)
                        end
                      else push uni (scanstring f r2)
                  end
                else
                  match backslash e with
                  | Some ch => push ch (scanstring f r')
                  | None => Raise (err "Invalid \escape")
                  end
            end
          else if (c <? 32)%N then Raise (err "Invalid control character at")
          else push c (scanstring f r)
      end
  end.

Fixpoint take_digits (s : str) : str * str :=
  match s with
  | c :: s' =>
      if isdigit c then let '(ds, r) := take_digits s' in (c :: ds, r)
      else ([], s)
  | [] => ([], [])
  end.

Definition digits_value (ds : str) : N :=
  fold_left (fun acc c => (10 * acc + (c - 48))%N) ds 0%N.

(** The integer part of a number: [0], or a non-zero digit and more
    digits. *)
Definition int_part (s : str) : option (str * str) :=
  match s with
  | c :: s' =>
      if (c =? 48)%N then Some ([c], s')
      else if in_range 49 57 c
           then let '(ds, r) := take_digits s' in Some (c :: ds, r)
           else None
  | [] => None
  end.

(** An optional fraction: a dot and at least one digit. *)
Definition frac_part (s : str) : option (str * str) :=
  match s with
  | c :: s' =>
      if (c =? 46)%N then
        match take_digits s' with
        | ([], _) => None
        | (ds, r) => Some (ds, r)
        end
      else None
  | [] => None
  end.

(** An optional exponent: [e] or [E], an optional sign, at least one
    digit. *)
Definition exp_part (s : str) : option (Z * str) :=
  match s with
  | c :: s' =>
      if (c =? 101)%N || (c =? 69)%N then
        let '(neg, s2) :=
          match s' with
          | d :: s3 =>
              if (d =? 45)%N then (true, s3)
              else if (d =? 43)%N then (false, s3) else (false, s')
          | [] => (false, s')
          end in
        match take_digits s2 with
        | ([], _) => None
        | (ds, r) =>
            let n := Z.of_N (digits_value ds) in
            Some (if neg then (- n)%Z else n, r)
        end
      else None
  | [] => None
  end.

(** [NUMBER_RE.match]: a number at the head of [s]; an [int] when it has
    neither fraction nor exponent, a [float] otherwise.  The [int] is made
    by [int], which counts the digits. *)
Definition match_number (s : str) : option (Result pyval * str) :=
  let '(neg, s1) :=
    match s with
    | c :: s' => if (c =? 45)%N then (true, s') else (false, s)
    | [] => (false, s)
    end in
  match int_part s1 with
  | None => None
  | Some (ip, s2) =>
      let '(fp, s3) :=
        match frac_part s2 with
        | Some (ds, r) => (Some ds, r)
        | None => (None, s2)
        end in
      let '(ep, s4) :=
        match exp_part s3 with
        | Some (e, r) => (Some e, r)
        | None => (None, s3)
        end in
      match fp, ep with
      | None, None =>
          let n := Z.of_N (digits_value ip) in
          Some (if over_limit (List.length ip)
                then Raise (too_many_digits (List.length ip))
                else Val (PInt (if neg then (- n)%Z else n)), s4)
      | _, _ =>
          let fd := match fp with Some ds => ds | None => [] end in
          let e := match ep with Some e => e | None => 0%Z end in
          Some (Val (PFloat (FDec neg (digits_value (ip ++ fd))
                                  (e - Z.of_nat (List.length fd)))), s4)
      end
  end.

(** [scan_once] with the two loops of [JSONObject] and [JSONArray]:
    [members] reads from just after the opening quote of a key, [elements]
    from the start of a value.  [depth] is how many containers may still
    be entered, one inside the other, before the recursion limit is
    reached; [fuel] bounds the steps of the scanner. *)
Fixpoint scan_once (depth fuel : nat) (s : str) : Result (pyval * str) :=
  match fuel with
  | O => Raise (err "Expecting value")
  | S f =>
      match s with
      | [] => Raise (err "Expecting value")
      | c :: r =>
          if (c =? 34)%N then
            rbind (scanstring (List.length r) r) (fun '(t, rest) => Val (PStr t, rest))
          else if (c =? 123)%N then
            match depth with
            | O => Raise (too_deep "object")
            | S inner =>
                match skip_ws r with
                | d :: r1 =>
                    if (d =? 34)%N then members inner f r1 []
                    else if (d =? 125)%N then Val (PDict [], r1)
                    else Raise (err "Expecting property name enclosed in double quotes")
                | [] => Raise (err "Expecting property name enclosed in double quotes")
                end
            end
          else if (c =? 91)%N then
            match depth with
            | O => Raise (too_deep "array")
            | S inner =>
                match skip_ws r with
                | d :: r1 =>
                    if (d =? 93)%N then Val (PList [], r1)
                    else elements inner f (d :: r1) []
                | [] => Raise (err "Expecting value")
                end
            end
          else if startswith s (py "null") then Val (PNone, skipn 4 s)
          else if startswith s (py "true") then Val (PBool true, skipn 4 s)
          else if startswith s (py "false") then Val (PBool false, skipn 5 s)
          else
            match match_number s with
            | Some (number, rest) => rbind number (fun v => Val (v, rest))
            | None =>
                if startswith s (py "NaN") then Val (PFloat FNaN, skipn 3 s)
                else if startswith s (py "Infinity")
                then Val (PFloat (FInf false), skipn 8 s)
                else if startswith s (py "-Infinity")
                then Val (PFloat (FInf true), skipn 9 s)
                else Raise (err "Expecting value")
            end
      end
  end

with members (depth fuel : nat) (s : str) (d : list (str * pyval))
  : Result (pyval * str) :=
  match fuel with
  | O => Raise (err "Expecting value")
  | S f =>
      rbind (scanstring (List.length s) s) (fun '(key, r1) =>
      match skip_ws r1 with
      | c :: r2 =>
          if (c =? 58)%N then
            rbind (scan_once depth f (skip_ws r2)) (fun '(v, r3) =>
            let d' := dict_set d key v in
            match skip_ws r3 with
            | c' :: r4 =>
                if (c' =? 125)%N then Val (PDict d', r4)
                else if (c' =? 44)%N then
                  match skip_ws r4 with
                  | q :: r5 =>
                      if (q =? 34)%N then members depth f r5 d'
                      else Raise (err "Expecting property name enclosed in double quotes")
                  | [] => Raise (err "Expecting property name enclosed in double quotes")
                  end
                else Raise (err "Expecting ',' delimiter")
            | [] => Raise (err "Expecting ',' delimiter")
            end)
          else Raise (err "Expecting ':' delimiter")
      | [] => Raise (err "Expecting ':' delimiter")
      end)
  end

with elements (depth fuel : nat) (s : str) (acc : list pyval)
  : Result (pyval * str) :=
  match fuel with
  | O => Raise (err "Expecting value")
  | S f =>
      rbind (scan_once depth f s) (fun '(v, r1) =>
      match skip_ws r1 with
      | c :: r2 =>
          if (c =? 93)%N then Val (PList (rev (v :: acc)), r2)
          else if (c =? 44)%N then elements depth f (skip_ws r2) (v :: acc)
          else Raise (err "Expecting ',' delimiter")
      | [] => Raise (err "Expecting ',' delimiter")
      end)
  end.

(** [JSONDecoder.decode]: one value, with whitespace around it and nothing
    else.  Twice the length of the text is fuel enough: with more, the
    scanner reads the same ([FuelFacts.decode_fuel]). *)
Definition decode (depth : nat) (s : str) : Result pyval :=
  rbind (scan_once depth (2 * List.length s + 2) (skip_ws s)) (fun '(v, r) =>
  match skip_ws r with
  | [] => Val v
  | _ :: _ => Raise (err "Extra data")
  end).

(** [json.loads(s)] for a [str]. *)
Definition loads_str (depth : nat) (s : str) : Result pyval :=
  if startswith s [65279%N]
  then Raise (err "Unexpected UTF-8 BOM (decode using utf-8-sig)")
  else decode depth s.

(** [json.detect_encoding]: a byte-order mark tells the encoding; without
    one, the zero octets among the first four do, as the text starts with
    two ASCII characters. *)
Definition detect_encoding (b : bytes) : encoding :=
  if startswith b [0; 0; 254; 255]%N then Utf32 true true
  else if startswith b [255; 254; 0; 0]%N then Utf32 true false
  else if startswith b [254; 255]%N then Utf16 true true
  else if startswith b [255; 254]%N then Utf16 true false
  else if startswith b [239; 187; 191]%N then Utf8 true
  else
    match b with
    | b0 :: b1 :: b2 :: b3 :: _ =>
        if (b0 =? 0)%N then
          if (b1 =? 0)%N then Utf32 false true else Utf16 false true
        else if (b1 =? 0)%N then
          if (b2 =? 0)%N && (b3 =? 0)%N then Utf32 false false else Utf16 false false
        else Utf8 false
    | [b0; b1] =>
        if (b0 =? 0)%N then Utf16 false true
        else if (b1 =? 0)%N then Utf16 false false
        else Utf8 false
    | _ => Utf8 false
    end.

(** [json.loads(b)] for a [bytes]. *)
Definition loads_bytes (depth : nat) (b : bytes) : Result pyval :=
  rbind (decode_as (detect_encoding b) b) (decode depth).

End Json.

(** ** [uuid] *)

(** [uuid.uuid4().int], from the sixteen octets of [os.urandom(16)] read as
    one number: the variant and version bits are forced. *)
Definition uuid4 (urandom : N) : N :=
  let i := (urandom mod 2 ^ 128)%N in
  let i := N.ldiff i (N.shiftl 49152 48) in
  let i := N.lor i (N.shiftl 32768 48) in
  let i := N.ldiff i (N.shiftl 61440 64) in
  N.lor i (N.shiftl 4 76).

(** [str(u)] for a UUID with integer value [i]. *)
Definition uuid_str (i : N) : str :=
  let h := hex 32 i in
  firstn 8 h ++ py "-" ++ firstn 4 (skipn 8 h) ++ py "-"
  ++ firstn 4 (skipn 12 h) ++ py "-" ++ firstn 4 (skipn 16 h) ++ py "-"
  ++ skipn 20 h.

End Py.


(* ===================================================================== *)
(** * Effects of a request handler *)
(* ===================================================================== *)

Module Http.
Import Py.

(** A sandbox of the Daytona SDK: an opaque object, always truthy. *)
Record Sandbox := { sandbox_id : N }.

(** What [sandbox.process.exec] returns. *)
Record ExecuteResponse := { exit_code : Z; result : str }.

(** An f-string as its parts: literal text and interpolated values. *)
Inductive fpart :=
| Lit (s : str)
| Interp (v : pyval).

(** What is written to the client: given octets, or
    [json.dumps(payload).encode()], kept as the payload it serialises. *)
Inductive wire :=
| Raw (b : bytes)
| JsonDumps (payload : pyval).

(** The value of a response header: a given text, or [str(len(body))]. *)
Inductive header_value :=
| HStr (s : str)
| HLen (body : wire).

(** The calls a handler makes to the outside, in the order it makes them. *)
Inductive event :=
| GenerateContent (model : str) (prompt : list fpart)
| Create (language : str)
| Exec (sb : Sandbox) (command : str) (timeout : Z)
| UploadFile (sb : Sandbox) (path : str) (content : bytes)
| DownloadFile (sb : Sandbox) (path : str)
| Remove (sb : Sandbox)
| SendResponse (code : Z)
| SendHeader (name : str) (value : header_value)
| EndHeaders
| Write (body : wire).

(** The world one request runs in: the request itself, the configuration of
    the process, and what each remote call answers.  The client closes its
    side after the octets of [w_rfile].  [w_memory] is the length of the
    longest [bytes] the process can still make.  [w_recursion] is how many
    containers [json.loads] may enter, one inside the other: the recursion
    limit of the interpreter less the depth of the stack at the call. *)
Record World := {
  w_headers : list (str * str);
  w_rfile : bytes;
  w_memory : N;
  w_recursion : nat;
  w_DAYTONA_API_KEY : option str;
  w_GEMINI_API_KEY : option str;
  w_urandom : N;
  w_generate_content : list fpart -> Result str;
  w_create : Result Sandbox;
  w_exec : Sandbox -> str -> Result ExecuteResponse;
  w_upload_file : Sandbox -> str -> bytes -> Result unit;
  w_download_file : Sandbox -> str -> Result bytes;
  w_remove : Sandbox -> Result unit
}.

(** The client's side of the connection: what a write to it answers, given
    the calls made so far, this write included. *)
Definition Client := list event -> Result unit.

(** The client that takes all that is written. *)
Definition reliable : Client := fun _ => Val tt.

(** ** The handler monad

    A computation runs on the handler's local variables [L] and the trace
    of events so far, and ends in a value or a raised exception; locals
    and trace survive an exception. *)
Definition M (L A : Type) : Type := L * list event -> Result A * (L * list event).

Definition ret {L A} (a : A) : M L A := fun s => (Val a, s).

Definition bind {L A B} (c : M L A) (k : A -> M L B) : M L B :=
  fun s =>
    match c s with
    | (Val a, s') => k a s'
    | (Raise e, s') => (Raise e, s')
    end.

Definition raise {L A} (e : exn) : M L A := fun s => (Raise e, s).

Definition lift {L A} (r : Result A) : M L A := fun s => (r, s).

Definition emit {L} (ev : event) : M L unit :=
  fun s => (Val tt, (fst s, snd s ++ [ev])).

(** A call that writes to the client, and raises what the write raises. *)
Definition to_client {L} (client : Client) (ev : event) : M L unit :=
  fun s => (client (snd s ++ [ev]), (fst s, snd s ++ [ev])).

Definition get_local {L} : M L L := fun s => (Val (fst s), s).

Definition set_local {L} (l : L) : M L unit := fun s => (Val tt, (l, snd s)).

(** [try: body  except <class> as e: handler e]. *)
Definition try_except {L A} (body : M L A) (catches : exn -> bool)
    (handler : exn -> M L A) : M L A :=
  fun s =>
    match body s with
    | (Raise e, s') => if catches e then handler e s' else (Raise e, s')
    | r => r
    end.

(** [try: body  finally: final]: [final] always runs; an exception it
    raises replaces the outcome of [body]. *)
Definition try_finally {L A} (body : M L A) (final : M L unit) : M L A :=
  fun s =>
    let '(r, s') := body s in
    match final s' with
    | (Val _, s'') => (r, s'')
    | (Raise e, s'') => (Raise e, s'')
    end.

Declare Scope handler_scope.
Delimit Scope handler_scope with handler.
Notation "x <- c ;; k" := (bind c (fun x => k))
  (at level 61, c at next level, right associativity) : handler_scope.
Notation "c ;; k" := (bind c (fun _ => k))
  (at level 61, right associativity) : handler_scope.
Local Open Scope handler_scope.

(** Running a handler from an empty trace. *)
Definition run {L A} (c : M L A) (l : L) : Result A * list event :=
  let '(r, (_, tr)) := c (l, []) in (r, tr).

(** ** The request, as [BaseHTTPRequestHandler] presents it *)

Section Request.
Variable w : World.
Context {L : Type}.

(** [self.headers.get(name, default)]: names compare without case. *)
Definition headers_get (name : str) (default : option str) : option str :=
  match find (fun h => str_eqb (lower (fst h)) (lower name)) (w_headers w) with
  | Some h => Some (snd h)
  | None => default
  end.

(** [self.rfile.read(n)]: up to [n] octets, all of them for [-1].  The
    length is first made a machine integer of 64 bits; then a [bytes] of
    that length is made, which with its header of 33 octets has to fit
    such an integer, and the memory of the process. *)
Definition rfile_read (n : Z) : Result bytes :=
  if (n <? -9223372036854775808)%Z || (9223372036854775807 <? n)%Z
  then Raise (Exn OverflowError (py "cannot fit 'int' into an index-sized integer"))
  else if (n <? -1)%Z
  then Raise (Exn ValueError (py "read length must be non-negative or -1"))
  else if (n <? 0)%Z then Val (w_rfile w)
  else if (9223372036854775774 <? n)%Z
  then Raise (Exn OverflowError (py "byte string is too large"))
  else if (Z.of_N (w_memory w) <? n)%Z then Raise (Exn MemoryError [])
  else Val (firstn (Z.to_nat n) (w_rfile w)).

(** [send_response] and [send_header] put the status line and a header
    into the buffer of the handler; [end_headers] writes the buffer to the
    client, [wfile.write] the body.  (The line [send_response] adds to the
    log of the server is left out.) *)
Definition send_response (code : Z) : M L unit := emit (SendResponse code).
Definition send_header (name : string) (value : header_value) : M L unit :=
  emit (SendHeader (py name) value).
Definition end_headers (client : Client) : M L unit := to_client client EndHeaders.
Definition wfile_write (client : Client) (body : wire) : M L unit :=
  to_client client (Write body).

End Request.

End Http.

(* ===================================================================== *)
(** * api/python/index.py *)
(* ===================================================================== *)

Module Index.
Import Py Http.
Local Open Scope handler_scope.

Section Handler.
Variable w : World.
Variable client : Client.

(** The handler has no local variable that outlives a [try]. *)
Definition M (A : Type) : Type := Http.M unit A.

(** [handler._send_json] *)
Definition _send_json (payload : pyval) (status_code : Z) : M unit :=
  let body := JsonDumps payload in
  send_response status_code ;;
  send_header "Content-Type" (HStr (py "application/json; charset=utf-8")) ;;
  send_header "Content-Length" (HLen body) ;;
  end_headers client ;;
  wfile_write client body.

(** [handler.do_GET] *)
Definition do_GET : M unit :=
  _send_json
    (PDict [(py "status", PStr (py "ok"));
            (py "message", PStr (py "Python backend is running on Vercel."));
            (py "docs", PStr (py "https://vercel.com/docs/functions/runtimes/python"))])
    200.

(** [handler.do_POST] *)
Definition do_POST : M unit :=
  content_length <- lift (int (headers_get w (py "content-length") (Some (py "0")))) ;;
  raw_body <- (if (content_length =? 0)%Z then ret []
               else lift (rfile_read w content_length)) ;;
  match raw_body with
  | [] => _send_json (PDict [(py "error", PStr (py "Empty request body"))]) 400
  | _ :: _ =>
      parsed <- try_except
                  (text <- lift (decode false raw_body) ;;
                   payload <- lift (Json.loads_str (w_recursion w) text) ;;
                   ret (Some payload))
                  is_JSONDecodeError
                  (fun _ =>
                     _send_json (PDict [(py "error", PStr (py "Invalid JSON payload"))]) 400 ;;
                     ret None) ;;
      match parsed with
      | None => ret tt
      | Some payload =>
          expression <- lift (get payload (py "expression") (PStr [])) ;;
          length <- lift (len expression) ;;
          _send_json (PDict [(py "received", expression); (py "length", PInt length)]) 200
      end
  end.

(** One request served: how [do_POST] ends, and the events it caused. *)
Definition serve : Result unit * list event := run do_POST tt.

End Handler.

(** One request served to a client that takes all that is written. *)
Definition handle (w : World) : Result unit * list event := serve w reliable.

End Index.

(* ===================================================================== *)
(** * src/app/api/generate-video/route.py *)
(* ===================================================================== *)

Module Route.
Import Py Http.
Local Open Scope handler_scope.

Section Handler.
Variable w : World.
Variable client : Client.

(** The one local variable of [do_POST] that is assigned inside the [try]
    and read in its [finally]: [sandbox], [None] until [daytona.create]
    has returned. *)
Definition M (A : Type) : Type := Http.M (option Sandbox) A.

(** ** Remote calls *)

(** [genai.GenerativeModel('gemini-1.5-flash').generate_content(prompt).text] *)
Definition generate_content (prompt : list fpart) : M str :=
  emit (GenerateContent (py "gemini-1.5-flash") prompt) ;;
  lift (w_generate_content w prompt).

(** [daytona.create(CreateSandboxParams(language="python"))] *)
Definition daytona_create (language : str) : M Sandbox :=
  emit (Create language) ;;
  lift (w_create w).

(** [sandbox.process.exec(command, timeout=...)] *)
Definition process_exec (sb : Sandbox) (command : str) (timeout : Z)
  : M ExecuteResponse :=
  emit (Exec sb command timeout) ;;
  lift (w_exec w sb command).

(** [sandbox.fs.upload_file(path, content)] *)
Definition fs_upload_file (sb : Sandbox) (path : str) (content : bytes) : M unit :=
  emit (UploadFile sb path content) ;;
  lift (w_upload_file w sb path content).

(** [sandbox.fs.download_file(path)] *)
Definition fs_download_file (sb : Sandbox) (path : str) : M bytes :=
  emit (DownloadFile sb path) ;;
  lift (w_download_file w sb path).

(** [daytona.remove(sandbox)] *)
Definition daytona_remove (sb : Sandbox) : M unit :=
  emit (Remove sb) ;;
  lift (w_remove w sb).

(** ** [generate_manim_script] *)

Definition prompt (latex_equation explanations : pyval) : list fpart :=
  [Lit (py "
    Create a Python script for Manim Community Edition that generates a video based on the following mathematical equation and explanations.

    **Equation (LaTeX):**
    ");
   Interp latex_equation;
   Lit (py "

    **Explanations:**
    ");
   Interp explanations;
   Lit (py "

    **Instructions:**
    1. The video should start by displaying the full equation.
    2. Then, for each variable or term mentioned in the explanations, highlight it in the equation while displaying the corresponding explanation text on the screen.
    3. The final scene should show the complete, non-highlighted equation again.
    4. The script should define a single Manim scene named 'EquationExplanation'.
    5. Ensure the script is self-contained and ready to be executed by `manim`.
    ")].

Definition generate_manim_script (latex_equation explanations : pyval) : M str :=
  response_text <- generate_content (prompt latex_equation explanations) ;;
  ret (strip (replace (replace response_text (py "```python") []) (py "```") [])).

(** ** [handler.do_POST] *)

Definition install_command : str :=
  py "pip install manim && manim-latex-downloader".

Definition script_filename : str :=
  py "manim_script_" ++ uuid_str (uuid4 (w_urandom w)) ++ py ".py".

Definition render_command : str :=
  py "manim -pql /home/daytona/" ++ script_filename ++ py " EquationExplanation".

Definition video_path : str :=
  py "/home/daytona/media/videos/" ++ replace script_filename (py ".py") []
  ++ py "/480p15/EquationExplanation.mp4".

(** The body of the [try] (steps 1 to 7).  The file name of line 57 is
    [script_filename]; the commands and paths of lines 64, 73 and 81 are
    the definitions above. *)
Definition pipeline (latex_equation explanations : pyval) : M unit :=
  (* 1. Generate Manim script *)
  manim_script_content <- generate_manim_script latex_equation explanations ;;
  (* 2. Create Daytona Sandbox *)
  sandbox <- daytona_create (py "python") ;;
  set_local (Some sandbox) ;;
  (* 3. Install dependencies in the sandbox *)
  response <- process_exec sandbox install_command 300 ;;
  (if negb (exit_code response =? 0)%Z
   then raise (Exn Exception (py "Failed to install Manim: " ++ result response))
   else ret tt) ;;
  (* 4. Upload the Manim script *)
  content <- lift (encode manim_script_content) ;;
  fs_upload_file sandbox (py "/home/daytona/" ++ script_filename) content ;;
  (* 5. Run Manim to generate the video *)
  response <- process_exec sandbox render_command 300 ;;
  (if negb (exit_code response =? 0)%Z
   then raise (Exn Exception (py "Manim rendering failed: " ++ result response))
   else ret tt) ;;
  (* 6. Download the video file *)
  video_content <- fs_download_file sandbox video_path ;;
  (* 7. Return the video *)
  send_response 200 ;;
  send_header "Content-type" (HStr (py "video/mp4")) ;;
  end_headers client ;;
  wfile_write client (Raw video_content).

(** The [except Exception as e] clause. *)
Definition on_exception (e : exn) : M unit :=
  send_response 500 ;;
  send_header "Content-type" (HStr (py "application/json")) ;;
  end_headers client ;;
  wfile_write client (JsonDumps (PDict [(py "error", PStr (exn_str e))])).

(** The [finally] clause (step 8). *)
Definition cleanup : M unit :=
  sandbox <- get_local ;;
  match sandbox with
  | Some sb => daytona_remove sb
  | None => ret tt
  end.

(** The [try] with its [except] clause. *)
Definition guarded (latex_equation explanations : pyval) : M unit :=
  try_except (pipeline latex_equation explanations) is_Exception on_exception.

Definition do_POST : M unit :=
  content_len <- lift (int (headers_get w (py "Content-Length") None)) ;;
  post_body <- lift (rfile_read w content_len) ;;
  data <- lift (Json.loads_bytes (w_recursion w) post_body) ;;
  latex_equation <- lift (get data (py "latex") PNone) ;;
  explanations <- lift (get data (py "explanations") PNone) ;;
  if negb (all [latex_equation; explanations;
                of_option (w_DAYTONA_API_KEY w); of_option (w_GEMINI_API_KEY w)])
  then
    send_response 400 ;;
    send_header "Content-type" (HStr (py "application/json")) ;;
    end_headers client ;;
    wfile_write client (JsonDumps (PDict [(py "error",
                                           PStr (py "Missing required data or API keys."))]))
  else
    set_local None ;;
    try_finally (guarded latex_equation explanations) cleanup.

(** One request served: how [do_POST] ends, and the events it caused. *)
Definition serve : Result unit * list event := run do_POST None.

End Handler.

(** One request served to a client that takes all that is written. *)
Definition handle (w : World) : Result unit * list event := serve w reliable.

End Route.

(* ===================================================================== *)
(** * What the specification speaks of *)
(* ===================================================================== *)

Module Spec.
Import Py Http.

(** ** Responses (section 6 of the specification) *)

(** A JSON error response: status [code], body [{"error": message}]. *)
Definition error_response (code : Z) (message : str) : list event :=
  [SendResponse code;
   SendHeader (py "Content-type") (HStr (py "application/json"));
   EndHeaders;
   Write (JsonDumps (PDict [(py "error", PStr message)]))].

(** The success response: status 200, [video/mp4], the raw octets. *)
Definition video_response (video : bytes) : list event :=
  [SendResponse 200;
   SendHeader (py "Content-type") (HStr (py "video/mp4"));
   EndHeaders;
   Write (Raw video)].

(** The JSON response of the echo handler, which also announces the
    length of its body. *)
Definition echo_response (code : Z) (payload : pyval) : list event :=
  [SendResponse code;
   SendHeader (py "Content-Type") (HStr (py "application/json; charset=utf-8"));
   SendHeader (py "Content-Length") (HLen (JsonDumps payload));
   EndHeaders;
   Write (JsonDumps payload)].

(** ** The request as the handler reads it *)

(** The body of the request, read and decoded as lines 36 to 38 of
    [route.py] do. *)
Definition request_json (w : World) : Result pyval :=
  rbind (int (headers_get w (py "Content-Length") None)) (fun content_len =>
  rbind (rfile_read w content_len) (Json.loads_bytes (w_recursion w))).

(** The two fields of the request (lines 40 and 41). *)
Definition request_fields (w : World) : Result (pyval * pyval) :=
  rbind (request_json w) (fun data =>
  rbind (get data (py "latex") PNone) (fun latex_equation =>
  rbind (get data (py "explanations") PNone) (fun explanations =>
  Val (latex_equation, explanations)))).

(** The check of line 43. *)
Definition complete (w : World) (latex_equation explanations : pyval) : bool :=
  all [latex_equation; explanations;
       of_option (w_DAYTONA_API_KEY w); of_option (w_GEMINI_API_KEY w)].

(** The request is read, its fields and the credentials pass the check: the
    pipeline starts, on these two fields. *)
Definition accepted (w : World) (latex_equation explanations : pyval) : Prop :=
  request_fields w = Val (latex_equation, explanations)
  /\ complete w latex_equation explanations = true.

(** ** Events of interest *)

Definition is_Remove (ev : event) : bool :=
  match ev with Remove _ => true | _ => false end.


Definition is_Create (ev : event) : bool :=
  match ev with Create _ => true | _ => false end.

(** How often a kind of event occurs in a trace. *)
Definition count (kind : event -> bool) (tr : list event) : nat :=
  List.length (filter kind tr).

(** Provisioning succeeded: [daytona.create] was called and returned a
    sandbox. *)
Definition provisioned (w : World) : Prop :=
  count is_Create (snd (Route.handle w)) = 1%nat
  /\ exists sb, w_create w = Val sb.

(** The ways a request is served: it cannot be read; it is rejected by
    the check; or the guarded pipeline runs and leaves the variable
    [sandbox] unset, or set, in which case the sandbox is removed (section
    4.3 of the specification). *)
Inductive served (w : World) : Result unit * list event -> Prop :=
| served_unread e :
    request_fields w = Raise e ->
    served w (Raise e, [])
| served_rejected a b :
    request_fields w = Val (a, b) ->
    complete w a b = false ->
    served w (Val tt, error_response 400 (py "Missing required data or API keys."))
| served_unprovisioned a b r tr :
    accepted w a b ->
    Route.guarded w reliable a b (None, []) = (r, (None, tr)) ->
    served w (r, tr)
| served_provisioned a b r sb tr :
    accepted w a b ->
    Route.guarded w reliable a b (None, []) = (r, (Some sb, tr)) ->
    served w (match w_remove w sb with Val _ => r | Raise e => Raise e end,
              tr ++ [Remove sb]).

(** The world [w], but with a [daytona.remove] that never raises. *)
Definition quiet (w : World) : World :=
  {| w_headers := w_headers w;
     w_rfile := w_rfile w;
     w_memory := w_memory w;
     w_recursion := w_recursion w;
     w_DAYTONA_API_KEY := w_DAYTONA_API_KEY w;
     w_GEMINI_API_KEY := w_GEMINI_API_KEY w;
     w_urandom := w_urandom w;
     w_generate_content := w_generate_content w;
     w_create := w_create w;
     w_exec := w_exec w;
     w_upload_file := w_upload_file w;
     w_download_file := w_download_file w;
     w_remove := fun _ => Val tt |}.

(** [daytona.remove] is called on [sb] and raises [e]. *)
Definition destroy_raises (w : World) (sb : Sandbox) (e : exn) : Prop :=
  In (Remove sb) (snd (Route.handle w)) /\ w_remove w sb = Raise e.

(** ** The successful run *)

(** What the handler has written as the body of its response. *)
Definition response_body (tr : list event) : list wire :=
  flat_map (fun ev => match ev with Write body => [body] | _ => [] end) tr.

(** Every stage succeeds: the request is accepted with the fields [a] and
    [b]; the model answers, and the script taken from its answer encodes
    to [content]; a sandbox [sb] is created; the install command exits
    with 0; the upload succeeds; the render command exits with 0; the
    download returns [video]. *)
Definition all_stages_succeed (w : World) (a b : pyval) (sb : Sandbox)
    (content video : bytes) : Prop :=
  accepted w a b
  /\ (exists text,
        w_generate_content w (Route.prompt a b) = Val text
        /\ encode (strip (replace (replace text (py "```python") []) (py "```") []))
           = Val content)
  /\ w_create w = Val sb
  /\ (exists r, w_exec w sb Route.install_command = Val r /\ exit_code r = 0%Z)
  /\ w_upload_file w sb (py "/home/daytona/" ++ Route.script_filename w) content
     = Val tt
  /\ (exists r, w_exec w sb (Route.render_command w) = Val r /\ exit_code r = 0%Z)
  /\ w_download_file w sb (Route.video_path w) = Val video.

(** The calls of a successful run, up to the download. *)
Definition successful_calls (w : World) (a b : pyval) (sb : Sandbox)
    (content : bytes) : list event :=
  [GenerateContent (py "gemini-1.5-flash") (Route.prompt a b);
   Create (py "python");
   Exec sb Route.install_command 300;
   UploadFile sb (py "/home/daytona/" ++ Route.script_filename w) content;
   Exec sb (Route.render_command w) 300;
   DownloadFile sb (Route.video_path w)].

(** The [Content-Length] header is absent, or [int] rejects its value. *)
Definition content_length_unusable (w : World) : Prop :=
  headers_get w (py "Content-Length") None = None
  \/ exists s e, headers_get w (py "Content-Length") None = Some s
                 /\ int_of_str s = Raise e.

(** ** The download path, in the words of the specification *)

Definition endswith (s suffix : str) : bool := startswith (rev s) (rev suffix).

(** [s] with its suffix removed, when it ends with it. *)
Definition removesuffix (s suffix : str) : str :=
  if endswith s suffix
  then firstn (List.length s - List.length suffix) s
  else s.

Definition derived_path (script_filename : str) : str :=
  py "/home/daytona/media/videos/" ++ removesuffix script_filename (py ".py")
  ++ py "/480p15/EquationExplanation.mp4".

(** ** The script, in the words of the specification *)

(** [out] is [s] with the occurrences of [marker] left out: they are
    found from the left, and after one the search goes on behind it. *)
Inductive without (marker : str) : str -> str -> Prop :=
| without_end : without marker [] []
| without_marker rest out :
    without marker rest out -> without marker (marker ++ rest) out
| without_char c rest out :
    (forall r, c :: rest <> marker ++ r) ->
    without marker rest out -> without marker (c :: rest) (c :: out).

(** [out] is [s] without the white space at its two ends. *)
Definition trimmed (s out : str) : Prop :=
  exists l r,
    s = l ++ out ++ r
    /\ Forall (fun c => isspace c = true) l
    /\ Forall (fun c => isspace c = true) r
    /\ (forall c t, out = c :: t -> isspace c = false)
    /\ (forall t c, out = t ++ [c] -> isspace c = false).

(** [marker] occurs in [s]. *)
Definition holds (s marker : str) : Prop := exists l r, s = l ++ marker ++ r.

End Spec.

(* ===================================================================== *)
(** * Concrete requests *)
(* ===================================================================== *)

Module Scenario.
Import Py Http.

(** A JSON string literal without escapes. *)
Definition quoted (s : string) : str := 34%N :: py s ++ [34%N].

Fixpoint members (fields : list (string * string)) : str :=
  match fields with
  | [] => []
  | [(k, v)] => quoted k ++ py ": " ++ quoted v
  | (k, v) :: rest => quoted k ++ py ": " ++ quoted v ++ py ", " ++ members rest
  end.

(** The text of a JSON object with string fields. *)
Definition object (fields : list (string * string)) : bytes :=
  py "{" ++ members fields ++ py "}".

(** The request of section 8 of the specification. *)
Definition emc2 : bytes :=
  object [("latex", "E=mc^2");
          ("explanations", "E is energy, m is mass, c is speed of light")]%string.

Definition the_sandbox : Sandbox := {| sandbox_id := 1 |}.

Definition script_text : str :=
  py "```python
from manim import *

class EquationExplanation(Scene):
    def construct(self):
        self.play(Write(MathTex('E=mc^2')))
```
".

(** The script in [script_text], as it is uploaded. *)
Definition script_content : bytes :=
  py "from manim import *

class EquationExplanation(Scene):
    def construct(self):
        self.play(Write(MathTex('E=mc^2')))".

Definition latex_field : pyval := PStr (py "E=mc^2").

Definition explanations_field : pyval :=
  PStr (py "E is energy, m is mass, c is speed of light").

(** Where the video of that script is, the UUID being the one [world]
    draws. *)
Definition video_file : str :=
  py "/home/daytona/media/videos/manim_script_550e8400-e29b-41d4-a716-446655440000/480p15/EquationExplanation.mp4".

Definition mp4 : bytes := [0; 0; 0; 24; 102; 116; 121; 112; 109; 112; 52; 50]%N.

Definition boom : exn := Exn Exception (py "sandbox not found").

(** A world in which a request with the given headers and body is served
    with both credentials set, and every remote call succeeds, except as
    [install], [download] and [remove] say. *)
Definition world (headers : list (str * str)) (body : bytes)
    (install : ExecuteResponse) (download : Result bytes) (remove : Result unit)
  : World :=
  {| w_headers := headers;
     w_rfile := body;
     w_memory := 1073741824;
     w_recursion := 950;
     w_DAYTONA_API_KEY := Some (py "dtn_key");
     w_GEMINI_API_KEY := Some (py "gemini_key");
     w_urandom := 113059749145936325402354257176981405696;
     w_generate_content := fun _ => Val script_text;
     w_create := Val the_sandbox;
     w_exec := fun _ command =>
       Val (if str_eqb command (py "pip install manim && manim-latex-downloader")
            then install
            else {| exit_code := 0; result := py "File ready" |});
     w_upload_file := fun _ _ _ => Val tt;
     w_download_file := fun _ _ => download;
     w_remove := fun _ => remove |}.

Definition with_length (body : bytes) : list (str * str) :=
  [(py "Host", py "localhost"); (py "Content-Type", py "application/json");
   (py "Content-Length", str_of_nat (List.length body))].

Definition installed : ExecuteResponse :=
  {| exit_code := 0; result := py "Successfully installed manim" |}.

Definition not_installed : ExecuteResponse :=
  {| exit_code := 1; result := py "ERROR: No matching distribution found for manim" |}.

(** Everything succeeds. *)
Definition happy : World :=
  world (with_length emc2) emc2 installed (Val mp4) (Val tt).

(** Everything succeeds, and the rendered file is empty. *)
Definition empty_artifact : World :=
  world (with_length emc2) emc2 installed (Val []) (Val tt).

(** The install command fails. *)
Definition install_fails : World :=
  world (with_length emc2) emc2 not_installed (Val mp4) (Val tt).

(** Everything succeeds but the removal of the sandbox. *)
Definition remove_fails : World :=
  world (with_length emc2) emc2 installed (Val mp4) (Raise boom).

(** A request with an empty body. *)
Definition empty_body : World :=
  world (with_length []) [] installed (Val mp4) (Val tt).

(** A request whose body is not JSON. *)
Definition malformed : World :=
  world (with_length (py "{latex: E=mc^2}")) (py "{latex: E=mc^2}")
        installed (Val mp4) (Val tt).

(** A request without a [Content-Length] header. *)
Definition no_content_length : World :=
  world [(py "Host", py "localhost")] emc2 installed (Val mp4) (Val tt).

(** A request whose [Content-Length] is not a number. *)
Definition bad_content_length : World :=
  world [(py "Content-Length", py "many")] emc2 installed (Val mp4) (Val tt).




(** A request whose field [latex] is the empty string. *)
Definition blank_latex : bytes :=
  object [("latex", EmptyString); ("explanations", "E is energy")]%string.

Definition blank_latex_data : list (str * pyval) :=
  [(py "latex", PStr []); (py "explanations", PStr (py "E is energy"))].

Definition latex_empty : World :=
  world (with_length blank_latex) blank_latex installed (Val mp4) (Val tt).

End Scenario.

(* ===================================================================== *)
(** * Further notions: the stages of a run, the echo handler *)
(* ===================================================================== *)

Module Flow.
Import Py Http Spec.

Definition is_SendResponse (ev : event) : bool :=
  match ev with SendResponse _ => true | _ => false end.

(** The calls of the stages of the pipeline: to the model, and to the
    sandbox provider before the removal. *)
Definition is_call (ev : event) : bool :=
  match ev with
  | GenerateContent _ _ | Create _ | Exec _ _ _ | UploadFile _ _ _
  | DownloadFile _ _ => true
  | _ => false
  end.

(** The status line and the headers of a response of the video handler,
    up to the call that sends them. *)
Definition head (code : Z) (content_type : string) : list event :=
  [SendResponse code; SendHeader (py "Content-type") (HStr (py content_type));
   EndHeaders].

(** The body of an error response. *)
Definition error_body (message : str) : event :=
  Write (JsonDumps (PDict [(py "error", PStr message)])).

(** No write to the client fails. *)
Definition takes_all (client : Client) : Prop := forall sent, client sent = Val tt.

(** [data.get(k)], with [None] for an absent key. *)
Definition field (data : list (str * pyval)) (k : string) : pyval :=
  match dict_get data (py k) with Some v => v | None => PNone end.

(** How the handler ends when the check of line 43 fails. *)
Definition rejection : Result unit * list event :=
  (Val tt, error_response 400 (py "Missing required data or API keys.")).

(** What line 32 makes of the answer of the model. *)
Definition extract (text : str) : str :=
  strip (replace (replace text (py "```python") []) (py "```") []).

(** The characters of a file name that needs no quoting: lower-case
    letters, digits, [_], [-] and [.]. *)
Definition plain_char (c : N) : bool :=
  in_range 97 122 c || in_range 48 57 c
  || (c =? 95)%N || (c =? 45)%N || (c =? 46)%N.

(** A text without its hyphens. *)
Definition unhyphen (s : str) : str := filter (fun c => negb (c =? 45)%N) s.

(** Where the script is uploaded (line 70). *)
Definition script_path (w : World) : str :=
  py "/home/daytona/" ++ Route.script_filename w.

(** The call to the model, for the two fields of a request. *)
Definition asked (a b : pyval) : event :=
  GenerateContent (py "gemini-1.5-flash") (Route.prompt a b).

(** The calls of a run up to the render command. *)
Definition rendering (w : World) (a b : pyval) (sb : Sandbox) (content : bytes)
  : list event :=
  [asked a b; Create (py "python"); Exec sb Route.install_command 300;
   UploadFile sb (script_path w) content; Exec sb (Route.render_command w) 300].

End Flow.

Module Echo.
Import Py Http.

(** The body as lines 28 and 29 of [index.py] read it. *)
Definition body (w : World) : Result bytes :=
  rbind (int (headers_get w (py "content-length") (Some (py "0"))))
        (fun content_length =>
           if (content_length =? 0)%Z then Val [] else rfile_read w content_length).

(** The payload of line 36, for a body that is not empty. *)
Definition payload (w : World) (raw_body : bytes) : Result pyval :=
  rbind (decode false raw_body) (Json.loads_str (w_recursion w)).

(** The classes of the exceptions [json.loads] raises on a text: the
    text is no JSON, it nests too deep, or an integer of it has too many
    digits. *)
Definition raised_by_loads (e : exn) : bool :=
  match exn_class e with
  | JSONDecodeError | RecursionError | ValueError => true
  | _ => false
  end.

(** The answer of the handler to an expression. *)
Definition echo (expression : pyval) (length : Z) : pyval :=
  PDict [(py "received", expression); (py "length", PInt length)].

Definition error (message : string) : pyval :=
  PDict [(py "error", PStr (py message))].

Definition health : pyval :=
  PDict [(py "status", PStr (py "ok"));
         (py "message", PStr (py "Python backend is running on Vercel."));
         (py "docs", PStr (py "https://vercel.com/docs/functions/runtimes/python"))].

(** One [GET] served. *)
Definition handle_get : Result unit * list event := run (Index.do_GET reliable) tt.

End Echo.

(** More concrete requests and worlds. *)
Module Cases.
Import Py Http Scenario.

Definition rendered : ExecuteResponse :=
  {| exit_code := 0; result := py "File ready" |}.

Definition not_rendered : ExecuteResponse :=
  {| exit_code := 1; result := py "NameError: name 'MathTex' is not defined" |}.

Definition quota : exn := Exn Exception (py "429 Resource has been exhausted").
Definition no_capacity : exn := Exn Exception (py "No available runners").
Definition no_file : exn := Exn Exception (py "file not found").
Definition disk_full : exn := Exn Exception (py "no space left on device").
Definition interrupt : exn := Exn BaseExceptionOnly (py "").

(** The request of section 8, served in a world given call by call. *)
Definition served_by (generate : Result str) (create : Result Sandbox)
    (install render : Result ExecuteResponse) (upload : Result unit)
    (download : Result bytes) (remove : Result unit) : World :=
  {| w_headers := with_length emc2;
     w_rfile := emc2;
     w_memory := 1073741824;
     w_recursion := 950;
     w_DAYTONA_API_KEY := Some (py "dtn_key");
     w_GEMINI_API_KEY := Some (py "gemini_key");
     w_urandom := 113059749145936325402354257176981405696;
     w_generate_content := fun _ => generate;
     w_create := create;
     w_exec := fun _ command =>
       if str_eqb command (py "pip install manim && manim-latex-downloader")
       then install else render;
     w_upload_file := fun _ _ _ => upload;
     w_download_file := fun _ _ => download;
     w_remove := fun _ => remove |}.

Definition model_fails : World :=
  served_by (Raise quota) (Val the_sandbox) (Val installed) (Val rendered)
            (Val tt) (Val mp4) (Val tt).

Definition create_fails : World :=
  served_by (Val script_text) (Raise no_capacity) (Val installed) (Val rendered)
            (Val tt) (Val mp4) (Val tt).

Definition upload_fails : World :=
  served_by (Val script_text) (Val the_sandbox) (Val installed) (Val rendered)
            (Raise disk_full) (Val mp4) (Val tt).

Definition render_fails : World :=
  served_by (Val script_text) (Val the_sandbox) (Val installed) (Val not_rendered)
            (Val tt) (Val mp4) (Val tt).

Definition download_fails : World :=
  served_by (Val script_text) (Val the_sandbox) (Val installed) (Val rendered)
            (Val tt) (Raise no_file) (Val tt).

(** The model answers with a lone surrogate, which no UTF-8 encodes. *)
Definition unencodable : World :=
  served_by (Val (py "x = '" ++ [55357%N] ++ py "'")) (Val the_sandbox)
            (Val installed) (Val rendered) (Val tt) (Val mp4) (Val tt).

(** The install command is interrupted. *)
Definition interrupted : World :=
  served_by (Val script_text) (Val the_sandbox) (Raise interrupt) (Val rendered)
            (Val tt) (Val mp4) (Val tt).

(** The same request with another UUID drawn. *)
Definition happy_again : World :=
  {| w_headers := w_headers happy;
     w_rfile := w_rfile happy;
     w_memory := w_memory happy;
     w_recursion := w_recursion happy;
     w_DAYTONA_API_KEY := w_DAYTONA_API_KEY happy;
     w_GEMINI_API_KEY := w_GEMINI_API_KEY happy;
     w_urandom := 7;
     w_generate_content := w_generate_content happy;
     w_create := w_create happy;
     w_exec := w_exec happy;
     w_upload_file := w_upload_file happy;
     w_download_file := w_download_file happy;
     w_remove := w_remove happy |}.

(** A request with the given body, in the world where all succeeds. *)
Definition post (body : bytes) : World :=
  world (with_length body) body installed (Val mp4) (Val tt).

(** A body that is JSON, and no object. *)
Definition a_list : bytes := py "[1, 2]".

(** A [latex] that is the number zero. *)
Definition zero_latex : bytes :=
  py "{" ++ quoted "latex" ++ py ": 0, " ++ quoted "explanations" ++ py ": "
  ++ quoted "nothing" ++ py "}".

Definition zero_latex_data : list (str * pyval) :=
  [(py "latex", PInt 0); (py "explanations", PStr (py "nothing"))].

(** A [latex] that is a number, not a text. *)
Definition number_latex : bytes :=
  py "{" ++ quoted "latex" ++ py ": 42, " ++ quoted "explanations" ++ py ": "
  ++ quoted "the answer" ++ py "}".

Definition number_latex_data : list (str * pyval) :=
  [(py "latex", PInt 42); (py "explanations", PStr (py "the answer"))].

(** Bodies for the echo handler. *)
Definition expression_text : bytes := object [("expression", "2+2")]%string.

Definition expression_number : bytes :=
  py "{" ++ quoted "expression" ++ py ": 4}".


Definition not_utf8 : bytes := [123; 255; 125]%N.

Definition with_bom : bytes := [239; 187; 191]%N ++ expression_text.


(** A world in which [json.loads] may enter [depth] containers. *)
Definition with_recursion (depth : nat) (w : World) : World :=
  {| w_headers := w_headers w;
     w_rfile := w_rfile w;
     w_memory := w_memory w;
     w_recursion := depth;
     w_DAYTONA_API_KEY := w_DAYTONA_API_KEY w;
     w_GEMINI_API_KEY := w_GEMINI_API_KEY w;
     w_urandom := w_urandom w;
     w_generate_content := w_generate_content w;
     w_create := w_create w;
     w_exec := w_exec w;
     w_upload_file := w_upload_file w;
     w_download_file := w_download_file w;
     w_remove := w_remove w |}.

(** Three lists, one inside the other. *)
Definition nested : bytes := py "[[[1]]]".

(** The request of section 8 with the given [Content-Length]. *)
Definition with_header (value : string) : World :=
  world [(py "Content-Length", py value)] emc2 installed (Val mp4) (Val tt).

(** The client has closed the connection: every write to it fails. *)
Definition broken_pipe : exn := Exn Exception (py "[Errno 32] Broken pipe").

Definition gone : Client := fun _ => Raise broken_pipe.

(** The client closes the connection after the status line and the
    headers of the first response. *)
Definition leaves_early : Client :=
  fun sent =>
    match filter (fun ev => match ev with
                            | EndHeaders | Write _ => true
                            | _ => false
                            end) sent with
    | [EndHeaders] => Val tt
    | _ => Raise broken_pipe
    end.

End Cases.

(* ===================================================================== *)
(** * The built-ins at work *)
(* ===================================================================== *)

Module Examples.
Import Py Http Scenario.

Example int_plain : int (Some (py "82")) = Val 82%Z.
Proof. reflexivity. Qed.

Example int_spaces_sign_underscore : int (Some (py "  +1_000 ")) = Val 1000%Z.
Proof. reflexivity. Qed.

Example int_not_a_number : int (Some (py "12 bytes")) = Raise invalid_literal.
Proof. reflexivity. Qed.

Example int_double_underscore : int (Some (py "1__0")) = Raise invalid_literal.
Proof. reflexivity. Qed.

(** A separator is white space for [strip] and none for [int]; a no-break
    space is white space for both. *)
Example int_separator_is_no_space :
  strip (31 :: py "51")%N = py "51"
  /\ int (Some (31 :: py "51")%N) = Raise invalid_literal
  /\ int (Some (160 :: py "51" ++ [133])%N) = Val 51%Z.
Proof. repeat split; reflexivity. Qed.

Example int_too_many_digits :
  int (Some (repeat 49%N 4300)) = Val ((10 ^ 4300 - 1) / 9)%Z
  /\ int (Some (repeat 49%N 4301 ++ py " bytes")) = Raise (too_many_digits 4301).
Proof. split; vm_compute; reflexivity. Qed.

Example replace_all_occurrences :
  replace (py "a.py.py") (py ".py") [] = py "a".
Proof. reflexivity. Qed.

Example replace_does_not_overlap :
  replace (py "aaaaa") (py "aa") (py "b") = py "bba".
Proof. reflexivity. Qed.

Example replace_empty_pattern : replace (py "ab") [] (py "-") = py "-a-b-".
Proof. reflexivity. Qed.

Example strip_both_ends :
  strip (9 :: 32 :: 160 :: py "x y" ++ [10; 8195; 13])%N = py "x y".
Proof. reflexivity. Qed.

(** The fences go, the code stays. *)
Example script_of_answer :
  encode (strip (replace (replace script_text (py "```python") []) (py "```") []))
  = Val script_content.
Proof. vm_compute. reflexivity. Qed.

(** A fence inside a fence: the first replacement builds a marker, the
    second one removes it. *)
Example fences_nested :
  strip (replace (replace (py "``````pythonpython") (py "```python") []) (py "```") [])
  = py "python".
Proof. reflexivity. Qed.

Example uuid_of_zeros :
  uuid_str (uuid4 0) = py "00000000-0000-4000-8000-000000000000".
Proof. vm_compute. reflexivity. Qed.

Example uuid_of_ones :
  uuid_str (uuid4 (2 ^ 128 - 1)) = py "ffffffff-ffff-4fff-bfff-ffffffffffff".
Proof. vm_compute. reflexivity. Qed.

Example encode_beyond_ascii :
  encode [233; 8364; 128512]%N = Val [195; 169; 226; 130; 172; 240; 159; 152; 128]%N.
Proof. reflexivity. Qed.

Example encode_surrogate :
  encode (py "ab" ++ [55357%N])
  = Raise (Exn UnicodeEncodeError
             (py "'utf-8' codec can't encode character '\ud83d' in position 2: surrogates not allowed")).
Proof. vm_compute. reflexivity. Qed.

Example decode_round_trip :
  decode false [195; 169; 226; 130; 172; 240; 159; 152; 128]%N
  = Val [233; 8364; 128512]%N.
Proof. reflexivity. Qed.

Example decode_overlong : decode false [192; 128]%N = Raise cannot_decode.
Proof. reflexivity. Qed.

Example loads_request :
  Json.loads_bytes 950 emc2
  = Val (PDict [(py "latex", latex_field); (py "explanations", explanations_field)]).
Proof. vm_compute. reflexivity. Qed.

Example loads_nested :
  Json.loads_str 2 (py " [1, -2.50e3, true, null, [], {}] ")
  = Val (PList [PInt 1; PFloat (FDec true 250 1); PBool true; PNone;
               PList []; PDict []]).
Proof. vm_compute. reflexivity. Qed.

Example loads_last_key_wins :
  Json.loads_str 950 (object [("k", "first"); ("j", "x"); ("k", "last")]%string)
  = Val (PDict [(py "k", PStr (py "last")); (py "j", PStr (py "x"))]).
Proof. vm_compute. reflexivity. Qed.

Example loads_escapes :
  Json.loads_str 950 (quoted "\u00e9\ud83d\ude00\n")
  = Val (PStr [233; 128512; 10]%N).
Proof. vm_compute. reflexivity. Qed.

Example loads_trailing_comma :
  Json.loads_str 950 (py "[1,]") = Raise (Json.err "Expecting value").
Proof. vm_compute. reflexivity. Qed.

Example loads_leading_zero :
  Json.loads_str 950 (py "01") = Raise (Json.err "Extra data").
Proof. vm_compute. reflexivity. Qed.

(** A container too many: the limit is met before the text is looked at
    any further. *)
Example loads_too_deep :
  Json.loads_str 3 (py "[[{}]]") = Val (PList [PList [PDict []]])
  /\ Json.loads_str 2 (py "[[{}]]") = Raise (Json.too_deep "object")
  /\ Json.loads_str 2 (py "[[[") = Raise (Json.too_deep "array").
Proof. repeat split; vm_compute; reflexivity. Qed.

Example loads_too_many_digits :
  Json.loads_str 950 (repeat 49%N 4301) = Raise (too_many_digits 4301)
  /\ Json.loads_str 950 (repeat 49%N 4301 ++ py ".0")
     = Val (PFloat (FDec false ((10 ^ 4301 - 1) / 9 * 10) (-1))).
Proof. split; vm_compute; reflexivity. Qed.

(** [[1]] in UTF-16 and in UTF-32, told by the zero octets or by the
    byte-order mark. *)
Example loads_utf16 :
  Json.loads_bytes 950 [91; 0; 49; 0; 93; 0]%N = Val (PList [PInt 1])
  /\ Json.loads_bytes 950 [254; 255; 0; 91; 0; 49; 0; 93]%N = Val (PList [PInt 1])
  /\ Json.loads_bytes 950 [0; 0; 0; 91; 0; 0; 0; 49; 0; 0; 0; 93]%N
     = Val (PList [PInt 1])
  /\ Json.loads_bytes 950 [91; 0; 49; 0; 93]%N
     = Raise (Exn UnicodeDecodeError (py "'utf-16-le' codec can't decode byte")).
Proof. repeat split; vm_compute; reflexivity. Qed.

(** After one byte-order mark, a second one is a character of the text. *)
Example loads_two_marks :
  Json.loads_bytes 950 ([239; 187; 191; 239; 187; 191]%N ++ py "1")
  = Raise (Json.err "Expecting value").
Proof. vm_compute. reflexivity. Qed.

(** What is falsy: [None], [False], zero, the empty text and the empty
    containers; a float that rounds to zero. *)
Example falsy_values :
  map truthy [PNone; PBool false; PInt 0; PStr []; PList []; PDict [];
              PFloat (FDec true 0 0); PFloat (FDec false 1 (-400))]
  = [false; false; false; false; false; false; false; false].
Proof. vm_compute. reflexivity. Qed.

Example truthy_values :
  map truthy [PBool true; PInt (-1); PStr (py " "); PList [PNone];
              PFloat (FDec false 5 (-324)); PFloat FNaN]
  = [true; true; true; true; true; true].
Proof. vm_compute. reflexivity. Qed.

Example header_names_without_case :
  headers_get happy (py "content-LENGTH") None = Some (py "82").
Proof. vm_compute. reflexivity. Qed.

Example read_up_to_length :
  rfile_read happy 1 = Val (py "{") /\ rfile_read happy (-1) = Val emc2
  /\ rfile_read happy 1000 = Val emc2.
Proof. repeat split; vm_compute; reflexivity. Qed.

Example read_length_out_of_range :
  rfile_read happy (-2)
  = Raise (Exn ValueError (py "read length must be non-negative or -1"))
  /\ rfile_read happy (- 2 ^ 63) 
     = Raise (Exn ValueError (py "read length must be non-negative or -1"))
  /\ rfile_read happy (- 2 ^ 63 - 1)
     = Raise (Exn OverflowError (py "cannot fit 'int' into an index-sized integer"))
  /\ rfile_read happy (2 ^ 63)
     = Raise (Exn OverflowError (py "cannot fit 'int' into an index-sized integer"))
  /\ rfile_read happy (2 ^ 63 - 33)
     = Raise (Exn OverflowError (py "byte string is too large"))
  /\ rfile_read happy (2 ^ 63 - 34) = Raise (Exn MemoryError [])
  /\ rfile_read happy (2 ^ 30 + 1) = Raise (Exn MemoryError [])
  /\ rfile_read happy (2 ^ 30) = Val emc2.
Proof. repeat split; vm_compute; reflexivity. Qed.

End Examples.

(* ===================================================================== *)
(** * Facts about the built-ins *)
(* ===================================================================== *)

(** Case analysis on the innermost term that a [match] of the goal
    inspects. *)
Ltac case_step :=
  match goal with
  | |- context [match ?x with _ => _ end] =>
      lazymatch x with
      | context [match _ with _ => _ end] => fail
      | _ => destruct x eqn:?
      end
  end.

Module StrFacts.
Import Py Spec.

(** ** [replace], as Python describes it *)

Lemma replace_from_skip k : forall s old new,
  replace_from k s old new = replace_from 0 (skipn k s) old new.
Proof.
  induction k as [|k IH]; intros s old new; [reflexivity|].
  destruct s as [|c s]; [reflexivity|]. cbn [replace_from skipn]. apply IH.
Qed.

(** At a match the new text is put and the search goes on after the
    match; elsewhere the character is kept. *)
Lemma replace_step c s o old new :
  replace (c :: s) (o :: old) new
  = if startswith (c :: s) (o :: old)
    then new ++ replace (skipn (List.length (o :: old)) (c :: s)) (o :: old) new
    else c :: replace s (o :: old) new.
Proof.
  unfold replace. cbn [replace_from].
  destruct (startswith (c :: s) (o :: old)); [|reflexivity].
  rewrite replace_from_skip. cbn [List.length skipn Nat.sub].
  rewrite Nat.sub_0_r. reflexivity.
Qed.

(** ** Searching and stripping *)

Lemma startswith_app s q p : startswith s p = true -> startswith (s ++ q) p = true.
Proof.
  revert s; induction p as [|c p IH]; intros s; [reflexivity|].
  destruct s as [|d s]; simpl; [discriminate|].
  intros H. apply andb_true_iff in H as [H1 H2]. rewrite H1, IH; auto.
Qed.

Lemma startswith_longer s p p' : startswith s (p ++ p') = true -> startswith s p = true.
Proof.
  revert s; induction p as [|c p IH]; intros s; [reflexivity|].
  destruct s as [|d s]; simpl; [discriminate|].
  intros H. apply andb_true_iff in H as [H1 H2]. rewrite H1. simpl. eauto.
Qed.

Lemma contains_suffix p s old : contains (p ++ s) old = false -> contains s old = false.
Proof.
  induction p as [|c p IH]; simpl; auto.
  intros H. apply orb_false_iff in H as [_ H]. auto.
Qed.

Lemma contains_prefix s q old : contains (s ++ q) old = false -> contains s old = false.
Proof.
  induction s as [|c s IH]; simpl.
  - destruct old; simpl; auto. destruct q; simpl; intros H; [exact H|].
    discriminate.
  - intros H. apply orb_false_iff in H as [H1 H2].
    rewrite (IH H2), orb_false_r.
    destruct (startswith (c :: s) old) eqn:E; auto.
    apply (startswith_app _ q) in E. simpl in E. congruence.
Qed.

(** A text without [p] is without every text that begins with [p]. *)
Lemma contains_longer s p p' : contains s p = false -> contains s (p ++ p') = false.
Proof.
  induction s as [|d s IH]; simpl; intros H; apply orb_false_iff in H as [H1 H2].
  - rewrite orb_false_r.
    destruct (startswith [] (p ++ p')) eqn:E; auto.
    apply startswith_longer in E. congruence.
  - rewrite (IH H2), orb_false_r.
    destruct (startswith (d :: s) (p ++ p')) eqn:E; auto.
    apply startswith_longer in E. congruence.
Qed.

Lemma lstrip_suffix s : exists p, s = p ++ lstrip s.
Proof.
  induction s as [|c s [p IH]]; simpl.
  - exists []; reflexivity.
  - destruct (isspace c).
    + exists (c :: p). simpl. congruence.
    + exists []. reflexivity.
Qed.

Lemma rstrip_prefix s : exists q, s = rstrip s ++ q.
Proof.
  unfold rstrip. destruct (lstrip_suffix (rev s)) as [p H].
  exists (rev p). rewrite <- rev_app_distr, <- H, rev_involutive. reflexivity.
Qed.

Lemma strip_infix s : exists p q, s = p ++ strip s ++ q.
Proof.
  unfold strip. destruct (lstrip_suffix s) as [p Hp].
  destruct (rstrip_prefix (lstrip s)) as [q Hq].
  exists p, q. rewrite <- Hq. exact Hp.
Qed.

Lemma contains_strip s old : contains s old = false -> contains (strip s) old = false.
Proof.
  intros H. destruct (strip_infix s) as (p & q & E). rewrite E in H.
  apply contains_suffix in H. apply contains_prefix in H. exact H.
Qed.

Lemma lstrip_idem s : lstrip (lstrip s) = lstrip s.
Proof.
  induction s as [|c s IH]; simpl; auto.
  destruct (isspace c) eqn:E; auto. simpl. rewrite E. reflexivity.
Qed.

Lemma rstrip_idem s : rstrip (rstrip s) = rstrip s.
Proof. unfold rstrip. rewrite rev_involutive, lstrip_idem. reflexivity. Qed.

Lemma lstrip_rstrip s : lstrip s = s -> lstrip (rstrip s) = rstrip s.
Proof.
  intros H. destruct (rstrip_prefix s) as [q E].
  destruct (rstrip s) as [|c t]; auto.
  rewrite E in H. simpl in H. simpl.
  destruct (isspace c); auto.
  exfalso. destruct (lstrip_suffix (t ++ q)) as [p Hp].
  rewrite H in Hp. apply (f_equal (@List.length N)) in Hp.
  rewrite !length_app in Hp. simpl in Hp. rewrite ?length_app in Hp. lia.
Qed.

(** A stripped text has no whitespace at either end. *)
Lemma strip_stripped s : lstrip (strip s) = strip s /\ rstrip (strip s) = strip s.
Proof.
  unfold strip. split.
  - apply lstrip_rstrip, lstrip_idem.
  - apply rstrip_idem.
Qed.

(** ** Removing a fence of three equal characters *)

(** Once the occurrences of [ccc] have been removed, none is left: what
    remains of a run of [c] is shorter than three and is followed by
    another character. *)
Lemma replace_triple_gone c : forall n s, (List.length s <= n)%nat ->
  contains (replace_from 0 s [c; c; c] []) [c; c; c] = false.
Proof.
  induction n as [|n IH]; intros s Hn.
  - destruct s; [reflexivity | simpl in Hn; lia].
  - destruct s as [|x s]; [reflexivity|].
    destruct (N.eqb_spec c x) as [<-|Hx].
    2:{ apply N.eqb_neq in Hx.
        repeat (progress (simpl; rewrite ?N.eqb_refl, ?Hx)).
        apply IH. simpl in Hn; lia. }
    destruct s as [|y s]; [repeat (progress (simpl; rewrite ?N.eqb_refl)); reflexivity|].
    destruct (N.eqb_spec c y) as [<-|Hy].
    2:{ apply N.eqb_neq in Hy.
        repeat (progress (simpl; rewrite ?N.eqb_refl, ?Hy)).
        apply IH. simpl in Hn; lia. }
    destruct s as [|z s]; [repeat (progress (simpl; rewrite ?N.eqb_refl)); reflexivity|].
    destruct (N.eqb_spec c z) as [<-|Hz].
    2:{ apply N.eqb_neq in Hz.
        repeat (progress (simpl; rewrite ?N.eqb_refl, ?Hz)).
        apply IH. simpl in Hn; lia. }
    repeat (progress (simpl; rewrite ?N.eqb_refl)).
    apply IH. simpl in Hn; lia.
Qed.

(** ** The text of a UUID holds no dot *)

Lemma hexdigit_not_dot d : hexdigit d <> 46%N.
Proof.
  unfold hexdigit.
  destruct (nth_in_or_default (N.to_nat d) (py "0123456789abcdef") 48%N) as [H| ->];
    [|discriminate].
  revert H. generalize (nth (N.to_nat d) (py "0123456789abcdef") 48%N). intros c H.
  cbv in H. intuition (subst; discriminate).
Qed.

Lemma hex_no_dot k n : ~ In 46%N (hex k n).
Proof.
  unfold hex. intros H. apply in_map_iff in H as (i & H & _).
  exact (hexdigit_not_dot _ H).
Qed.

Lemma In_firstn {A} k (l : list A) x : In x (firstn k l) -> In x l.
Proof.
  revert l; induction k as [|k IH]; intros l; simpl; [tauto|].
  destruct l as [|y l]; simpl; [tauto|]. intros [->|H]; auto.
Qed.

Lemma In_skipn {A} k (l : list A) x : In x (skipn k l) -> In x l.
Proof.
  revert l; induction k as [|k IH]; intros l; simpl; [tauto|].
  destruct l as [|y l]; simpl; [tauto|]. auto.
Qed.

Lemma uuid_str_no_dot i : ~ In 46%N (uuid_str i).
Proof.
  unfold uuid_str. intros H.
  repeat (apply in_app_or in H as [H|H]);
    try (apply In_firstn in H); try (apply In_skipn in H);
    try (apply In_skipn in H);
    try (exact (hex_no_dot _ _ H));
    cbv in H; intuition discriminate.
Qed.

(** ** The extension of a name without dots *)

(** [replace] removes every [.py]; in a name whose only dot is that of its
    extension, this is the extension. *)
Lemma replace_ext stem :
  ~ In 46%N stem ->
  replace (stem ++ py ".py") (py ".py") [] = stem.
Proof.
  change (py ".py") with [46; 112; 121]%N. unfold replace.
  induction stem as [|c stem IH]; intros H; [reflexivity|].
  simpl in H. cbn [app replace_from startswith].
  destruct (N.eqb_spec 46 c) as [E|_]; [symmetry in E; tauto|].
  cbn [andb]. f_equal. apply IH. tauto.
Qed.

(** ** [replace] and [strip], in the words of the specification *)

Lemma startswith_spec p : forall s,
  startswith s p = true <-> exists r, s = p ++ r.
Proof.
  induction p as [|c p IH]; intros s; cbn [startswith].
  - split; [intros _; exists s; reflexivity | reflexivity].
  - destruct s as [|d s].
    + split; [discriminate | intros [r H]; discriminate].
    + rewrite andb_true_iff, N.eqb_eq, IH. split.
      * intros [-> [r ->]]. exists r. reflexivity.
      * intros [r H]. injection H as -> ->. split; [reflexivity | exists r; reflexivity].
Qed.

Lemma contains_spec old : forall s, contains s old = false -> ~ holds s old.
Proof.
  intros s H [l [r E]]. subst s. apply contains_suffix in H.
  destruct (old ++ r) as [|c t] eqn:X; cbn [contains] in H;
    apply orb_false_iff in H as [H _];
    (assert (T : startswith (old ++ r) old = true)
       by (apply startswith_spec; exists r; reflexivity));
    rewrite X in T; congruence.
Qed.

(** Where [old] does not occur, [replace] changes nothing. *)
Lemma replace_absent s o old new :
  contains s (o :: old) = false -> replace s (o :: old) new = s.
Proof.
  unfold replace. induction s as [|c s IH]; [reflexivity|].
  cbn [contains replace_from]. intros H. apply orb_false_iff in H as [H1 H2].
  rewrite H1. f_equal. exact (IH H2).
Qed.

(** At an occurrence of [old], [replace] puts [new] and goes on behind
    it. *)
Lemma replace_at o old new rest :
  replace ((o :: old) ++ rest) (o :: old) new = new ++ replace rest (o :: old) new.
Proof.
  change ((o :: old) ++ rest) with (o :: (old ++ rest)). rewrite replace_step.
  assert (T : startswith (o :: old ++ rest) (o :: old) = true)
    by (apply startswith_spec; exists rest; reflexivity).
  rewrite T. f_equal. f_equal.
  change (o :: old ++ rest) with ((o :: old) ++ rest).
  rewrite skipn_app, skipn_all, Nat.sub_diag. reflexivity.
Qed.

(** Through a text without the first character of [old], [replace]
    passes. *)
Lemma replace_clean o old new rest : forall p,
  ~ In o p -> replace (p ++ rest) (o :: old) new = p ++ replace rest (o :: old) new.
Proof.
  induction p as [|c p IH]; intros H; [reflexivity|].
  cbn [app]. rewrite replace_step. cbn [startswith].
  destruct (N.eqb_spec o c) as [->|_]; [destruct H; left; reflexivity|].
  cbn [andb]. f_equal. apply IH. intros I. apply H. right. exact I.
Qed.

Lemma clean_absent o old : forall p, ~ In o p -> contains p (o :: old) = false.
Proof.
  induction p as [|c p IH]; intros H; [reflexivity|].
  cbn [contains startswith].
  destruct (N.eqb_spec o c) as [->|_]; [destruct H; left; reflexivity|].
  cbn [andb orb]. apply IH. intros I. apply H. right. exact I.
Qed.

(** [replace] by nothing, in the words of [without]. *)
Lemma replace_without o old : forall n s, (List.length s <= n)%nat ->
  without (o :: old) s (replace s (o :: old) []).
Proof.
  induction n as [|n IH]; intros s L.
  - destruct s; [constructor | cbn [List.length] in L; lia].
  - destruct s as [|c s]; [constructor|].
    rewrite replace_step. destruct (startswith (c :: s) (o :: old)) eqn:T.
    + apply startswith_spec in T as [r E]. rewrite E.
      rewrite skipn_app, skipn_all, Nat.sub_diag. cbn [app skipn].
      change (o :: old ++ r) with ((o :: old) ++ r). constructor. apply IH.
      apply (f_equal (@List.length N)) in E. cbn [List.length app] in *.
      rewrite length_app in E. lia.
    + constructor.
      * intros r E.
        assert (X : startswith (c :: s) (o :: old) = true)
          by (apply startswith_spec; exists r; exact E).
        congruence.
      * apply IH. cbn [List.length] in L. lia.
Qed.

(** ** [strip], in the words of [trimmed] *)

Lemma lstrip_split s :
  exists l, s = l ++ lstrip s
            /\ Forall (fun c => isspace c = true) l
            /\ forall c t, lstrip s = c :: t -> isspace c = false.
Proof.
  induction s as [|c s (l & E & F & H)]; cbn [lstrip].
  - exists []. repeat split; [constructor | discriminate].
  - destruct (isspace c) eqn:W.
    + exists (c :: l). cbn [app]. rewrite <- E. repeat split; [constructor|]; assumption.
    + exists []. repeat split; [constructor|]. intros c' t [= <- _]. exact W.
Qed.

Lemma rstrip_split s :
  exists r, s = rstrip s ++ r
            /\ Forall (fun c => isspace c = true) r
            /\ forall t c, rstrip s = t ++ [c] -> isspace c = false.
Proof.
  unfold rstrip. destruct (lstrip_split (rev s)) as (l & E & F & H).
  exists (rev l). split; [|split].
  - rewrite <- rev_app_distr, <- E, rev_involutive. reflexivity.
  - apply Forall_rev. exact F.
  - intros t c X. apply (f_equal (@rev N)) in X.
    rewrite rev_involutive, rev_app_distr in X. exact (H _ _ X).
Qed.

Lemma strip_trimmed s : trimmed s (strip s).
Proof.
  unfold strip.
  destruct (lstrip_split s) as (l & E & F & H).
  destruct (rstrip_split (lstrip s)) as (r & E' & F' & H').
  exists l, r. split; [|split; [exact F | split; [exact F' | split; [|exact H']]]].
  - rewrite <- E'. exact E.
  - intros c t X. rewrite X in E'. exact (H _ _ E').
Qed.

(** ** An answer that is one block *)

Lemma block_unfenced before code after :
  ~ In 96%N before -> ~ In 96%N code -> ~ In 96%N after ->
  (forall r, after <> py "python" ++ r) ->
  replace (replace (before ++ py "```python" ++ code ++ py "```" ++ after)
                   (py "```python") []) (py "```") []
  = before ++ code ++ after.
Proof.
  intros B C A P.
  change (py "```python") with (96%N :: py "``python").
  change (py "```") with (96%N :: py "``").
  rewrite (replace_clean 96 _ [] _ before B), replace_at. cbn [app].
  rewrite (replace_clean 96 _ [] _ code C).
  rewrite (replace_absent ((96%N :: py "``") ++ after)).
  - rewrite (replace_clean 96 _ [] _ before B), (replace_clean 96 _ [] _ code C).
    rewrite replace_at. cbn [app].
    rewrite <- (app_nil_r after) at 1.
    rewrite (replace_clean 96 _ [] _ after A). cbn. rewrite app_nil_r. reflexivity.
  - assert (T : startswith after (py "python") = false).
    { destruct (startswith after (py "python")) eqn:T; [|reflexivity].
      apply startswith_spec in T as [r E]. destruct (P r E). }
    pose proof (clean_absent 96 (py "``python") after A) as N.
    change (py "``") with [96; 96]%N. cbn [app contains].
    change (py "``python") with (96 :: 96 :: py "python")%N in *.
    cbn [startswith]. rewrite !N.eqb_refl. cbn [andb]. rewrite T. cbn [orb].
    destruct after as [|c after']; [reflexivity|].
    assert (X : (96 =? c)%N = false).
    { apply N.eqb_neq. intros <-. apply A. left. reflexivity. }
    rewrite X. cbn [andb orb]. rewrite ?andb_false_r. cbn [orb]. exact N.
Qed.

End StrFacts.

Module JsonFacts.
Import Py Py.Json Echo.

Lemma scanstring_raises fuel : forall s e,
  scanstring fuel s = Raise e -> is_JSONDecodeError e = true.
Proof.
  induction fuel as [|f IH]; intros s e; cbn [scanstring].
  - intros [= <-]; reflexivity.
  - unfold push, rbind.
    repeat (case_step; try discriminate);
      try (intros [= <-]; reflexivity);
      intros [= <-]; eapply IH; eassumption.
Qed.

Lemma match_number_raises s e r :
  match_number s = Some (Raise e, r) -> exn_class e = ValueError.
Proof.
  unfold match_number.
  repeat (case_step; try discriminate); intros [= <- _]; reflexivity.
Qed.

Lemma by_scanstring e : is_JSONDecodeError e = true -> raised_by_loads e = true.
Proof.
  unfold is_JSONDecodeError, raised_by_loads. destruct (exn_class e); congruence.
Qed.

(** What the scanner raises is a [JSONDecodeError], a [RecursionError] or
    the [ValueError] of an integer. *)
Lemma scan_once_raises fuel :
  (forall depth s e, scan_once depth fuel s = Raise e -> raised_by_loads e = true)
  /\ (forall depth s d e, members depth fuel s d = Raise e -> raised_by_loads e = true)
  /\ (forall depth s acc e,
        elements depth fuel s acc = Raise e -> raised_by_loads e = true).
Proof.
  induction fuel as [|f (IHs & IHm & IHe)].
  - repeat split; intros; cbn in *;
      match goal with H : Raise _ = Raise _ |- _ => injection H as <-; reflexivity end.
  - split; [|split].
    + intros depth s e. cbn [scan_once]. unfold rbind.
      repeat (case_step; try discriminate);
        try (intros [= <-]; reflexivity);
        try (intros E; first [eapply IHm; exact E | eapply IHe; exact E]);
        try (intros [= <-]; apply by_scanstring; eapply scanstring_raises; eassumption).
      intros [= <-]. subst.
      match goal with H : match_number _ = Some _ |- _ =>
        apply match_number_raises in H; unfold raised_by_loads; rewrite H; reflexivity
      end.
    + intros depth s d e. cbn [members]. unfold rbind.
      repeat (case_step; try discriminate);
        try (intros [= <-]; reflexivity);
        try (intros E; first [eapply IHm; exact E | eapply IHs; exact E]);
        try (intros [= <-]; apply by_scanstring; eapply scanstring_raises; eassumption);
        try (intros [= <-]; eapply IHs; eassumption).
    + intros depth s acc e. cbn [elements]. unfold rbind.
      repeat (case_step; try discriminate);
        try (intros [= <-]; reflexivity);
        try (intros E; first [eapply IHe; exact E | eapply IHs; exact E]);
        try (intros [= <-]; eapply IHs; eassumption).
Qed.

Lemma loads_str_raises depth s e :
  loads_str depth s = Raise e -> raised_by_loads e = true.
Proof.
  unfold loads_str, Json.decode, rbind.
  repeat (case_step; try discriminate); try (intros [= <-]; reflexivity).
  intros [= <-]. eapply (proj1 (scan_once_raises _)); eassumption.
Qed.

End JsonFacts.

(** The fuel of the JSON scanner is enough. *)
Module FuelFacts.
Import Py Py.Json.

Lemma skip_ws_le s : (List.length (skip_ws s) <= List.length s)%nat.
Proof.
  induction s as [|c s IH]; cbn [skip_ws]; [lia|].
  destruct (is_ws c); cbn [List.length]; lia.
Qed.

Lemma decode_uXXXX_lt s n r :
  decode_uXXXX s = Some (n, r) -> (List.length r < List.length s)%nat.
Proof.
  unfold decode_uXXXX. repeat (case_step; try discriminate).
  intros [= _ <-]. subst. cbn [List.length]. lia.
Qed.

Lemma skipn_le {A} k (l : list A) : (List.length (skipn k l) <= List.length l)%nat.
Proof. rewrite length_skipn. lia. Qed.

Lemma scanstring_lt fuel : forall s t r,
  scanstring fuel s = Val (t, r) -> (List.length r < List.length s)%nat.
Proof.
  induction fuel as [|f IH]; intros s t r; cbn [scanstring]; [discriminate|].
  unfold push, rbind.
  repeat (case_step; try discriminate); subst; intros [= _ <-];
    repeat match goal with
    | H : scanstring f _ = Val (_, _) |- _ => apply IH in H
    | H : decode_uXXXX _ = Some (_, _) |- _ => apply decode_uXXXX_lt in H
    end;
    repeat match goal with
    | H : context [skipn 2 ?l] |- _ =>
        lazymatch goal with
        | _ : (List.length (skipn 2 l) <= List.length l)%nat |- _ => fail
        | _ => pose proof (skipn_le 2 l)
        end
    end;
    cbn [List.length] in *; lia.
Qed.

Lemma take_digits_le s ds r :
  take_digits s = (ds, r) -> (List.length r <= List.length s)%nat.
Proof.
  revert ds r; induction s as [|c s IH]; intros ds r; cbn [take_digits].
  - intros [= _ <-]. lia.
  - destruct (isdigit c).
    + destruct (take_digits s) as [ds' r'] eqn:E. intros [= _ <-].
      specialize (IH _ _ eq_refl). cbn [List.length]. lia.
    + intros [= _ <-]. lia.
Qed.

Lemma int_part_lt s ip r :
  int_part s = Some (ip, r) -> (List.length r < List.length s)%nat.
Proof.
  unfold int_part. repeat (case_step; try discriminate); subst; intros [= _ <-];
    repeat match goal with
    | H : take_digits _ = (_, _) |- _ => apply take_digits_le in H
    end; cbn [List.length] in *; lia.
Qed.

Lemma frac_part_le s fp r :
  frac_part s = Some (fp, r) -> (List.length r <= List.length s)%nat.
Proof.
  unfold frac_part. repeat (case_step; try discriminate); subst; intros [= _ <-];
    repeat match goal with
    | H : take_digits _ = (_, _) |- _ => apply take_digits_le in H
    end; cbn [List.length] in *; lia.
Qed.

Lemma exp_part_le s e r :
  exp_part s = Some (e, r) -> (List.length r <= List.length s)%nat.
Proof.
  unfold exp_part. repeat (case_step; try discriminate); subst;
    repeat match goal with
    | H : (_, _) = (_, _) |- _ => injection H as <- <-
    end; intros [= _ <-];
    repeat match goal with
    | H : take_digits _ = (_, _) |- _ => apply take_digits_le in H
    end; cbn [List.length] in *; lia.
Qed.

Lemma match_number_lt s v r :
  match_number s = Some (v, r) -> (List.length r < List.length s)%nat.
Proof.
  unfold match_number.
  repeat (case_step; try discriminate); subst;
    repeat match goal with
    | H : (_, _) = (_, _) |- _ => injection H as <- <-
    | H : Some _ = Some _ |- _ => injection H as <-
    end; intros [= _ <-];
    repeat match goal with
    | H : int_part _ = Some (_, _) |- _ => apply int_part_lt in H
    | H : frac_part _ = Some (_, _) |- _ => apply frac_part_le in H
    | H : exp_part _ = Some (_, _) |- _ => apply exp_part_le in H
    end; cbn [List.length] in *; lia.
Qed.


(** With as much fuel as the text is long, [scanstring] never runs out:
    more fuel changes nothing. *)
Lemma scanstring_stable f : forall s g,
  (List.length s <= f)%nat -> (f <= g)%nat -> scanstring g s = scanstring f s.
Proof.
  induction f as [|f IH]; intros s g B G.
  - destruct s; [destruct g; reflexivity | cbn [List.length] in B; lia].
  - destruct g as [|g]; [lia|]. cbn [scanstring].
    repeat first
      [ match goal with
        | |- context [scanstring g ?x] =>
            rewrite (IH x g)
              by (repeat match goal with
                         | H : decode_uXXXX _ = Some (_, _) |- _ =>
                             apply decode_uXXXX_lt in H
                         end;
                  try match goal with
                      | H : context [skipn 2 ?l] |- _ => pose proof (skipn_le 2 l)
                      end;
                  subst; cbn [List.length] in *; lia)
        end
      | case_step; try reflexivity ].
Qed.

(** Facts about lengths, from what the goal knows of the scanner. *)
Ltac learn_skip_ws x :=
  lazymatch goal with
  | _ : (List.length (skip_ws x) <= List.length x)%nat |- _ => fail
  | _ => pose proof (skip_ws_le x)
  end.

Ltac lengths :=
  repeat match goal with
  | H : scanstring _ _ = Val (_, _) |- _ => apply scanstring_lt in H
  | H : match_number _ = Some (_, _) |- _ => apply match_number_lt in H
  | H : context [skip_ws ?x] |- _ => learn_skip_ws x
  | |- context [skip_ws ?x] => learn_skip_ws x
  end;
  repeat match goal with
  | H : skip_ws ?x = _ |- _ => rewrite H in *; clear H
  end.

Lemma startswith_length s p :
  startswith s p = true -> (List.length p <= List.length s)%nat.
Proof.
  revert s; induction p as [|c p IH]; intros s; cbn [startswith List.length]; [lia|].
  destruct s as [|d s]; [discriminate|]. intros H.
  apply andb_true_iff in H as [_ H]. apply IH in H. cbn [List.length]. lia.
Qed.

(** A value that is read takes at least one character. *)
Lemma scan_once_lt fuel :
  (forall depth s v r,
     scan_once depth fuel s = Val (v, r) -> (List.length r < List.length s)%nat)
  /\ (forall depth s d v r,
        members depth fuel s d = Val (v, r) -> (List.length r < List.length s)%nat)
  /\ (forall depth s acc v r,
        elements depth fuel s acc = Val (v, r) -> (List.length r < List.length s)%nat).
Proof.
  induction fuel as [|f (IHs & IHm & IHe)]; [repeat split; intros; discriminate|].
  split; [|split].
  - intros depth s v r. cbn [scan_once]. unfold rbind.
    repeat (case_step; try discriminate); subst;
      repeat match goal with
      | |- context [skipn ?k ?x] =>
          let L := fresh "L" in
          pose proof (length_skipn k x) as L; generalize dependent (skipn k x); intros
      | p : (pyval * str)%type |- _ => destruct p
      end;
      try (intros [= _ <-]);
      try (intros E; first [apply IHm in E | apply IHe in E]);
      repeat match goal with
      | H : startswith _ _ = true |- _ => apply startswith_length in H
      | H : Val (_, _) = Val (_, _) |- _ => injection H as _ <-
      end;
      lengths; cbn [List.length py map list_ascii_of_string] in *; lia.
  - intros depth s d v r. cbn [members]. unfold rbind.
    repeat (case_step; try discriminate); subst;
      try (intros [= _ <-]);
      try (intros E; apply IHm in E);
      repeat match goal with
      | H : scan_once _ f _ = Val (_, _) |- _ => apply IHs in H
      end;
      lengths; cbn [List.length] in *; lia.
  - intros depth s acc v r. cbn [elements]. unfold rbind.
    repeat (case_step; try discriminate); subst;
      try (intros [= _ <-]);
      try (intros E; apply IHe in E);
      repeat match goal with
      | H : scan_once _ f _ = Val (_, _) |- _ => apply IHs in H
      end;
      lengths; cbn [List.length] in *; lia.
Qed.


Ltac bounds :=
  repeat match goal with
  | H : scan_once _ _ _ = Val (_, _) |- _ => apply (proj1 (scan_once_lt _)) in H
  end;
  lengths; cbn [List.length] in *; lia.

(** Beyond twice the length of the text, more fuel changes nothing. *)
Lemma scan_once_stable f :
  (forall depth s g, (2 * List.length s + 1 <= f)%nat -> (f <= g)%nat ->
                     scan_once depth g s = scan_once depth f s)
  /\ (forall depth s d g, (2 * List.length s + 2 <= f)%nat -> (f <= g)%nat ->
                          members depth g s d = members depth f s d)
  /\ (forall depth s acc g, (2 * List.length s + 2 <= f)%nat -> (f <= g)%nat ->
                            elements depth g s acc = elements depth f s acc).
Proof.
  induction f as [|f (IHs & IHm & IHe)]; [repeat split; intros; lia|].
  split; [|split].
  - intros depth s [|g] B G; [lia|]. cbn [scan_once].
    repeat (case_step; try reflexivity); subst.
    + apply IHm; bounds.
    + apply IHe; bounds.
  - intros depth s d [|g] B G; [lia|]. cbn [members]. unfold rbind.
    repeat first
      [ match goal with
        | |- context [scan_once depth g ?x] => rewrite (IHs depth x g) by bounds
        end
      | case_step; try reflexivity ]; subst.
    apply IHm; bounds.
  - intros depth s acc [|g] B G; [lia|]. cbn [elements]. unfold rbind.
    rewrite (IHs depth s g) by lia.
    repeat (case_step; try reflexivity); subst.
    apply IHe; bounds.
Qed.

(** [decode] would read the same with any more fuel. *)
Lemma decode_fuel depth s g :
  (2 * List.length s + 2 <= g)%nat ->
  scan_once depth g (skip_ws s) = scan_once depth (2 * List.length s + 2) (skip_ws s).
Proof.
  intros G. pose proof (skip_ws_le s).
  rewrite (proj1 (scan_once_stable (2 * List.length (skip_ws s) + 1)) depth _ g) by lia.
  symmetry. apply (proj1 (scan_once_stable _)); lia.
Qed.

End FuelFacts.

(* ===================================================================== *)
(** * Facts about one run of the video handler *)
(* ===================================================================== *)

Module RunFacts.
Import Py Http Spec.
Local Open Scope handler_scope.

(** Unfolding the handler down to the calls whose outcome the world
    decides. *)
Ltac unfold_handler :=
  cbv beta iota zeta delta
    [Route.guarded Route.handle Route.serve Route.do_POST Route.pipeline
     Route.on_exception Route.cleanup Route.generate_manim_script
     Route.generate_content Route.daytona_create Route.process_exec
     Route.fs_upload_file Route.fs_download_file Route.daytona_remove
     send_response send_header end_headers wfile_write to_client reliable
     bind ret raise lift emit get_local set_local try_except try_finally
     run fst snd].

(** All the ways through the handler. *)
Ltac exec := unfold_handler; repeat (case_step; cbv beta iota zeta delta [fst snd]).

Lemma count_app kind (t u : list event) :
  count kind (t ++ u) = (count kind t + count kind u)%nat.
Proof. unfold count. rewrite filter_app, length_app. reflexivity. Qed.

Lemma count_none kind (tr : list event) ev :
  count kind tr = 0%nat -> In ev tr -> kind ev = false.
Proof.
  unfold count. intros Z I. destruct (kind ev) eqn:K; [|reflexivity].
  assert (F : In ev (filter kind tr)) by (apply filter_In; auto).
  destruct (filter kind tr); [destruct F | discriminate].
Qed.

(** ** Before the pipeline *)

Lemma serve_unread w client e :
  request_fields w = Raise e -> Route.serve w client = (Raise e, []).
Proof.
  unfold request_fields, request_json, rbind.
  unfold Route.serve, Route.do_POST, run, bind, lift. intros H.
  repeat (case_step; cbv beta iota zeta delta [fst snd]); congruence.
Qed.

Lemma handle_unread w e :
  request_fields w = Raise e -> Route.handle w = (Raise e, []).
Proof. apply serve_unread. Qed.

(** The rejection, with a client that may fail. *)
Lemma serve_rejected w client a b :
  request_fields w = Val (a, b) -> complete w a b = false ->
  Route.serve w client
  = let headers := [SendResponse 400;
                    SendHeader (py "Content-type") (HStr (py "application/json"));
                    EndHeaders] in
    let body := Write (JsonDumps (PDict [(py "error",
                  PStr (py "Missing required data or API keys."))])) in
    match client headers with
    | Val _ => (client (headers ++ [body]), headers ++ [body])
    | Raise e => (Raise e, headers)
    end.
Proof.
  unfold request_fields, request_json, rbind, complete. unfold_handler.
  intros H C.
  do 5 (case_step; cbv beta iota zeta delta [fst snd]; try discriminate).
  injection H as -> ->. rewrite C. cbn [negb app].
  destruct (client _); reflexivity.
Qed.

Lemma handle_rejected w a b :
  request_fields w = Val (a, b) -> complete w a b = false ->
  Route.handle w
  = (Val tt, error_response 400 (py "Missing required data or API keys.")).
Proof.
  unfold request_fields, request_json, rbind, complete. unfold_handler.
  intros H C.
  do 5 (case_step; cbv beta iota zeta delta [fst snd]; try discriminate).
  injection H as -> ->. rewrite C. reflexivity.
Qed.

Lemma request_fields_of_object w data :
  request_json w = Val (PDict data) ->
  request_fields w
  = Val (match dict_get data (py "latex") with Some v => v | None => PNone end,
         match dict_get data (py "explanations") with Some v => v | None => PNone end).
Proof. unfold request_fields. intros ->. reflexivity. Qed.

(** ** The [finally] clause *)

Lemma cleanup_run w l tr :
  Route.cleanup w (l, tr)
  = match l with
    | Some sb => (w_remove w sb, (l, tr ++ [Remove sb]))
    | None => (Val tt, (l, tr))
    end.
Proof. destruct l; reflexivity. Qed.

Lemma serve_accepted w client a b r l tr :
  accepted w a b ->
  Route.guarded w client a b (None, []) = (r, (l, tr)) ->
  Route.serve w client
  = match l with
    | Some sb =>
        (match w_remove w sb with Val _ => r | Raise e => Raise e end,
         tr ++ [Remove sb])
    | None => (r, tr)
    end.
Proof.
  intros [H C] G.
  assert (E : Route.serve w client
              = run (try_finally (Route.guarded w client a b) (Route.cleanup w)) None).
  { revert H C. unfold request_fields, request_json, rbind, complete.
    unfold Route.serve, Route.do_POST, run, bind, lift, set_local.
    intros H C.
    do 5 (case_step; cbv beta iota zeta delta [fst snd]; try discriminate).
    injection H as -> ->. rewrite C. reflexivity. }
  rewrite E. unfold run, try_finally. rewrite G, cleanup_run.
  destruct l as [sb|]; [destruct (w_remove w sb)|]; reflexivity.
Qed.

Lemma handle_accepted w a b r l tr :
  accepted w a b ->
  Route.guarded w reliable a b (None, []) = (r, (l, tr)) ->
  Route.handle w
  = match l with
    | Some sb =>
        (match w_remove w sb with Val _ => r | Raise e => Raise e end,
         tr ++ [Remove sb])
    | None => (r, tr)
    end.
Proof. apply serve_accepted. Qed.

(** Every request is served in one of the four ways. *)
Lemma handle_served w : served w (Route.handle w).
Proof.
  destruct (request_fields w) as [[a b]|e] eqn:F.
  2:{ rewrite (handle_unread w e F). constructor. exact F. }
  destruct (complete w a b) eqn:C.
  2:{ rewrite (handle_rejected w a b F C). econstructor; eassumption. }
  destruct (Route.guarded w reliable a b (None, [])) as [r [[sb|] tr]] eqn:G;
    rewrite (handle_accepted w a b _ _ _ (conj F C) G).
  - eapply served_provisioned; [split|]; eassumption.
  - eapply served_unprovisioned; [split|]; eassumption.
Qed.

(** ** The guarded pipeline *)

(** When the guarded pipeline is left, nothing has been removed, and the
    variable [sandbox] holds a sandbox exactly when [daytona.create] has
    been called and has returned it. *)
Lemma guarded_inv w a b r l tr :
  Route.guarded w reliable a b (None, []) = (r, (l, tr)) ->
  count is_Remove tr = 0%nat
  /\ match l with
     | Some sb => w_create w = Val sb /\ count is_Create tr = 1%nat
     | None => count is_Create tr = 0%nat \/ exists e, w_create w = Raise e
     end.
Proof.
  exec; intros G; inversion G; subst; clear G;
    cbn [app count filter is_Remove is_Create List.length];
    repeat split; eauto.
Qed.

(** Whatever the guarded pipeline downloads, it downloads from
    [video_path]. *)
Lemma guarded_downloads w a b r l tr sb path :
  Route.guarded w reliable a b (None, []) = (r, (l, tr)) ->
  In (DownloadFile sb path) tr -> path = Route.video_path w.
Proof.
  exec; intros G; inversion G; subst; clear G; cbn [app In];
    intros H; decompose [or] H; try discriminate; try contradiction;
    match goal with E : DownloadFile _ _ = DownloadFile _ _ |- _ =>
      injection E as _ <-; reflexivity end.
Qed.

End RunFacts.

(* ===================================================================== *)
(** * The properties of the specification *)
(* ===================================================================== *)

Import Py Http Spec.

(** ** Cleanup *)

Section Cleanup.
Import RunFacts.
Variable w : World.

(** C1.  In every run of [do_POST], [daytona.remove] is called at most
    once; it is called exactly once if and only if [daytona.create] was
    called and returned a sandbox, whatever failed afterwards; and it is
    called on that sandbox. *)
Theorem destroy_once_iff_provisioned :
  let tr := snd (Route.handle w) in
  (count is_Remove tr <= 1)%nat
  /\ (count is_Remove tr = 1%nat <-> provisioned w)
  /\ (forall sb, In (Remove sb) tr -> w_create w = Val sb).
Proof.
  unfold provisioned.
  destruct (handle_served w) as [e F | a b F C | a b r tr A G | a b r sb tr A G];
    cbn [snd].
  - cbn. repeat split; try lia; try tauto; try discriminate.
  - cbn. repeat split; try lia; try discriminate; intuition discriminate.
  - destruct (guarded_inv _ _ _ _ _ _ G) as [R P]. rewrite R.
    repeat split; try lia.
    + intros [H [sb Hsb]]. destruct P as [P|[e P]]; congruence.
    + intros sb H. apply (count_none _ _ _ R) in H. discriminate.
  - destruct (guarded_inv _ _ _ _ _ _ G) as [R [P1 P2]].
    rewrite !count_app, R, P2. cbn. repeat split; eauto.
    intros sb' H. apply in_app_or in H as [H|[H|[]]].
    + apply (count_none _ _ _ R) in H. discriminate.
    + congruence.
Qed.

(** C3, as amended.  When [daytona.remove] raises, nothing catches the
    exception: it leaves [do_POST].  The response has been written before,
    and is what it would have been had the removal succeeded. *)
Theorem destroy_error_escapes_after_response (sb : Sandbox) (e : exn) :
  destroy_raises w sb e ->
  fst (Route.handle w) = Raise e
  /\ snd (Route.handle w) = snd (Route.handle (quiet w)).
Proof.
  intros [I R]. revert I.
  destruct (handle_served w) as [e' F | a b F C | a b r tr A G | a b r sb' tr A G];
    cbn [fst snd]; intros I.
  - destruct I.
  - cbn in I. intuition discriminate.
  - destruct (guarded_inv _ _ _ _ _ _ G) as [Z _].
    apply (count_none _ _ _ Z) in I. discriminate.
  - destruct (guarded_inv _ _ _ _ _ _ G) as [Z _].
    rewrite (handle_accepted (quiet w) a b r (Some sb') tr A G). cbn [snd].
    apply in_app_or in I as [I|[I|[]]].
    + apply (count_none _ _ _ Z) in I. discriminate.
    + injection I as ->. rewrite R. split; reflexivity.
Qed.

End Cleanup.

(** ** The pipeline *)

Section Pipeline.
Import RunFacts.
Variable w : World.
Variables a b : pyval.
Variable sb : Sandbox.

(** C7.  When the request is accepted, the model has answered, a sandbox
    has been created and the install command exits with a code other than
    0, then nothing is uploaded, rendered or downloaded; the response is
    500 and its error text holds the output of the command; and the
    sandbox is removed, once. *)
Theorem install_failure_reported_and_cleaned (text : str) (r : ExecuteResponse) :
  accepted w a b ->
  w_generate_content w (Route.prompt a b) = Val text ->
  w_create w = Val sb ->
  w_exec w sb Route.install_command = Val r ->
  exit_code r <> 0%Z ->
  snd (Route.handle w)
  = [GenerateContent (py "gemini-1.5-flash") (Route.prompt a b);
     Create (py "python");
     Exec sb Route.install_command 300]
    ++ error_response 500 (py "Failed to install Manim: " ++ result r)
    ++ [Remove sb]
  /\ count is_Remove (snd (Route.handle w)) = 1%nat.
Proof.
  intros Haccepted Hgen Hcreated Hexec Hcode.
  assert (G : Route.guarded w reliable a b (None, [])
              = (Val tt,
                 (Some sb,
                  [GenerateContent (py "gemini-1.5-flash") (Route.prompt a b);
                   Create (py "python");
                   Exec sb Route.install_command 300]
                  ++ error_response 500 (py "Failed to install Manim: " ++ result r)))).
  { unfold_handler. rewrite Hgen, Hcreated, Hexec.
    apply Z.eqb_neq in Hcode. rewrite Hcode. reflexivity. }
  rewrite (handle_accepted _ _ _ _ _ _ Haccepted G). cbn [snd].
  split; [rewrite <- app_assoc; reflexivity | reflexivity].
Qed.

(** C5, as amended.  When every stage succeeds, the response is 200 with
    [Content-type: video/mp4] and a body that is the octets the download
    returned; the sandbox is removed after the download and after the
    response. *)
Theorem success_returns_downloaded_video (content video : bytes) :
  all_stages_succeed w a b sb content video ->
  snd (Route.handle w)
  = successful_calls w a b sb content ++ video_response video ++ [Remove sb]
  /\ response_body (snd (Route.handle w)) = [Raw video].
Proof.
  intros (Haccepted & (text & Hgen & Henc) & Hcreated & (r1 & Hinst & Hc1) & Hup
          & (r2 & Hrend & Hc2) & Hdown).
  assert (G : Route.guarded w reliable a b (None, [])
              = (Val tt,
                 (Some sb,
                  successful_calls w a b sb content ++ video_response video))).
  { unfold_handler. rewrite Hgen, Hcreated, Hinst, Hc1. cbn [Z.eqb negb].
    rewrite Henc, Hup, Hrend, Hc2, Hdown. reflexivity. }
  rewrite (handle_accepted _ _ _ _ _ _ Haccepted G). cbn [snd].
  split; [rewrite <- app_assoc; reflexivity | reflexivity].
Qed.

End Pipeline.

(** ** Validation *)

Section Validation.
Import RunFacts.
Variable w : World.

(** A field that is absent or falsy, or an absent credential, fails the
    check of line 43. *)
Lemma incomplete (latex explanations : pyval) :
  truthy latex = false \/ truthy explanations = false
  \/ w_DAYTONA_API_KEY w = None \/ w_GEMINI_API_KEY w = None ->
  complete w latex explanations = false.
Proof.
  unfold complete, all. cbn [forallb].
  intros [H | [H | [H | H]]]; rewrite H; cbn [truthy of_option andb];
    rewrite ?andb_false_r; reflexivity.
Qed.

(** C10.  One check decides the rejection: a request whose [latex] or
    [explanations] is absent, or present and the empty string, and a
    request served without one of the two credentials, all get the same
    response, 400 with the one fixed error text. *)
Theorem one_rejection_for_every_cause (data : list (str * pyval)) :
  request_json w = Val (PDict data) ->
  dict_get data (py "latex") = None
  \/ dict_get data (py "latex") = Some (PStr [])
  \/ dict_get data (py "explanations") = None
  \/ dict_get data (py "explanations") = Some (PStr [])
  \/ w_DAYTONA_API_KEY w = None
  \/ w_GEMINI_API_KEY w = None ->
  Route.handle w
  = (Val tt, error_response 400 (py "Missing required data or API keys.")).
Proof.
  intros J H. apply handle_rejected with (1 := request_fields_of_object w data J).
  apply incomplete.
  destruct H as [-> | [-> | [-> | [-> | [H | H]]]]]; auto.
Qed.


(** C9.  When the [Content-Length] header is absent or is not an integer,
    [int] raises at line 36 and nothing catches the exception: the handler
    ends with it, before any check, and has written no response. *)
Theorem unusable_content_length_uncaught :
  content_length_unusable w ->
  exists e,
    int (headers_get w (py "Content-Length") None) = Raise e
    /\ (exn_class e = TypeError \/ exn_class e = ValueError)
    /\ Route.handle w = (Raise e, []).
Proof.
  intros H.
  assert (R : forall e, int (headers_get w (py "Content-Length") None) = Raise e ->
                        Route.handle w = (Raise e, [])).
  { intros e E. apply handle_unread. unfold request_fields, request_json.
    rewrite E. reflexivity. }
  destruct H as [H | (s & e & H & E)].
  - rewrite H in *. eexists. split; [reflexivity|]. split; [left; reflexivity|].
    apply R. reflexivity.
  - rewrite H in *. exists e. cbn [int] in *. split; [exact E|].
    split; [|apply R, E].
    right. revert E. unfold int_of_str.
    repeat (case_step; try discriminate); intros [= <-]; reflexivity.
Qed.

End Validation.

(** ** The artifact *)

Section Artifact.
Import RunFacts StrFacts.

Lemma handle_downloads w sb path :
  In (DownloadFile sb path) (snd (Route.handle w)) -> path = Route.video_path w.
Proof.
  destruct (handle_served w) as [e F | a b F C | a b r tr A G | a b r sb' tr A G];
    cbn [snd]; intros H.
  - destruct H.
  - cbn [error_response In] in H. intuition discriminate.
  - exact (guarded_downloads _ _ _ _ _ _ _ _ G H).
  - apply in_app_or in H as [H|[H|[]]]; [|discriminate].
    exact (guarded_downloads _ _ _ _ _ _ _ _ G H).
Qed.

Lemma stem_no_dot i : ~ In 46%N (py "manim_script_" ++ uuid_str i).
Proof.
  intros H. apply in_app_or in H as [H|H].
  - cbv in H. intuition discriminate.
  - exact (uuid_str_no_dot i H).
Qed.

Lemma removesuffix_ext stem : removesuffix (stem ++ py ".py") (py ".py") = stem.
Proof.
  unfold removesuffix, endswith. rewrite rev_app_distr.
  change (rev (py ".py")) with [121; 112; 46]%N. cbn [app startswith].
  rewrite !N.eqb_refl. cbn [andb].
  rewrite length_app. change (List.length (py ".py")) with 3%nat.
  rewrite Nat.add_sub, firstn_app, Nat.sub_diag, firstn_all. cbn [firstn].
  apply app_nil_r.
Qed.

(** The code removes every [.py] of the file name, the specification its
    suffix: on the names the handler makes, it is the same. *)
Lemma video_path_derived w : Route.video_path w = derived_path (Route.script_filename w).
Proof.
  unfold Route.video_path, derived_path, Route.script_filename.
  rewrite (app_assoc (py "manim_script_") _ (py ".py")).
  rewrite replace_ext, removesuffix_ext by apply stem_no_dot.
  reflexivity.
Qed.

(** C6.  Whenever the handler downloads, the path it asks for is made of
    the fixed directory, the script file name without its [.py] suffix and
    the fixed [480p15/EquationExplanation.mp4]; the file name is made from
    the random UUID alone, so that two runs with the same UUID download
    from the same path, whatever the render command returned. *)
Theorem download_path_is_derived (w : World) (sb : Sandbox) (path : str) :
  In (DownloadFile sb path) (snd (Route.handle w)) ->
  path = py "/home/daytona/media/videos/"
         ++ removesuffix (Route.script_filename w) (py ".py")
         ++ py "/480p15/EquationExplanation.mp4"
  /\ removesuffix (Route.script_filename w) (py ".py")
     = py "manim_script_" ++ uuid_str (uuid4 (w_urandom w))
  /\ forall w' sb' path',
       w_urandom w' = w_urandom w ->
       In (DownloadFile sb' path') (snd (Route.handle w')) -> path' = path.
Proof.
  intros H. apply handle_downloads in H. subst path.
  split; [apply video_path_derived|].
  split; [unfold Route.script_filename;
          rewrite (app_assoc (py "manim_script_") _ (py ".py"));
          apply removesuffix_ext|].
  intros w' sb' path' U H'. apply handle_downloads in H'. subst path'.
  unfold Route.video_path, Route.script_filename. rewrite U. reflexivity.
Qed.

End Artifact.

(** ** The script *)

Section Script.
Import StrFacts.
Variable w : World.
Variables a b : pyval.

(** C8.  [generate_manim_script] calls the model once, with the prompt
    made from the two fields, and changes no local variable.  What it
    returns is the answer of the model with the occurrences of
    [```python] left out, then those of [```], then the white space at its
    two ends: every other character is kept, in its place; no fence marker
    is left in it, and no white space around it.  For an answer that is
    one block, text without backticks before, in and after the two
    markers, it is that text without the white space at its ends. *)
Theorem script_is_answer_without_fences :
  (forall l tr, exists out,
     Route.generate_manim_script w a b (l, tr)
     = (out, (l, tr ++ [GenerateContent (py "gemini-1.5-flash") (Route.prompt a b)]))
     /\ match w_generate_content w (Route.prompt a b) with
        | Raise e => out = Raise e
        | Val text =>
            exists unfenced bare script,
              out = Val script
              /\ without (py "```python") text unfenced
              /\ without (py "```") unfenced bare
              /\ trimmed bare script
              /\ ~ holds script (py "```")
              /\ ~ holds script (py "```python")
        end)
  /\ forall before code after,
       ~ In 96%N before -> ~ In 96%N code -> ~ In 96%N after ->
       (forall r, after <> py "python" ++ r) ->
       w_generate_content w (Route.prompt a b)
       = Val (before ++ py "```python" ++ code ++ py "```" ++ after) ->
       forall l tr, exists script,
         fst (Route.generate_manim_script w a b (l, tr)) = Val script
         /\ trimmed (before ++ code ++ after) script.
Proof.
  assert (R : forall l tr,
    Route.generate_manim_script w a b (l, tr)
    = (match w_generate_content w (Route.prompt a b) with
       | Val text =>
           Val (strip (replace (replace text (py "```python") []) (py "```") []))
       | Raise e => Raise e
       end,
       (l, tr ++ [GenerateContent (py "gemini-1.5-flash") (Route.prompt a b)]))).
  { intros l tr. unfold Route.generate_manim_script, Route.generate_content.
    unfold bind, emit, lift, ret. cbn [fst snd].
    destruct (w_generate_content w (Route.prompt a b)); reflexivity. }
  split.
  - intros l tr. eexists. split; [apply R|].
    destruct (w_generate_content w (Route.prompt a b)) as [text|e]; [|reflexivity].
    exists (replace text (py "```python") []),
           (replace (replace text (py "```python") []) (py "```") []).
    eexists. split; [reflexivity|].
    split; [apply (replace_without _ _ _ _ (le_n _))|].
    split; [apply (replace_without _ _ _ _ (le_n _))|].
    split; [apply strip_trimmed|].
    assert (F : ~ holds (strip (replace (replace text (py "```python") []) (py "```") []))
                        (py "```")).
    { apply contains_spec, contains_strip.
      apply (replace_triple_gone 96%N _ _ (le_n _)). }
    split; [exact F|].
    intros (x & y & E). apply F. exists x, (py "python" ++ y). rewrite E.
    change (py "```python") with (py "```" ++ py "python").
    rewrite <- !app_assoc. reflexivity.
  - intros before code after B C A P T l tr. rewrite R, T. cbn [fst].
    eexists. split; [reflexivity|].
    rewrite block_unfenced by assumption. apply strip_trimmed.
Qed.

End Script.

(** ** Reading the request *)

Section Parsing.
Import RunFacts.
Variable w : World.

(** What the echo handler does with an empty body, whatever the
    [Content-Length] that led to it. *)
Lemma index_empty_body n :
  int (headers_get w (py "content-length") (Some (py "0"))) = Val n ->
  n = 0%Z \/ rfile_read w n = Val [] ->
  Index.handle w
  = (Val tt, echo_response 400 (PDict [(py "error", PStr (py "Empty request body"))])).
Proof.
  intros H E. unfold Index.handle, Index.serve, Index.do_POST, run, bind, lift, ret.
  rewrite H. destruct (Z.eqb_spec n 0) as [_|N]; [reflexivity|].
  destruct E as [E|E]; [contradiction|]. rewrite E. reflexivity.
Qed.

(** What the echo handler does with a body that is no JSON. *)
Lemma index_invalid_json n c body text e :
  int (headers_get w (py "content-length") (Some (py "0"))) = Val n ->
  n <> 0%Z ->
  rfile_read w n = Val (c :: body) ->
  decode false (c :: body) = Val text ->
  Json.loads_str (w_recursion w) text = Raise e ->
  is_JSONDecodeError e = true ->
  Index.handle w
  = (Val tt, echo_response 400 (PDict [(py "error", PStr (py "Invalid JSON payload"))])).
Proof.
  intros H N R D J C.
  unfold Index.handle, Index.serve, Index.do_POST, run, bind, lift, ret, try_except.
  rewrite H. destruct (Z.eqb_spec n 0) as [|_]; [contradiction|].
  rewrite R, D, J, C. reflexivity.
Qed.

(** The video handler has neither check: an empty body reaches
    [json.loads], whose exception nothing catches. *)
Lemma route_empty_body n :
  int (headers_get w (py "Content-Length") None) = Val n ->
  rfile_read w n = Val [] ->
  Route.handle w = (Raise (Json.err "Expecting value"), []).
Proof.
  intros H R. apply handle_unread. unfold request_fields, request_json.
  rewrite H. cbn [rbind]. rewrite R. reflexivity.
Qed.

Lemma route_invalid_json n body e :
  int (headers_get w (py "Content-Length") None) = Val n ->
  rfile_read w n = Val body ->
  Json.loads_bytes (w_recursion w) body = Raise e ->
  Route.handle w = (Raise e, []).
Proof.
  intros H R J. apply handle_unread. unfold request_fields, request_json.
  rewrite H. cbn [rbind]. rewrite R. cbn [rbind]. rewrite J. reflexivity.
Qed.

End Parsing.

(** C2.  A request to the video handler with an empty body, and one whose
    body is not JSON, end in the [JSONDecodeError] of line 38, uncaught and
    with no response written.  The echo handler, given the same requests,
    answers 400 with the two error texts. *)
Theorem video_handler_lacks_body_checks :
  Route.handle Scenario.empty_body = (Raise (Json.err "Expecting value"), [])
  /\ Route.handle Scenario.malformed
     = (Raise (Json.err "Expecting property name enclosed in double quotes"), [])
  /\ Index.handle Scenario.empty_body
     = (Val tt, echo_response 400 (PDict [(py "error", PStr (py "Empty request body"))]))
  /\ Index.handle Scenario.malformed
     = (Val tt, echo_response 400 (PDict [(py "error", PStr (py "Invalid JSON payload"))])).
Proof.
  split; [apply (route_empty_body _ 0); reflexivity|].
  split; [apply (route_invalid_json _ 15 (py "{latex: E=mc^2}")); reflexivity|].
  split; [apply (index_empty_body _ 0); [reflexivity | left; reflexivity]|].
  apply (index_invalid_json _ 15 123%N (py "latex: E=mc^2}") (py "{latex: E=mc^2}")
           (Json.err "Expecting property name enclosed in double quotes"));
    try reflexivity. discriminate.
Qed.

(* ===================================================================== *)
(** * Concrete runs *)
(* ===================================================================== *)

Section Runs.
Import Scenario Cases.

(** In the worlds of [Scenario] that only differ in what the download
    returns, every stage succeeds. *)
Lemma download_succeeds (w : World) (video : bytes) :
  w = world (with_length emc2) emc2 installed (Val video) (Val tt) ->
  all_stages_succeed w latex_field explanations_field the_sandbox script_content video.
Proof.
  intros ->. split; [split; vm_compute; reflexivity|].
  split; [exists script_text; split; vm_compute; reflexivity|].
  split; [reflexivity|].
  split; [exists installed; split; vm_compute; reflexivity|].
  split; [reflexivity|].
  split; [eexists; split; vm_compute; reflexivity|].
  reflexivity.
Defined.

(** C3, as stated, fails: in this run every stage succeeds and only the
    removal raises; the handler then ends with that exception, where it
    returns normally when the removal succeeds. *)
Lemma destroy_error_not_recovered :
  destroy_raises remove_fails the_sandbox boom
  /\ fst (Route.handle (quiet remove_fails)) = Val tt
  /\ fst (Route.handle remove_fails) <> Val tt.
Proof.
  split; [split; [vm_compute; tauto | reflexivity]|].
  split; [vm_compute; reflexivity | vm_compute; discriminate].
Qed.

(** C3, as amended, in that run. *)
Lemma destroy_error_escapes_witness :
  destroy_raises remove_fails the_sandbox boom
  /\ fst (Route.handle remove_fails) = Raise boom
  /\ snd (Route.handle remove_fails) = snd (Route.handle (quiet remove_fails)).
Proof.
  assert (H : destroy_raises remove_fails the_sandbox boom)
    by (split; [vm_compute; tauto | reflexivity]).
  split; [exact H|].
  exact (destroy_error_escapes_after_response remove_fails the_sandbox boom H).
Defined.

(** C5, as stated, fails: in this run every stage succeeds and the
    download returns no octet; the body of the response is empty. *)
Lemma success_with_empty_body :
  all_stages_succeed empty_artifact latex_field explanations_field the_sandbox
                     script_content []
  /\ ~ exists video,
         response_body (snd (Route.handle empty_artifact)) = [Raw video]
         /\ video <> [].
Proof.
  split; [apply download_succeeds; reflexivity|].
  intros (video & H & N). vm_compute in H. injection H as <-. apply N. reflexivity.
Qed.

(** C5, as amended, on the request of section 8 of the specification. *)
Lemma success_returns_video_witness :
  all_stages_succeed happy latex_field explanations_field the_sandbox
                     script_content mp4
  /\ snd (Route.handle happy)
     = successful_calls happy latex_field explanations_field the_sandbox script_content
       ++ video_response mp4 ++ [Remove the_sandbox]
  /\ response_body (snd (Route.handle happy)) = [Raw mp4].
Proof.
  assert (H : all_stages_succeed happy latex_field explanations_field the_sandbox
                                 script_content mp4)
    by (apply download_succeeds; reflexivity).
  split; [exact H|].
  exact (success_returns_downloaded_video happy _ _ _ _ _ H).
Defined.

(** C7, when [pip] finds no distribution. *)
Lemma install_failure_witness :
  (accepted install_fails latex_field explanations_field
   /\ w_generate_content install_fails (Route.prompt latex_field explanations_field)
      = Val script_text
   /\ w_create install_fails = Val the_sandbox
   /\ w_exec install_fails the_sandbox Route.install_command = Val not_installed
   /\ exit_code not_installed <> 0%Z)
  /\ snd (Route.handle install_fails)
     = [GenerateContent (py "gemini-1.5-flash")
          (Route.prompt latex_field explanations_field);
        Create (py "python");
        Exec the_sandbox Route.install_command 300]
       ++ error_response 500
            (py "Failed to install Manim: ERROR: No matching distribution found for manim")
       ++ [Remove the_sandbox]
  /\ count is_Remove (snd (Route.handle install_fails)) = 1%nat.
Proof.
  assert (A : accepted install_fails latex_field explanations_field)
    by (split; vm_compute; reflexivity).
  assert (N : exit_code not_installed <> 0%Z) by discriminate.
  split.
  { split; [exact A|]. split; [reflexivity|]. split; [reflexivity|].
    split; [reflexivity | exact N]. }
  exact (install_failure_reported_and_cleaned install_fails latex_field
           explanations_field the_sandbox script_text not_installed
           A eq_refl eq_refl eq_refl N).
Defined.

(** C6, in the successful run. *)
Lemma download_path_witness :
  In (DownloadFile the_sandbox video_file) (snd (Route.handle happy))
  /\ video_file
     = py "/home/daytona/media/videos/"
       ++ removesuffix (Route.script_filename happy) (py ".py")
       ++ py "/480p15/EquationExplanation.mp4"
  /\ removesuffix (Route.script_filename happy) (py ".py")
     = py "manim_script_" ++ uuid_str (uuid4 (w_urandom happy))
  /\ forall w' sb' path',
       w_urandom w' = w_urandom happy ->
       In (DownloadFile sb' path') (snd (Route.handle w')) -> path' = video_file.
Proof.
  assert (H : In (DownloadFile the_sandbox video_file) (snd (Route.handle happy)))
    by (vm_compute; tauto).
  split; [exact H|].
  exact (download_path_is_derived happy the_sandbox video_file H).
Defined.

(** C9, without the header and with a header that is no number. *)
Lemma unusable_content_length_witness :
  (content_length_unusable no_content_length
   /\ exists e,
        int (headers_get no_content_length (py "Content-Length") None) = Raise e
        /\ (exn_class e = TypeError \/ exn_class e = ValueError)
        /\ Route.handle no_content_length = (Raise e, []))
  /\ (content_length_unusable bad_content_length
      /\ exists e,
           int (headers_get bad_content_length (py "Content-Length") None) = Raise e
           /\ (exn_class e = TypeError \/ exn_class e = ValueError)
           /\ Route.handle bad_content_length = (Raise e, [])).
Proof.
  assert (A : content_length_unusable no_content_length) by (left; reflexivity).
  assert (B : content_length_unusable bad_content_length).
  { right. exists (py "many"), invalid_literal. split; reflexivity. }
  split.
  - split; [exact A | exact (unusable_content_length_uncaught no_content_length A)].
  - split; [exact B | exact (unusable_content_length_uncaught bad_content_length B)].
Defined.

(** C10, for a [latex] that is the empty string. *)
Lemma one_rejection_witness :
  request_json latex_empty = Val (PDict blank_latex_data)
  /\ dict_get blank_latex_data (py "latex") = Some (PStr [])
  /\ Route.handle latex_empty
     = (Val tt, error_response 400 (py "Missing required data or API keys.")).
Proof.
  assert (J : request_json latex_empty = Val (PDict blank_latex_data))
    by (vm_compute; reflexivity).
  split; [exact J|]. split; [reflexivity|].
  exact (one_rejection_for_every_cause latex_empty blank_latex_data J
           (or_intror (or_introl eq_refl))).
Defined.



End Runs.

(* ===================================================================== *)
(** * More of the video handler *)
(* ===================================================================== *)

Module FlowFacts.
Import Py Http Spec Flow RunFacts.

Ltac flat := cbn [app] in *.

(** The status lines the guarded pipeline sends. *)
Lemma guarded_lines w client a b r l tr :
  Route.guarded w client a b (None, []) = (r, (l, tr)) ->
  (count is_SendResponse tr <= 2)%nat
  /\ (count is_SendResponse tr = 2%nat ->
      exists sent e rest,
        tr = sent ++ SendResponse 500 :: rest
        /\ In (SendResponse 200) sent
        /\ client sent = Raise e /\ is_Exception e = true)
  /\ (takes_all client -> (count is_SendResponse tr <= 1)%nat)
  /\ (r = Val tt -> (1 <= count is_SendResponse tr)%nat).
Proof.
  exec; intros G; inversion G; subst; clear G; flat;
    (split; [cbn [count filter is_SendResponse List.length]; lia|]);
    (split; [|split]);
    try (intros H; cbn [count filter is_SendResponse List.length] in H; lia);
    try (intros H; cbn [count filter is_SendResponse List.length]; lia);
    try discriminate;
    try (intros T;
         match goal with H : client ?t = Raise _ |- _ => rewrite (T t) in H end;
         discriminate);
    intros _;
    match goal with
    | H : client ?t = Raise ?e, X : is_Exception ?e = true |- _ =>
        exists t, e; eexists; split; [reflexivity|]; split; [|split; assumption];
        cbn [In]; tauto
    end.
Qed.

(** How the guarded pipeline ends with an exception: a call raised what
    is no [Exception], before any response; or the last write to the
    client raised, and that was a write of the 500 response unless what
    it raised is no [Exception]. *)
Lemma guarded_raises w client a b l tr e :
  Route.guarded w client a b (None, []) = (Raise e, (l, tr)) ->
  (is_Exception e = false /\ count is_SendResponse tr = 0%nat)
  \/ (client tr = Raise e
      /\ (is_Exception e = false \/ In (SendResponse 500) tr)).
Proof.
  exec; intros G; inversion G; subst; clear G; flat;
    first [ left; split; [assumption | reflexivity]
          | right; split; [first [assumption | reflexivity]|];
            first [left; assumption | right; cbn [In]; tauto] ].
Qed.

(** The guarded pipeline begins with the call to the model. *)
Lemma guarded_begins w a b r l tr :
  Route.guarded w reliable a b (None, []) = (r, (l, tr)) ->
  exists rest, tr = asked a b :: rest.
Proof.
  unfold asked.
  exec; intros G; inversion G; subst; clear G; cbn [app]; eexists; reflexivity.
Qed.

(** The calls of the guarded pipeline are the first ones of a successful
    run, the one to the model among them. *)
Lemma guarded_calls w a b r l tr :
  Route.guarded w reliable a b (None, []) = (r, (l, tr)) ->
  exists k sb content,
    (1 <= k)%nat
    /\ filter is_call tr = firstn k (successful_calls w a b sb content).
Proof.
  unfold successful_calls.
  exec; intros G; inversion G; subst; clear G; cbn [app];
    first [ exists 1%nat, {| sandbox_id := 0 |}, []; split; [lia | reflexivity]
          | exists 2%nat, {| sandbox_id := 0 |}, []; split; [lia | reflexivity]
          | exists 3%nat; eexists; exists []; split; [lia | reflexivity]
          | exists 4%nat; do 2 eexists; split; [lia | reflexivity]
          | exists 5%nat; do 2 eexists; split; [lia | reflexivity]
          | exists 6%nat; do 2 eexists; split; [lia | reflexivity] ].
Qed.

(** Every command runs with a timeout of 300 seconds; it is the install
    command, or the render command, and then the run began with the
    model, the creation of the sandbox, the install command, which exited
    with 0, and the upload of the script, which returned. *)
Lemma guarded_commands_in_order w a b r l tr sb command timeout :
  Route.guarded w reliable a b (None, []) = (r, (l, tr)) ->
  In (Exec sb command timeout) tr ->
  timeout = 300%Z
  /\ (command = Route.install_command
      \/ (command = Route.render_command w
          /\ exists content rest done,
               tr = rendering w a b sb content ++ rest
               /\ w_exec w sb Route.install_command = Val done
               /\ exit_code done = 0%Z
               /\ w_upload_file w sb (script_path w) content = Val tt)).
Proof.
  unfold rendering, asked, script_path.
  exec; intros G; inversion G; subst; clear G;
    repeat match goal with
           | H : negb (_ =? 0)%Z = false |- _ =>
               apply negb_false_iff, Z.eqb_eq in H
           | u : unit |- _ => destruct u
           end;
    intros H; cbn [app] in H; cbv beta iota delta [In] in H;
    decompose [or] H; try discriminate; try contradiction;
    match goal with E : Exec _ _ _ = Exec _ _ _ |- _ =>
      injection E as <- <- <-
    end;
    (split; [reflexivity|]);
    first [ left; reflexivity
          | right; split; [reflexivity|];
            do 3 eexists; split; [cbn [app]; reflexivity|];
            split; [first [reflexivity | eassumption]|];
            split; [eassumption|]; first [reflexivity | eassumption] ].
Qed.

(** A status of 200 is only sent after every stage has succeeded. *)
Lemma guarded_200 w a b r l tr :
  accepted w a b ->
  Route.guarded w reliable a b (None, []) = (r, (l, tr)) ->
  In (SendResponse 200) tr ->
  exists sb content video, all_stages_succeed w a b sb content video.
Proof.
  intros A. exec; intros G; inversion G; subst; clear G; cbn [app In];
    intros H; decompose [or] H; try discriminate; try contradiction.
  repeat match goal with
         | H : negb (_ =? 0)%Z = false |- _ =>
             apply negb_false_iff, Z.eqb_eq in H
         | u : unit |- _ => destruct u
         end.
  do 3 eexists. unfold all_stages_succeed.
  repeat (split; [eauto|]); eauto.
Qed.

(** Every call on a sandbox is on the sandbox created in this run. *)
Lemma guarded_sandbox w a b r l tr sb :
  Route.guarded w reliable a b (None, []) = (r, (l, tr)) ->
  (exists c t, In (Exec sb c t) tr) \/ (exists p c, In (UploadFile sb p c) tr)
  \/ (exists p, In (DownloadFile sb p) tr) ->
  w_create w = Val sb.
Proof.
  exec; intros G; inversion G; subst; clear G; cbn [app In];
    intros [(c & t & H) | [(p & c & H) | (p & H)]];
    decompose [or] H; try discriminate; try contradiction;
    match goal with E : _ = _ |- _ => injection E; intros; subst; reflexivity end.
Qed.


(** What is uploaded is the answer of the model after line 32, encoded,
    and it goes to the path of the script. *)
Lemma guarded_uploads w a b r l tr sb path content :
  Route.guarded w reliable a b (None, []) = (r, (l, tr)) ->
  In (UploadFile sb path content) tr ->
  path = script_path w
  /\ exists text, w_generate_content w (Route.prompt a b) = Val text
                  /\ encode (extract text) = Val content.
Proof.
  unfold script_path, extract.
  exec; intros G; inversion G; subst; clear G;
    intros H; cbn [app] in H; cbv beta iota delta [In] in H;
    decompose [or] H; try discriminate; try contradiction;
    match goal with E : UploadFile _ _ _ = UploadFile _ _ _ |- _ =>
      injection E as _ <- <-;
      split; [reflexivity
             | eexists; split; [first [reflexivity | eassumption] | eassumption]]
    end.
Qed.

End FlowFacts.

Section Order.
Import Flow RunFacts FlowFacts.
Variable w : World.

Section Clients.
Variable client : Client.

(** X1.  The handler sends at most two status lines, and two only when a
    write of the 200 response has raised an [Exception]: the [except]
    clause then sends a 500 after it.  To a client that takes all that is
    written it sends at most one.  When it returns it has sent one at
    least. *)
Theorem status_lines_sent :
  (count is_SendResponse (snd (Route.serve w client)) <= 2)%nat
  /\ (count is_SendResponse (snd (Route.serve w client)) = 2%nat ->
      exists sent e rest,
        snd (Route.serve w client) = sent ++ SendResponse 500 :: rest
        /\ In (SendResponse 200) sent
        /\ client sent = Raise e /\ is_Exception e = true)
  /\ (takes_all client ->
      (count is_SendResponse (snd (Route.serve w client)) <= 1)%nat)
  /\ (fst (Route.serve w client) = Val tt ->
      (1 <= count is_SendResponse (snd (Route.serve w client)))%nat).
Proof.
  destruct (request_fields w) as [[a b]|e] eqn:F.
  2:{ rewrite (serve_unread w client e F). cbn.
      repeat split; try lia; discriminate. }
  destruct (complete w a b) eqn:C.
  2:{ rewrite (serve_rejected w client a b F C). cbv zeta.
      destruct (client _); cbn; repeat split; try lia; discriminate. }
  destruct (Route.guarded w client a b (None, [])) as [r [l tr]] eqn:G.
  rewrite (serve_accepted w client a b _ _ _ (conj F C) G).
  destruct (guarded_lines _ _ _ _ _ _ _ G) as (L2 & Two & L1 & Ret).
  assert (N : forall sb, count is_SendResponse (tr ++ [Remove sb])
                         = count is_SendResponse tr).
  { intros sb. rewrite count_app. cbn. lia. }
  destruct l as [sb|]; cbn [fst snd]; rewrite ?N.
  - split; [exact L2|]. split; [|split; [exact L1|]].
    + intros H. destruct (Two H) as (sent & e & rest & -> & I & X & Y).
      exists sent, e, (rest ++ [Remove sb]). rewrite <- app_assoc. auto.
    + destruct (w_remove w sb); [exact Ret | discriminate].
  - auto.
Qed.

(** X2.  An exception leaves the handler in four cases only: the request
    could not be read, and nothing has happened; a call raised what is no
    [Exception], and no response has been sent; the removal of the
    sandbox raised; or a write to the client raised it, which was a write
    of the 400 or of the 500 response unless what it raised is no
    [Exception]. *)
Theorem exceptions_that_escape (e : exn) :
  fst (Route.serve w client) = Raise e ->
  (request_fields w = Raise e /\ snd (Route.serve w client) = [])
  \/ (is_Exception e = false
      /\ count is_SendResponse (snd (Route.serve w client)) = 0%nat)
  \/ (exists sb, In (Remove sb) (snd (Route.serve w client))
                 /\ w_remove w sb = Raise e)
  \/ (exists sent rest,
        snd (Route.serve w client) = sent ++ rest
        /\ client sent = Raise e
        /\ (is_Exception e = false
            \/ In (SendResponse 400) sent \/ In (SendResponse 500) sent)).
Proof.
  destruct (request_fields w) as [[a b]|e'] eqn:F.
  2:{ rewrite (serve_unread w client e' F). cbn [fst snd].
      intros [= ->]. left. split; reflexivity. }
  destruct (complete w a b) eqn:C.
  2:{ rewrite (serve_rejected w client a b F C). cbv zeta.
      destruct (client _) as [u|e'] eqn:H; cbn [fst snd]; intros E.
      - do 3 right. eexists. exists []. rewrite app_nil_r.
        split; [reflexivity|]. split; [exact E|]. right. left. cbn. tauto.
      - injection E as ->. do 3 right. eexists. exists []. rewrite app_nil_r.
        split; [reflexivity|]. split; [exact H|]. right. left. cbn. tauto. }
  destruct (Route.guarded w client a b (None, [])) as [r [l tr]] eqn:G.
  rewrite (serve_accepted w client a b _ _ _ (conj F C) G).
  assert (R : r = Raise e ->
              (is_Exception e = false /\ count is_SendResponse tr = 0%nat)
              \/ (client tr = Raise e
                  /\ (is_Exception e = false \/ In (SendResponse 500) tr))).
  { intros ->. exact (guarded_raises _ _ _ _ _ _ _ G). }
  destruct l as [sb|]; cbn [fst snd]; intros E.
  - destruct (w_remove w sb) as [u|e'] eqn:W.
    + destruct (R E) as [[X Z] | [X Y]].
      * right. left. split; [exact X|]. rewrite count_app, Z. reflexivity.
      * do 3 right. exists tr, [Remove sb]. tauto.
    + injection E as ->. right. right. left. exists sb. split; [|exact W].
      apply in_or_app. right. left. reflexivity.
  - destruct (R E) as [[X Z] | [X Y]].
    + right. left. tauto.
    + do 3 right. exists tr, []. rewrite app_nil_r. tauto.
Qed.

(** X29.  When every stage has succeeded and a write of the 200 response
    raises an [Exception], be it the write of the status line and the
    headers or that of the video, the [except] clause answers a second
    time on the same connection: it sends the status line 500 and, when
    the client takes that, the text of the exception; the sandbox is
    removed. *)
Theorem failed_write_is_answered_again
    (a b : pyval) (sb : Sandbox) (content video : bytes) (sent : list event)
    (e : exn) :
  all_stages_succeed w a b sb content video ->
  sent = successful_calls w a b sb content ++ head 200 "video/mp4"
  \/ (sent = successful_calls w a b sb content ++ video_response video
      /\ client (successful_calls w a b sb content ++ head 200 "video/mp4") = Val tt) ->
  client sent = Raise e ->
  is_Exception e = true ->
  snd (Route.serve w client)
  = sent ++ head 500 "application/json"
    ++ match client (sent ++ head 500 "application/json") with
       | Val _ => [error_body (exn_str e)]
       | Raise _ => []
       end
    ++ [Remove sb]
  /\ count is_SendResponse (snd (Route.serve w client)) = 2%nat.
Proof.
  intros (Haccepted & (text & Hgen & Henc) & Hcreated & (r1 & Hinst & Hc1) & Hup
          & (r2 & Hrend & Hc2) & Hdown) S X Y.
  assert (G : exists r,
    Route.guarded w client a b (None, [])
    = (r, (Some sb,
           sent ++ head 500 "application/json"
           ++ match client (sent ++ head 500 "application/json") with
              | Val _ => [error_body (exn_str e)]
              | Raise _ => []
              end))).
  { unfold_handler. rewrite Hgen, Hcreated, Hinst, Hc1. cbn [Z.eqb negb].
    rewrite Henc, Hup, Hrend, Hc2, Hdown.
    cbn [Z.eqb negb]. cbv beta iota zeta.
    destruct S as [-> | [-> H]];
      unfold successful_calls, head, video_response, error_body in *;
      set (path := py "/home/daytona/" ++ Route.script_filename w) in *;
      cbn [app] in *.
    - rewrite X. cbv beta iota zeta. rewrite Y. cbn [app].
      match goal with |- context [match client ?t with _ => _ end] =>
        destruct (client t) end; eexists; reflexivity.
    - rewrite H. cbv beta iota zeta. cbn [app]. rewrite X. cbv beta iota zeta.
      rewrite Y. cbn [app]. match goal with |- context [match client ?t with _ => _ end] =>
        destruct (client t) end; eexists; reflexivity. }
  destruct G as [r G].
  rewrite (serve_accepted w client a b _ _ _ Haccepted G). cbn [snd].
  rewrite <- !app_assoc. split; [reflexivity|].
  rewrite !count_app.
  assert (Z : count is_SendResponse sent = 1%nat).
  { destruct S as [-> | [-> _]]; rewrite count_app; reflexivity. }
  rewrite Z. destruct (client (sent ++ head 500 "application/json")); reflexivity.
Qed.

End Clients.

(** X3.  The calls a run makes to the model and to the sandbox before the
    removal are the first ones of the successful run, in its order, none
    left out and none made twice: the model with the prompt of the two
    fields, the creation of a [python] sandbox, the install command, the
    upload of the script, the render command, the download of the video.
    A request that is not accepted makes none. *)
Theorem stages_run_in_order :
  (forall a b,
     accepted w a b ->
     exists k sb content,
       (1 <= k)%nat
       /\ filter is_call (snd (Route.handle w))
          = firstn k (successful_calls w a b sb content))
  /\ ((forall a b, ~ accepted w a b) ->
      filter is_call (snd (Route.handle w)) = []).
Proof.
  destruct (handle_served w) as [e F | a b F C | a b r tr A G | a b r sb tr A G];
    cbn [fst snd].
  - split; [|reflexivity]. intros a b [F' _]. congruence.
  - split; [|reflexivity]. intros a' b' [F' C'].
    rewrite F in F'. injection F' as <- <-. congruence.
  - split; [|intros N; destruct (N a b A)].
    intros a' b' [F' _]. destruct A as [F _].
    rewrite F in F'. injection F' as <- <-.
    exact (guarded_calls _ _ _ _ _ _ G).
  - split; [|intros N; destruct (N a b A)].
    intros a' b' [F' _]. destruct A as [F _].
    rewrite F in F'. injection F' as <- <-.
    rewrite filter_app. cbn [filter is_call]. rewrite app_nil_r.
    exact (guarded_calls _ _ _ _ _ _ G).
Qed.

(** X4.  A status of 200 is sent only when every stage has succeeded. *)
Theorem ok_only_after_success :
  In (SendResponse 200) (snd (Route.handle w)) ->
  exists a b sb content video, all_stages_succeed w a b sb content video.
Proof.
  destruct (handle_served w) as [e F | a b F C | a b r tr A G | a b r sb tr A G];
    cbn [snd]; intros H.
  - destruct H.
  - cbn [error_response In] in H. intuition discriminate.
  - exists a, b. exact (guarded_200 _ _ _ _ _ _ A G H).
  - exists a, b. apply in_app_or in H as [H|[H|[]]]; [|discriminate].
    exact (guarded_200 _ _ _ _ _ _ A G H).
Qed.

(** X5.  The removal of the sandbox is the last thing a run does: nothing
    follows it, and so no call is made on a sandbox that has been
    removed. *)
Theorem removal_comes_last (sb : Sandbox) :
  In (Remove sb) (snd (Route.handle w)) ->
  exists before,
    snd (Route.handle w) = before ++ [Remove sb]
    /\ count is_Remove before = 0%nat.
Proof.
  destruct (handle_served w) as [e F | a b F C | a b r tr A G | a b r sb' tr A G];
    cbn [snd]; intros H.
  - destruct H.
  - cbn [error_response In] in H. intuition discriminate.
  - destruct (guarded_inv _ _ _ _ _ _ G) as [Z _].
    apply (count_none _ _ _ Z) in H. discriminate.
  - destruct (guarded_inv _ _ _ _ _ _ G) as [Z _].
    apply in_app_or in H as [H|[H|[]]].
    + apply (count_none _ _ _ Z) in H. discriminate.
    + injection H as ->. exists tr. split; [reflexivity | exact Z].
Qed.

(** X6.  Every command, upload and download of a run is made on the
    sandbox that [daytona.create] returned in that run. *)
Theorem calls_on_own_sandbox (sb : Sandbox) :
  (exists command timeout, In (Exec sb command timeout) (snd (Route.handle w)))
  \/ (exists path content, In (UploadFile sb path content) (snd (Route.handle w)))
  \/ (exists path, In (DownloadFile sb path) (snd (Route.handle w))) ->
  w_create w = Val sb.
Proof.
  destruct (handle_served w) as [e F | a b F C | a b r tr A G | a b r sb' tr A G];
    cbn [snd]; intros H.
  - destruct H as [(c & t & []) | [(p & c & []) | (p & [])]].
  - cbn [error_response In] in H.
    destruct H as [(c & t & H) | [(p & c & H) | (p & H)]]; intuition discriminate.
  - exact (guarded_sandbox _ _ _ _ _ _ _ G H).
  - apply (guarded_sandbox _ _ _ _ _ _ _ G).
    destruct H as [(c & t & H) | [(p & c & H) | (p & H)]];
      apply in_app_or in H as [H|[H|[]]]; try discriminate; eauto 6.
Qed.

(** X7.  What is uploaded is the answer of the model, freed of its fences,
    stripped and encoded in UTF-8; it is uploaded under the script's name
    in [/home/daytona]. *)
Theorem upload_is_cleaned_answer (sb : Sandbox) (path : str) (content : bytes) :
  In (UploadFile sb path content) (snd (Route.handle w)) ->
  path = py "/home/daytona/" ++ Route.script_filename w
  /\ exists a b text,
       accepted w a b
       /\ w_generate_content w (Route.prompt a b) = Val text
       /\ encode (extract text) = Val content.
Proof.
  destruct (handle_served w) as [e F | a b F C | a b r tr A G | a b r sb' tr A G];
    cbn [snd]; intros H.
  - destruct H.
  - cbn [error_response In] in H. intuition discriminate.
  - destruct (guarded_uploads _ _ _ _ _ _ _ _ _ G H) as (P & text & T & E).
    split; [exact P|]. exists a, b, text. auto.
  - apply in_app_or in H as [H|[H|[]]]; [|discriminate].
    destruct (guarded_uploads _ _ _ _ _ _ _ _ _ G H) as (P & text & T & E).
    split; [exact P|]. exists a, b, text. auto.
Qed.

(** X8.  Every command runs with a timeout of 300 seconds.  It is the
    install command, or it is [manim -pql] on the path of the script
    with the scene [EquationExplanation]; and when this one runs, the run
    began with the model, the creation of the sandbox, the install
    command, which exited with 0, and the upload of the script to that
    path in the same sandbox, which returned: the render command is the
    fifth call. *)
Theorem render_runs_the_uploaded_script (sb : Sandbox) (command : str) (timeout : Z) :
  In (Exec sb command timeout) (snd (Route.handle w)) ->
  timeout = 300%Z
  /\ (command = py "pip install manim && manim-latex-downloader"
      \/ (command = py "manim -pql " ++ script_path w ++ py " EquationExplanation"
          /\ exists a b content rest done,
               snd (Route.handle w) = rendering w a b sb content ++ rest
               /\ w_exec w sb Route.install_command = Val done
               /\ exit_code done = 0%Z
               /\ w_upload_file w sb (script_path w) content = Val tt)).
Proof.
  destruct (handle_served w) as [e F | a b F C | a b r tr A G | a b r sb' tr A G];
    cbn [snd]; intros H.
  - destruct H.
  - cbn [error_response In] in H. intuition discriminate.
  - destruct (guarded_commands_in_order _ _ _ _ _ _ _ _ _ G H)
      as (T & [I | (R & c & rest & d & E & X)]);
      (split; [exact T|]); [left; exact I | right].
    split; [exact R|]. exists a, b, c, rest, d. auto.
  - apply in_app_or in H as [H|[H|[]]]; [|discriminate].
    destruct (guarded_commands_in_order _ _ _ _ _ _ _ _ _ G H)
      as (T & [I | (R & c & rest & d & E & X)]);
      (split; [exact T|]); [left; exact I | right].
    split; [exact R|]. exists a, b, c, (rest ++ [Remove sb']), d.
    rewrite E, <- app_assoc. auto.
Qed.

End Order.
Section Failures.
Import Flow RunFacts.
Variable w : World.
Variables a b : pyval.
Hypothesis Haccepted : accepted w a b.

(** X9.  When the call to the model raises an [Exception], the response is
    500 with the text of that exception; no sandbox is created, and none
    removed. *)
Theorem model_failure_provisions_nothing (e : exn) :
  w_generate_content w (Route.prompt a b) = Raise e ->
  is_Exception e = true ->
  Route.handle w = (Val tt, asked a b :: error_response 500 (exn_str e)).
Proof.
  intros Hgen He.
  rewrite (handle_accepted w a b (Val tt) None
             (asked a b :: error_response 500 (exn_str e)) Haccepted); [reflexivity|].
  unfold_handler. rewrite Hgen. cbv beta iota. rewrite He. reflexivity.
Qed.

(** X10.  When [daytona.create] raises an [Exception], the response is 500
    with the text of that exception, and there is nothing to remove. *)
Theorem provisioning_failure_reported (text : str) (e : exn) :
  w_generate_content w (Route.prompt a b) = Val text ->
  w_create w = Raise e ->
  is_Exception e = true ->
  Route.handle w
  = (Val tt, [asked a b; Create (py "python")] ++ error_response 500 (exn_str e)).
Proof.
  intros Hgen Hcreate He.
  rewrite (handle_accepted w a b (Val tt) None
             ([asked a b; Create (py "python")] ++ error_response 500 (exn_str e))
             Haccepted); [reflexivity|].
  unfold_handler. rewrite Hgen, Hcreate. cbv beta iota. rewrite He. reflexivity.
Qed.

Variable sb : Sandbox.
Hypothesis Hcreated : w_create w = Val sb.
Variable text : str.
Hypothesis Hgenerated : w_generate_content w (Route.prompt a b) = Val text.
Variable done : ExecuteResponse.
Hypothesis Hinstalled : w_exec w sb Route.install_command = Val done.
Hypothesis Hdone : exit_code done = 0%Z.

(** X11.  A script that UTF-8 cannot encode is found out only after the
    sandbox has been created and the dependencies installed: nothing is
    uploaded, the response is 500 with the text of the encoding error,
    and the sandbox is removed. *)
Theorem unencodable_script_reported (e : exn) :
  encode (extract text) = Raise e ->
  snd (Route.handle w)
  = [asked a b; Create (py "python"); Exec sb Route.install_command 300]
    ++ error_response 500 (exn_str e) ++ [Remove sb].
Proof.
  intros Henc.
  assert (He : is_Exception e = true).
  { revert Henc. unfold encode. generalize 0%nat. generalize (extract text).
    intros s; induction s as [|c s IH]; intros pos; cbn [encode_from]; [discriminate|].
    destruct (is_surrogate c); [intros [= <-]; reflexivity|].
    destruct (encode_from (S pos) s) eqn:E; cbn [rbind]; [discriminate|].
    intros [= <-]. exact (IH _ E). }
  rewrite (handle_accepted w a b (Val tt) (Some sb)
             ([asked a b; Create (py "python"); Exec sb Route.install_command 300]
              ++ error_response 500 (exn_str e)) Haccepted).
  - cbn [snd]. rewrite <- app_assoc. reflexivity.
  - unfold extract in Henc. unfold_handler.
    rewrite Hgenerated, Hcreated, Hinstalled, Hdone. cbn [Z.eqb negb].
    rewrite Henc. cbv beta iota. rewrite He. reflexivity.
Qed.

Variable content : bytes.
Hypothesis Hencoded : encode (extract text) = Val content.
Hypothesis Huploaded : w_upload_file w sb (script_path w) content = Val tt.

(** X12.  When the render command exits with a code other than 0, nothing
    is downloaded; the response is 500 and its error text holds the output
    of the command; and the sandbox is removed. *)
Theorem render_failure_reported (r : ExecuteResponse) :
  w_exec w sb (Route.render_command w) = Val r ->
  exit_code r <> 0%Z ->
  snd (Route.handle w)
  = rendering w a b sb content ++ error_response 500 (py "Manim rendering failed: " ++ result r)
    ++ [Remove sb].
Proof.
  intros Hrender Hcode.
  rewrite (handle_accepted w a b (Val tt) (Some sb)
             (rendering w a b sb content ++ error_response 500
                            (py "Manim rendering failed: " ++ result r)) Haccepted).
  - cbn [snd]. rewrite <- app_assoc. reflexivity.
  - unfold extract, script_path in *. unfold_handler.
    rewrite Hgenerated, Hcreated, Hinstalled, Hdone. cbn [Z.eqb negb].
    rewrite Hencoded, Huploaded, Hrender.
    apply Z.eqb_neq in Hcode. rewrite Hcode. reflexivity.
Qed.

(** X13.  When the download raises an [Exception], as for a video that is
    not where the path says, the response is 500 with the text of that
    exception, and the sandbox is removed. *)
Theorem download_failure_reported (r : ExecuteResponse) (e : exn) :
  w_exec w sb (Route.render_command w) = Val r ->
  exit_code r = 0%Z ->
  w_download_file w sb (Route.video_path w) = Raise e ->
  is_Exception e = true ->
  snd (Route.handle w)
  = rendering w a b sb content ++ [DownloadFile sb (Route.video_path w)]
    ++ error_response 500 (exn_str e) ++ [Remove sb].
Proof.
  intros Hrender Hcode Hdown He.
  rewrite (handle_accepted w a b (Val tt) (Some sb)
             (rendering w a b sb content ++ [DownloadFile sb (Route.video_path w)]
              ++ error_response 500 (exn_str e)) Haccepted).
  - cbn [snd]. rewrite <- !app_assoc. reflexivity.
  - unfold extract, script_path in *. unfold_handler.
    rewrite Hgenerated, Hcreated, Hinstalled, Hdone. cbn [Z.eqb negb].
    rewrite Hencoded, Huploaded, Hrender, Hcode. cbn [Z.eqb negb].
    rewrite Hdown. cbv beta iota. rewrite He. reflexivity.
Qed.

End Failures.

Section Acceptance.
Import Flow RunFacts.
Variable w : World.

(** X14.  A body that is JSON and no object (a list, a text, a number,
    [null]) has no [get]: line 40 raises [AttributeError], which nothing
    catches, and no response is written. *)
Theorem body_must_be_an_object (v : pyval) :
  request_json w = Val v ->
  (forall data, v <> PDict data) ->
  Route.handle w = (Raise no_attribute_get, []).
Proof.
  intros J N. apply handle_unread. unfold request_fields. rewrite J.
  destruct v; try reflexivity. destruct (N d eq_refl).
Qed.

(** X15.  The check of line 43 is one of truth values, not of types: a
    request with a JSON object is rejected exactly when a field is absent
    or falsy ([null], [false], zero, an empty text, list or object) or a
    credential is absent or empty; a field that is a number or a list
    passes like a text. *)
Theorem rejected_iff_something_falsy (data : list (str * pyval)) :
  request_json w = Val (PDict data) ->
  Route.handle w = rejection
  <-> (truthy (field data "latex") = false
       \/ truthy (field data "explanations") = false
       \/ w_DAYTONA_API_KEY w = None \/ w_DAYTONA_API_KEY w = Some []
       \/ w_GEMINI_API_KEY w = None \/ w_GEMINI_API_KEY w = Some []).
Proof.
  intros J. pose proof (request_fields_of_object w data J) as F.
  fold (field data "latex") (field data "explanations") in F.
  destruct (complete w (field data "latex") (field data "explanations")) eqn:C.
  - split.
    + intros H.
      destruct (Route.guarded w reliable (field data "latex") (field data "explanations")
                  (None, [])) as [r [l tr]] eqn:G.
      rewrite (handle_accepted w _ _ r l tr (conj F C) G) in H.
      destruct (FlowFacts.guarded_begins _ _ _ _ _ _ G) as (rest & ->).
      destruct l; discriminate.
    + intros H. exfalso. revert C. unfold complete, all. cbn [forallb].
      destruct H as [H | [H | [H | [H | [H | H]]]]]; rewrite H;
        cbn [truthy of_option andb]; rewrite ?andb_false_r; discriminate.
  - split; [|intros _; exact (handle_rejected w _ _ F C)].
    intros _. revert C. unfold complete, all. cbn [forallb].
    destruct (truthy (field data "latex")); [|auto].
    destruct (truthy (field data "explanations")); [|auto].
    destruct (w_DAYTONA_API_KEY w) as [[|c s]|]; auto.
    destruct (w_GEMINI_API_KEY w) as [[|c' s']|]; auto 7; discriminate.
Qed.

End Acceptance.

(* ===================================================================== *)
(** * More of the script and of its name *)
(* ===================================================================== *)

Module NameFacts.
Import Py Flow StrFacts.

Lemma strip_idem s : strip (strip s) = strip s.
Proof.
  destruct (strip_stripped s) as [L R].
  unfold strip at 1. rewrite L. exact R.
Qed.

(** ** Hexadecimal digits *)

Lemma hexdigit_in d : In (hexdigit d) (py "0123456789abcdef").
Proof.
  unfold hexdigit.
  destruct (nth_in_or_default (N.to_nat d) (py "0123456789abcdef") 48%N) as [H| ->].
  - exact H.
  - left. reflexivity.
Qed.

Lemma hexdigit_plain d : Flow.plain_char (hexdigit d) = true.
Proof.
  generalize (hexdigit_in d). generalize (hexdigit d). intros c H.
  cbv in H. intuition (subst; reflexivity).
Qed.

Lemma hexdigit_not_hyphen d : (hexdigit d =? 45)%N = false.
Proof.
  generalize (hexdigit_in d). generalize (hexdigit d). intros c H.
  cbv in H. intuition (subst; reflexivity).
Qed.

Lemma hexval_hexdigit d : (d < 16)%N -> Json.hexval (hexdigit d) = Some d.
Proof.
  intros H. rewrite <- (N2Nat.id d) in *.
  assert (L : (N.to_nat d < 16)%nat) by lia. revert L.
  generalize (N.to_nat d). clear. intros n L.
  do 16 (destruct n as [|n]; [vm_compute; reflexivity|]). lia.
Qed.

Lemma hex_S k n :
  hex (S k) n = hexdigit ((n / 16 ^ N.of_nat k) mod 16)%N :: hex k n.
Proof. unfold hex. rewrite seq_S, rev_app_distr. reflexivity. Qed.

Lemma hex_length k n : List.length (hex k n) = k.
Proof. unfold hex. rewrite length_map, length_rev, length_seq. reflexivity. Qed.

Lemma hex_plain k n : forallb Flow.plain_char (hex k n) = true.
Proof.
  apply forallb_forall. intros c H. unfold hex in H.
  apply in_map_iff in H as (i & <- & _). apply hexdigit_plain.
Qed.

(** The digits of a number tell it, up to the number of digits. *)
Lemma hex_inj k : forall n m,
  hex k n = hex k m -> (n mod 16 ^ N.of_nat k = m mod 16 ^ N.of_nat k)%N.
Proof.
  induction k as [|k IH]; intros n m H.
  - cbn. rewrite !N.mod_1_r. reflexivity.
  - rewrite !hex_S in H. injection H as D R.
    apply IH in R.
    assert (E : ((n / 16 ^ N.of_nat k) mod 16 = (m / 16 ^ N.of_nat k) mod 16)%N).
    { apply (f_equal Json.hexval) in D.
      rewrite !hexval_hexdigit in D by (apply N.mod_lt; discriminate).
      congruence. }
    rewrite Nat2N.inj_succ, N.pow_succ_r', (N.mul_comm 16).
    rewrite !N.Div0.mod_mul_r, R, E. reflexivity.
Qed.

(** ** The text of a UUID *)

Lemma unhyphen_digits s :
  (forall c, In c s -> (c =? 45)%N = false) -> unhyphen s = s.
Proof.
  intros H. apply forallb_filter_id. apply forallb_forall.
  intros c I. rewrite (H c I). reflexivity.
Qed.

Lemma pieces {A} (h : list A) :
  firstn 8 h ++ firstn 4 (skipn 8 h) ++ firstn 4 (skipn 12 h)
  ++ firstn 4 (skipn 16 h) ++ skipn 20 h = h.
Proof.
  rewrite <- (firstn_skipn 8 h) at 6. f_equal.
  rewrite <- (firstn_skipn 4 (skipn 8 h)) at 2. f_equal.
  rewrite skipn_skipn. cbn [Nat.add].
  rewrite <- (firstn_skipn 4 (skipn 12 h)) at 2. f_equal.
  rewrite skipn_skipn. cbn [Nat.add].
  rewrite <- (firstn_skipn 4 (skipn 16 h)) at 2. f_equal.
  rewrite skipn_skipn. reflexivity.
Qed.

(** Without its hyphens, the text of a UUID is its 32 digits. *)
Lemma unhyphen_uuid_str i : unhyphen (uuid_str i) = hex 32 i.
Proof.
  assert (D : forall c, In c (hex 32 i) -> (c =? 45)%N = false).
  { intros c H. unfold hex in H. apply in_map_iff in H as (k & <- & _).
    apply hexdigit_not_hyphen. }
  unfold uuid_str, unhyphen. rewrite !filter_app.
  change (filter _ (py "-")) with (@nil N). cbn [app].
  fold (unhyphen (firstn 8 (hex 32 i))) (unhyphen (firstn 4 (skipn 8 (hex 32 i))))
       (unhyphen (firstn 4 (skipn 12 (hex 32 i))))
       (unhyphen (firstn 4 (skipn 16 (hex 32 i))))
       (unhyphen (skipn 20 (hex 32 i))).
  rewrite !unhyphen_digits; [apply pieces| | | | |]; intros c H; apply D;
    eauto using In_firstn, In_skipn.
Qed.

Lemma uuid4_small r : (uuid4 r mod 2 ^ 128 = uuid4 r)%N.
Proof.
  apply N.bits_inj. intros k.
  destruct (N.ltb_spec k 128) as [L|L].
  - apply N.mod_pow2_bits_low. exact L.
  - rewrite N.mod_pow2_bits_high by exact L.
    unfold uuid4. cbv zeta.
    rewrite !N.lor_spec, !N.ldiff_spec, !N.lor_spec, !N.ldiff_spec.
    rewrite N.mod_pow2_bits_high by exact L.
    rewrite !N.shiftl_spec_high' by lia.
    rewrite (N.bits_above_log2 4), (N.bits_above_log2 32768);
      [reflexivity| |]; cbn; lia.
Qed.

(** Two UUIDs with the same text are the same. *)
Lemma uuid_str_inj r r' :
  uuid_str (uuid4 r) = uuid_str (uuid4 r') -> uuid4 r = uuid4 r'.
Proof.
  intros H. apply (f_equal unhyphen) in H. rewrite !unhyphen_uuid_str in H.
  apply hex_inj in H. change (16 ^ N.of_nat 32)%N with (2 ^ 128)%N in H.
  rewrite !uuid4_small in H. exact H.
Qed.

Lemma uuid_str_plain i : forallb Flow.plain_char (uuid_str i) = true.
Proof.
  apply forallb_forall. intros c H.
  assert (D : forall c, In c (hex 32 i) -> Flow.plain_char c = true).
  { apply forallb_forall. apply hex_plain. }
  unfold uuid_str in H.
  repeat (apply in_app_or in H as [H|H]);
    try (destruct H as [<-|[]]; reflexivity);
    apply D; eauto using In_firstn, In_skipn.
Qed.

Lemma uuid_str_length i : List.length (uuid_str i) = 36%nat.
Proof.
  unfold uuid_str. rewrite !length_app, !length_firstn, !length_skipn, !hex_length.
  reflexivity.
Qed.

End NameFacts.

Section Names.
Import Py Http Spec Flow StrFacts NameFacts.

(** X16.  Taking the script out of the answer of the model a second time
    changes nothing, and an answer without a code fence is only stripped
    of the white space around it. *)
Theorem extract_is_idempotent (text : str) :
  extract (extract text) = extract text
  /\ (contains text (py "```") = false -> extract text = strip text).
Proof.
  assert (P : forall t, contains t (py "```") = false -> extract t = strip t).
  { intros t H. unfold extract.
    pose proof (contains_longer t (py "```") (py "python") H) as H'.
    change (py "```" ++ py "python") with (96%N :: py "``python") in H'.
    change (py "```") with (96%N :: py "``") in H.
    change (py "```python") with (96%N :: py "``python").
    change (py "```") with (96%N :: py "``").
    rewrite (replace_absent t _ _ [] H'), (replace_absent t _ _ [] H).
    reflexivity. }
  split; [|apply P].
  rewrite (P (extract text)).
  - apply strip_idem.
  - unfold extract. apply contains_strip.
    apply (replace_triple_gone 96%N _ _ (Nat.le_refl _)).
Qed.

(** X17.  The name of the script file is 52 characters long and holds
    nothing but lower-case letters, digits, [_], [-] and [.]: the render
    command of line 73, which inserts it unquoted, is not changed by it. *)
Theorem script_filename_is_plain (w : World) :
  forallb plain_char (Route.script_filename w) = true
  /\ List.length (Route.script_filename w) = 52%nat.
Proof.
  unfold Route.script_filename. split.
  - rewrite !forallb_app, uuid_str_plain. reflexivity.
  - rewrite !length_app, uuid_str_length. reflexivity.
Qed.

(** X18.  Two runs whose random UUIDs differ use different script files,
    different render commands and different download paths. *)
Theorem names_differ_with_the_uuid (w w' : World) :
  uuid4 (w_urandom w) <> uuid4 (w_urandom w') ->
  Route.script_filename w <> Route.script_filename w'
  /\ script_path w <> script_path w'
  /\ Route.render_command w <> Route.render_command w'
  /\ Route.video_path w <> Route.video_path w'.
Proof.
  intros D.
  assert (F : Route.script_filename w <> Route.script_filename w').
  { intros E. apply D, uuid_str_inj. unfold Route.script_filename in E.
    apply app_inv_head in E. apply app_inv_tail in E. exact E. }
  repeat split.
  - exact F.
  - intros E. apply F. unfold script_path in E. exact (app_inv_head _ _ _ E).
  - intros E. apply F. unfold Route.render_command in E.
    apply app_inv_head in E. exact (app_inv_tail _ _ _ E).
  - intros E. apply D, uuid_str_inj.
    unfold Route.video_path, Route.script_filename in E.
    rewrite !(app_assoc (py "manim_script_") _ (py ".py")) in E.
    rewrite !replace_ext in E
      by apply stem_no_dot.
    apply app_inv_head in E. apply app_inv_tail in E.
    exact (app_inv_head _ _ _ E).
Qed.

End Names.

(* ===================================================================== *)
(** * The echo handler *)
(* ===================================================================== *)

Module EchoFacts.
Import Py Http Spec Echo.

(** Every way [do_POST] of [index.py] can go, by what it reads. *)
Lemma handle_cases w :
  Index.handle w
  = match body w with
    | Raise e => (Raise e, [])
    | Val [] => (Val tt, echo_response 400 (error "Empty request body"))
    | Val (c :: b) =>
        match payload w (c :: b) with
        | Raise e =>
            if is_JSONDecodeError e
            then (Val tt, echo_response 400 (error "Invalid JSON payload"))
            else (Raise e, [])
        | Val p =>
            match get p (py "expression") (PStr []) with
            | Raise e => (Raise e, [])
            | Val x =>
                match len x with
                | Raise e => (Raise e, [])
                | Val n => (Val tt, echo_response 200 (echo x n))
                end
            end
        end
    end.
Proof.
  unfold Index.handle, Index.serve, Index.do_POST, run, bind, lift, ret, try_except,
    body, payload.
  destruct (int _) as [n|e]; [|reflexivity]. cbn [rbind].
  destruct (n =? 0)%Z; [reflexivity|].
  destruct (rfile_read w n) as [[|c b]|e]; [reflexivity| |reflexivity].
  unfold decode.
  destruct (utf8_decode false (c :: b)) as [text|]; [|reflexivity]. cbn [rbind].
  destruct (Json.loads_str (w_recursion w) text) as [p|e].
  - destruct (get p (py "expression") (PStr [])) as [x|e]; [|reflexivity].
    destruct (len x) as [k|e]; reflexivity.
  - destruct (is_JSONDecodeError e); reflexivity.
Qed.

Lemma bom_decoded b :
  utf8_decode false (239 :: 187 :: 191 :: b)%N
  = option_map (cons 65279%N) (utf8_decode false b).
Proof. reflexivity. Qed.

End EchoFacts.

Section EchoHandler.
Import Py Http Spec Echo EchoFacts.
Variable w : World.

Lemma int_of_str_raises s e : int_of_str s = Raise e -> exn_class e = ValueError.
Proof.
  unfold int_of_str. repeat (case_step; try discriminate);
    intros [= <-]; reflexivity.
Qed.

Lemma body_raises e : body w = Raise e -> is_JSONDecodeError e = false.
Proof.
  unfold body, int.
  destruct (headers_get w (py "content-length") (Some (py "0"))) as [s|];
    [|intros H; inversion H; reflexivity].
  destruct (int_of_str s) as [n|e'] eqn:I; cbn [rbind].
  - destruct (n =? 0)%Z; [discriminate|]. unfold rfile_read.
    repeat (case_step; try discriminate); intros [= <-]; reflexivity.
  - intros H. inversion H; subst. unfold is_JSONDecodeError.
    rewrite (int_of_str_raises _ _ I). reflexivity.
Qed.

(** X19.  A [GET] is always answered 200 with the health payload.  A
    [POST] is answered once, with 200 or 400 and a JSON body whose length
    is announced, or not at all: then an exception that is no
    [JSONDecodeError] leaves the handler and nothing was written. *)
Theorem echo_answers_once_or_not_at_all :
  handle_get = (Val tt, echo_response 200 health)
  /\ ((exists code p, Index.handle w = (Val tt, echo_response code p)
                      /\ (code = 200 \/ code = 400)%Z)
      \/ (exists e, Index.handle w = (Raise e, []) /\ is_JSONDecodeError e = false)).
Proof.
  split; [reflexivity|]. rewrite handle_cases.
  destruct (body w) as [[|c b]|e] eqn:B.
  - left. eauto.
  - destruct (payload w (c :: b)) as [p|e] eqn:P.
    + destruct (get p (py "expression") (PStr [])) as [x|e] eqn:G.
      * destruct (len x) as [n|e] eqn:Ln; [left; eauto|].
        right. exists e. split; [reflexivity|].
        destruct x; inversion Ln; reflexivity.
      * right. exists e. split; [reflexivity|].
        destruct p; inversion G; reflexivity.
    + destruct (is_JSONDecodeError e) eqn:J; [left; eauto|right; eauto].
  - right. exists e. split; [reflexivity|]. exact (body_raises e B).
Qed.

(** X20.  Without a [Content-Length] header, with a length of zero or with
    nothing to read, the answer is 400 and [Empty request body]. *)
Theorem echo_empty_body :
  headers_get w (py "content-length") None = None \/ body w = Val [] ->
  Index.handle w = (Val tt, echo_response 400 (error "Empty request body")).
Proof.
  intros H. rewrite handle_cases.
  assert (B : body w = Val []); [|rewrite B; reflexivity].
  destruct H as [H|H]; [|exact H].
  unfold body, headers_get in *.
  destruct (find _ (w_headers w)); [discriminate|]. reflexivity.
Qed.

(** X21.  A body that is UTF-8 is answered 400 and [Invalid JSON
    payload] exactly when [json.loads] raises [JSONDecodeError] on it.
    Whatever else [json.loads] raises, as the [RecursionError] of a text
    that nests too deep or the [ValueError] of an integer of more than
    4300 digits, line 37 does not catch: the exception leaves the handler
    and nothing is written. *)
Theorem echo_invalid_json (c : N) (b : bytes) (text : str) (e : exn) :
  body w = Val (c :: b) ->
  decode false (c :: b) = Val text ->
  Json.loads_str (w_recursion w) text = Raise e ->
  Index.handle w
  = if is_JSONDecodeError e
    then (Val tt, echo_response 400 (error "Invalid JSON payload"))
    else (Raise e, []).
Proof.
  intros B D J.
  rewrite handle_cases, B. unfold payload. rewrite D. cbn [rbind].
  rewrite J. reflexivity.
Qed.

(** X22.  A body that is not UTF-8 is not answered: the
    [UnicodeDecodeError] of line 36 is not the exception line 37 catches. *)
Theorem echo_not_utf8_uncaught (c : N) (b : bytes) :
  body w = Val (c :: b) ->
  utf8_decode false (c :: b) = None ->
  Index.handle w = (Raise cannot_decode, []).
Proof.
  intros B D. rewrite handle_cases, B. unfold payload, decode. rewrite D.
  reflexivity.
Qed.

(** X23.  A body that starts with the UTF-8 byte-order mark is answered
    400 and [Invalid JSON payload], whatever follows the mark. *)
Theorem echo_rejects_byte_order_mark (b : bytes) (text : str) :
  body w = Val ([239; 187; 191]%N ++ b) ->
  utf8_decode false b = Some text ->
  Index.handle w = (Val tt, echo_response 400 (error "Invalid JSON payload")).
Proof.
  intros B D. rewrite handle_cases, B. cbn [app]. unfold payload, decode.
  rewrite bom_decoded, D. reflexivity.
Qed.

(** X24.  A body that is JSON and no object is not answered: [payload.get]
    raises [AttributeError]. *)
Theorem echo_payload_must_be_an_object (c : N) (b : bytes) (v : pyval) :
  body w = Val (c :: b) ->
  payload w (c :: b) = Val v ->
  (forall d, v <> PDict d) ->
  Index.handle w = (Raise no_attribute_get, []).
Proof.
  intros B P N. rewrite handle_cases, B, P.
  destruct v; try reflexivity. destruct (N _ eq_refl).
Qed.


(** X26.  An [expression] without a length (a number, a boolean, [null])
    is not answered: the [TypeError] of [len] leaves the handler. *)
Theorem echo_unsized_expression_uncaught
    (c : N) (b : bytes) (d : list (str * pyval)) (x : pyval) (e : exn) :
  body w = Val (c :: b) ->
  payload w (c :: b) = Val (PDict d) ->
  dict_get d (py "expression") = Some x ->
  len x = Raise e ->
  Index.handle w = (Raise e, []) /\ exn_class e = TypeError.
Proof.
  intros B P G Ln. rewrite handle_cases, B, P. cbn [get]. rewrite G, Ln.
  split; [reflexivity|]. destruct x; inversion Ln; reflexivity.
Qed.

(** X27.  A [Content-Length] that is no integer, or an integer that
    [read] does not take, is not answered, and nothing is written.  [int]
    raises [ValueError].  For a length below -1, [read] raises
    [ValueError], or [OverflowError] when the length is no machine integer
    of 64 bits; for a length of 2^63 - 33 or more it raises
    [OverflowError], and for a smaller one that is more than the process
    can hold, [MemoryError]. *)
Theorem echo_unusable_length_uncaught (s : str) :
  headers_get w (py "content-length") None = Some s ->
  (forall e, int_of_str s = Raise e ->
     Index.handle w = (Raise e, []) /\ exn_class e = ValueError)
  /\ (forall n, int_of_str s = Val n ->
        (n < -1)%Z \/ (Z.of_N (w_memory w) < n)%Z \/ (2 ^ 63 - 33 <= n)%Z ->
        exists e,
          Index.handle w = (Raise e, [])
          /\ exn_class e
             = if (n <? -1)%Z
               then if (- 2 ^ 63 <=? n)%Z then ValueError else OverflowError
               else if (n <? 2 ^ 63 - 33)%Z then MemoryError else OverflowError).
Proof.
  intros H.
  assert (G : headers_get w (py "content-length") (Some (py "0")) = Some s).
  { unfold headers_get in *. destruct (find _ (w_headers w)); [exact H|discriminate]. }
  rewrite handle_cases. unfold body. rewrite G. cbn [int]. split.
  - intros e I. rewrite I. split; [reflexivity|].
    exact (int_of_str_raises _ _ I).
  - intros n I L. rewrite I. cbn [rbind].
    pose proof (N2Z.is_nonneg (w_memory w)) as M.
    destruct (Z.eqb_spec n 0) as [|_]; [lia|]. unfold rfile_read.
    change (2 ^ 63 - 33)%Z with 9223372036854775775%Z in *.
    change (2 ^ 63)%Z with 9223372036854775808%Z in *.
    repeat match goal with
           | |- context [(?x <? ?y)%Z] => destruct (Z.ltb_spec x y)
           | |- context [(?x <=? ?y)%Z] => destruct (Z.leb_spec x y)
           end; cbn [orb andb]; try lia; eexists; split; reflexivity.
Qed.

End EchoHandler.

Section Unread.
Import Py Http Spec RunFacts.
Variable w : World.

(** X28.  When the body of a request to the video handler cannot be read
    as JSON, the exception leaves the handler: nothing is written and no
    remote call is made. *)
Theorem unparsable_body_never_answered (e : exn) :
  request_json w = Raise e -> Route.handle w = (Raise e, []).
Proof.
  intros H. apply handle_unread. unfold request_fields. rewrite H. reflexivity.
Qed.

End Unread.

(* ===================================================================== *)
(** * More concrete runs *)
(* ===================================================================== *)

Section MoreRuns.
Import Py Http Spec Flow Scenario Cases.

(** The request of section 8 is accepted in every world of [served_by]. *)
Lemma served_by_accepted g c i r u d rm :
  accepted (served_by g c i r u d rm) latex_field explanations_field.
Proof. split; vm_compute; reflexivity. Defined.

(** X2, when the install command is interrupted, and when the client
    has gone before the video is sent. *)
Lemma escapes_witness :
  (fst (Route.serve interrupted reliable) = Raise interrupt
   /\ ((request_fields interrupted = Raise interrupt
        /\ snd (Route.serve interrupted reliable) = [])
       \/ (is_Exception interrupt = false
           /\ count is_SendResponse (snd (Route.serve interrupted reliable)) = 0%nat)
       \/ (exists sb, In (Remove sb) (snd (Route.serve interrupted reliable))
                      /\ w_remove interrupted sb = Raise interrupt)
       \/ (exists sent rest,
             snd (Route.serve interrupted reliable) = sent ++ rest
             /\ reliable sent = Raise interrupt
             /\ (is_Exception interrupt = false
                 \/ In (SendResponse 400) sent \/ In (SendResponse 500) sent))))
  /\ (fst (Route.serve happy gone) = Raise broken_pipe
      /\ ((request_fields happy = Raise broken_pipe
           /\ snd (Route.serve happy gone) = [])
          \/ (is_Exception broken_pipe = false
              /\ count is_SendResponse (snd (Route.serve happy gone)) = 0%nat)
          \/ (exists sb, In (Remove sb) (snd (Route.serve happy gone))
                         /\ w_remove happy sb = Raise broken_pipe)
          \/ (exists sent rest,
                snd (Route.serve happy gone) = sent ++ rest
                /\ gone sent = Raise broken_pipe
                /\ (is_Exception broken_pipe = false
                    \/ In (SendResponse 400) sent \/ In (SendResponse 500) sent)))).
Proof.
  assert (H : fst (Route.serve interrupted reliable) = Raise interrupt)
    by (vm_compute; reflexivity).
  assert (G : fst (Route.serve happy gone) = Raise broken_pipe)
    by (vm_compute; reflexivity).
  split; (split; [eassumption|]).
  - exact (exceptions_that_escape interrupted reliable interrupt H).
  - exact (exceptions_that_escape happy gone broken_pipe G).
Defined.

(** X4, in the successful run. *)
Lemma ok_after_success_witness :
  In (SendResponse 200) (snd (Route.handle happy))
  /\ exists a b sb content video, all_stages_succeed happy a b sb content video.
Proof.
  assert (H : In (SendResponse 200) (snd (Route.handle happy)))
    by (vm_compute; tauto).
  split; [exact H|].
  exact (ok_only_after_success happy H).
Defined.

(** X5, in the successful run. *)
Lemma removal_last_witness :
  In (Remove the_sandbox) (snd (Route.handle happy))
  /\ exists before,
       snd (Route.handle happy) = before ++ [Remove the_sandbox]
       /\ count is_Remove before = 0%nat.
Proof.
  assert (H : In (Remove the_sandbox) (snd (Route.handle happy)))
    by (vm_compute; tauto).
  split; [exact H|].
  exact (removal_comes_last happy the_sandbox H).
Defined.

(** X6, for the download of the successful run. *)
Lemma own_sandbox_witness :
  In (DownloadFile the_sandbox video_file) (snd (Route.handle happy))
  /\ w_create happy = Val the_sandbox.
Proof.
  assert (H : In (DownloadFile the_sandbox video_file) (snd (Route.handle happy)))
    by (vm_compute; tauto).
  split; [exact H|].
  exact (calls_on_own_sandbox happy the_sandbox
           (or_intror (or_intror (ex_intro _ video_file H)))).
Defined.

(** X7, in the successful run. *)
Lemma upload_cleaned_witness :
  In (UploadFile the_sandbox (script_path happy) script_content)
     (snd (Route.handle happy))
  /\ script_path happy = py "/home/daytona/" ++ Route.script_filename happy
  /\ exists a b text,
       accepted happy a b
       /\ w_generate_content happy (Route.prompt a b) = Val text
       /\ encode (extract text) = Val script_content.
Proof.
  assert (H : In (UploadFile the_sandbox (script_path happy) script_content)
                 (snd (Route.handle happy)))
    by (vm_compute; tauto).
  split; [exact H|].
  exact (upload_is_cleaned_answer happy the_sandbox (script_path happy)
           script_content H).
Defined.

(** X8, for the render command of the successful run. *)
Lemma render_uploaded_witness :
  In (Exec the_sandbox (Route.render_command happy) 300) (snd (Route.handle happy))
  /\ 300%Z = 300%Z
  /\ (Route.render_command happy = py "pip install manim && manim-latex-downloader"
      \/ (Route.render_command happy
          = py "manim -pql " ++ script_path happy ++ py " EquationExplanation"
          /\ exists a b content rest done,
               snd (Route.handle happy)
               = rendering happy a b the_sandbox content ++ rest
               /\ w_exec happy the_sandbox Route.install_command = Val done
               /\ exit_code done = 0%Z
               /\ w_upload_file happy the_sandbox (script_path happy) content
                  = Val tt)).
Proof.
  assert (H : In (Exec the_sandbox (Route.render_command happy) 300)
                 (snd (Route.handle happy)))
    by (vm_compute; tauto).
  split; [exact H|].
  exact (render_runs_the_uploaded_script happy the_sandbox
           (Route.render_command happy) 300 H).
Defined.

(** X9, when the model has no quota left. *)
Lemma model_failure_witness :
  (accepted model_fails latex_field explanations_field
   /\ w_generate_content model_fails (Route.prompt latex_field explanations_field)
      = Raise quota
   /\ is_Exception quota = true)
  /\ Route.handle model_fails
     = (Val tt, asked latex_field explanations_field
                :: error_response 500 (py "429 Resource has been exhausted")).
Proof.
  split; [split; [apply served_by_accepted | split; reflexivity]|].
  exact (model_failure_provisions_nothing model_fails latex_field explanations_field
           (served_by_accepted _ _ _ _ _ _ _) quota eq_refl eq_refl).
Defined.

(** X10, when no runner is free. *)
Lemma provisioning_failure_witness :
  (accepted create_fails latex_field explanations_field
   /\ w_generate_content create_fails (Route.prompt latex_field explanations_field)
      = Val script_text
   /\ w_create create_fails = Raise no_capacity
   /\ is_Exception no_capacity = true)
  /\ Route.handle create_fails
     = (Val tt, [asked latex_field explanations_field; Create (py "python")]
                ++ error_response 500 (py "No available runners")).
Proof.
  split; [split; [apply served_by_accepted | repeat split]|].
  exact (provisioning_failure_reported create_fails latex_field explanations_field
           (served_by_accepted _ _ _ _ _ _ _) script_text no_capacity
           eq_refl eq_refl eq_refl).
Defined.

(** X11, for an answer with a lone surrogate. *)
Lemma unencodable_script_witness :
  (accepted unencodable latex_field explanations_field
   /\ w_create unencodable = Val the_sandbox
   /\ w_generate_content unencodable (Route.prompt latex_field explanations_field)
      = Val (py "x = '" ++ [55357%N] ++ py "'")
   /\ w_exec unencodable the_sandbox Route.install_command = Val installed
   /\ exit_code installed = 0%Z
   /\ encode (extract (py "x = '" ++ [55357%N] ++ py "'"))
      = Raise (cannot_encode 5 55357 1))
  /\ snd (Route.handle unencodable)
     = [asked latex_field explanations_field; Create (py "python");
        Exec the_sandbox Route.install_command 300]
       ++ error_response 500 (exn_str (cannot_encode 5 55357 1))
       ++ [Remove the_sandbox].
Proof.
  split; [split; [apply served_by_accepted | repeat split]|].
  exact (unencodable_script_reported unencodable latex_field explanations_field
           (served_by_accepted _ _ _ _ _ _ _) the_sandbox eq_refl
           (py "x = '" ++ [55357%N] ++ py "'") eq_refl installed eq_refl eq_refl
           (cannot_encode 5 55357 1) eq_refl).
Defined.

(** X12, for a script that names what Manim does not know. *)
Lemma render_failure_witness :
  (accepted render_fails latex_field explanations_field
   /\ w_create render_fails = Val the_sandbox
   /\ w_generate_content render_fails (Route.prompt latex_field explanations_field)
      = Val script_text
   /\ w_exec render_fails the_sandbox Route.install_command = Val installed
   /\ exit_code installed = 0%Z
   /\ encode (extract script_text) = Val script_content
   /\ w_upload_file render_fails the_sandbox (script_path render_fails) script_content
      = Val tt
   /\ w_exec render_fails the_sandbox (Route.render_command render_fails)
      = Val not_rendered
   /\ exit_code not_rendered <> 0%Z)
  /\ snd (Route.handle render_fails)
     = rendering render_fails latex_field explanations_field the_sandbox script_content
       ++ error_response 500
            (py "Manim rendering failed: NameError: name 'MathTex' is not defined")
       ++ [Remove the_sandbox].
Proof.
  assert (R : w_exec render_fails the_sandbox (Route.render_command render_fails)
              = Val not_rendered) by (vm_compute; reflexivity).
  assert (N : exit_code not_rendered <> 0%Z) by discriminate.
  assert (E : encode (extract script_text) = Val script_content)
    by (vm_compute; reflexivity).
  split.
  { repeat (split; [first [apply served_by_accepted | exact E | exact R | reflexivity]|]).
    exact N. }
  exact (render_failure_reported render_fails latex_field explanations_field
           (served_by_accepted _ _ _ _ _ _ _) the_sandbox eq_refl
           script_text eq_refl installed eq_refl eq_refl script_content E eq_refl
           not_rendered R N).
Defined.

(** X13, when the video is not where the path says. *)
Lemma download_failure_witness :
  (accepted download_fails latex_field explanations_field
   /\ w_create download_fails = Val the_sandbox
   /\ w_generate_content download_fails (Route.prompt latex_field explanations_field)
      = Val script_text
   /\ w_exec download_fails the_sandbox Route.install_command = Val installed
   /\ exit_code installed = 0%Z
   /\ encode (extract script_text) = Val script_content
   /\ w_upload_file download_fails the_sandbox (script_path download_fails)
                    script_content = Val tt
   /\ w_exec download_fails the_sandbox (Route.render_command download_fails)
      = Val rendered
   /\ exit_code rendered = 0%Z
   /\ w_download_file download_fails the_sandbox (Route.video_path download_fails)
      = Raise no_file
   /\ is_Exception no_file = true)
  /\ snd (Route.handle download_fails)
     = rendering download_fails latex_field explanations_field the_sandbox
                 script_content
       ++ [DownloadFile the_sandbox (Route.video_path download_fails)]
       ++ error_response 500 (py "file not found") ++ [Remove the_sandbox].
Proof.
  assert (R : w_exec download_fails the_sandbox (Route.render_command download_fails)
              = Val rendered) by (vm_compute; reflexivity).
  assert (E : encode (extract script_text) = Val script_content)
    by (vm_compute; reflexivity).
  split.
  { repeat (split; [first [apply served_by_accepted | exact E | exact R | reflexivity]|]).
    reflexivity. }
  exact (download_failure_reported download_fails latex_field explanations_field
           (served_by_accepted _ _ _ _ _ _ _) the_sandbox eq_refl
           script_text eq_refl installed eq_refl eq_refl script_content E eq_refl
           rendered no_file R eq_refl eq_refl eq_refl).
Defined.

(** X14, for a body that is a list. *)
Lemma body_a_list_witness :
  (request_json (post a_list) = Val (PList [PInt 1; PInt 2])
   /\ forall data, PList [PInt 1; PInt 2] <> PDict data)
  /\ Route.handle (post a_list) = (Raise no_attribute_get, []).
Proof.
  assert (J : request_json (post a_list) = Val (PList [PInt 1; PInt 2]))
    by (vm_compute; reflexivity).
  assert (N : forall data, PList [PInt 1; PInt 2] <> PDict data)
    by (intros data; discriminate).
  split; [split; [exact J | exact N]|].
  exact (body_must_be_an_object (post a_list) (PList [PInt 1; PInt 2]) J N).
Defined.

(** X15, for a [latex] that is the number zero. *)
Lemma zero_latex_rejected_witness :
  request_json (post zero_latex) = Val (PDict zero_latex_data)
  /\ (Route.handle (post zero_latex) = rejection
      <-> (truthy (field zero_latex_data "latex") = false
           \/ truthy (field zero_latex_data "explanations") = false
           \/ w_DAYTONA_API_KEY (post zero_latex) = None
           \/ w_DAYTONA_API_KEY (post zero_latex) = Some []
           \/ w_GEMINI_API_KEY (post zero_latex) = None
           \/ w_GEMINI_API_KEY (post zero_latex) = Some [])).
Proof.
  assert (J : request_json (post zero_latex) = Val (PDict zero_latex_data))
    by (vm_compute; reflexivity).
  split; [exact J|].
  exact (rejected_iff_something_falsy (post zero_latex) zero_latex_data J).
Defined.

(** X18, for the successful run and the same run with another UUID. *)
Lemma names_differ_witness :
  uuid4 (w_urandom happy) <> uuid4 (w_urandom happy_again)
  /\ Route.script_filename happy <> Route.script_filename happy_again
  /\ script_path happy <> script_path happy_again
  /\ Route.render_command happy <> Route.render_command happy_again
  /\ Route.video_path happy <> Route.video_path happy_again.
Proof.
  assert (D : uuid4 (w_urandom happy) <> uuid4 (w_urandom happy_again))
    by (vm_compute; discriminate).
  split; [exact D|].
  exact (names_differ_with_the_uuid happy happy_again D).
Defined.

(** X20, for a request without a [Content-Length] header. *)
Lemma echo_no_length_witness :
  headers_get no_content_length (py "content-length") None = None
  /\ Index.handle no_content_length
     = (Val tt, echo_response 400 (Echo.error "Empty request body")).
Proof.
  split; [reflexivity|].
  exact (echo_empty_body no_content_length (or_introl eq_refl)).
Defined.

(** X21, for a body with an unquoted key. *)
Lemma echo_malformed_witness :
  ((Echo.body malformed = Val (py "{latex: E=mc^2}")
    /\ decode false (py "{latex: E=mc^2}") = Val (py "{latex: E=mc^2}")
    /\ Json.loads_str (w_recursion malformed) (py "{latex: E=mc^2}")
       = Raise (Json.err "Expecting property name enclosed in double quotes"))
   /\ Index.handle malformed
      = (Val tt, echo_response 400 (Echo.error "Invalid JSON payload")))
  /\ ((Echo.body (with_recursion 2 (post nested)) = Val nested
       /\ decode false nested = Val nested
       /\ Json.loads_str (w_recursion (with_recursion 2 (post nested))) nested
          = Raise (Json.too_deep "array"))
      /\ Index.handle (with_recursion 2 (post nested))
         = (Raise (Json.too_deep "array"), [])).
Proof.
  split.
  - split; [repeat split|].
    exact (echo_invalid_json malformed 123%N (py "latex: E=mc^2}")
             (py "{latex: E=mc^2}")
             (Json.err "Expecting property name enclosed in double quotes")
             eq_refl eq_refl eq_refl).
  - split; [repeat split|].
    exact (echo_invalid_json (with_recursion 2 (post nested)) 91%N (py "[[1]]]")
             nested (Json.too_deep "array") eq_refl eq_refl eq_refl).
Defined.

(** X22, for a body with the octet 255. *)
Lemma echo_not_utf8_witness :
  (Echo.body (post not_utf8) = Val not_utf8
   /\ utf8_decode false not_utf8 = None)
  /\ Index.handle (post not_utf8) = (Raise cannot_decode, []).
Proof.
  split; [split; reflexivity|].
  exact (echo_not_utf8_uncaught (post not_utf8) 123%N [255; 125]%N eq_refl eq_refl).
Defined.

(** X23, for a well-formed object after the mark. *)
Lemma echo_bom_witness :
  (Echo.body (post with_bom) = Val ([239; 187; 191]%N ++ expression_text)
   /\ utf8_decode false expression_text = Some expression_text)
  /\ Index.handle (post with_bom)
     = (Val tt, echo_response 400 (Echo.error "Invalid JSON payload")).
Proof.
  split; [split; vm_compute; reflexivity|].
  exact (echo_rejects_byte_order_mark (post with_bom) expression_text expression_text
           eq_refl eq_refl).
Defined.

(** X24, for a body that is a list. *)
Lemma echo_a_list_witness :
  (Echo.body (post a_list) = Val a_list
   /\ Echo.payload (post a_list) a_list = Val (PList [PInt 1; PInt 2])
   /\ forall d, PList [PInt 1; PInt 2] <> PDict d)
  /\ Index.handle (post a_list) = (Raise no_attribute_get, []).
Proof.
  assert (N : forall d, PList [PInt 1; PInt 2] <> PDict d)
    by (intros d; discriminate).
  split; [split; [reflexivity | split; [reflexivity | exact N]]|].
  exact (echo_payload_must_be_an_object (post a_list) 91%N (py "1, 2]")
           (PList [PInt 1; PInt 2]) eq_refl eq_refl N).
Defined.


(** X26, for an expression that is a number. *)
Lemma echo_unsized_expression_witness :
  (Echo.body (post expression_number) = Val expression_number
   /\ Echo.payload (post expression_number) expression_number
      = Val (PDict [(py "expression", PInt 4)])
   /\ dict_get [(py "expression", PInt 4)] (py "expression") = Some (PInt 4)
   /\ len (PInt 4) = Raise (Exn TypeError (py "object has no len()")))
  /\ Index.handle (post expression_number)
     = (Raise (Exn TypeError (py "object has no len()")), [])
  /\ exn_class (Exn TypeError (py "object has no len()")) = TypeError.
Proof.
  split; [repeat split|].
  exact (echo_unsized_expression_uncaught (post expression_number) 123%N
           (List.tl expression_number) [(py "expression", PInt 4)] (PInt 4)
           (Exn TypeError (py "object has no len()"))
           eq_refl eq_refl eq_refl eq_refl).
Defined.

(** X27, for a header that is a word, one that is a negative number,
    one that is beyond 64 bits and one that is more than the memory. *)
Lemma echo_unusable_length_witness :
  ((headers_get (with_header "many") (py "content-length") None = Some (py "many")
    /\ int_of_str (py "many") = Raise invalid_literal)
   /\ Index.handle (with_header "many") = (Raise invalid_literal, [])
   /\ exn_class invalid_literal = ValueError)
  /\ ((headers_get (with_header "-5") (py "content-length") None = Some (py "-5")
       /\ int_of_str (py "-5") = Val (-5)%Z
       /\ (-5 < -1)%Z)
      /\ exists e, Index.handle (with_header "-5") = (Raise e, [])
                   /\ exn_class e = ValueError)
  /\ ((headers_get (with_header "9223372036854775808") (py "content-length") None
       = Some (py "9223372036854775808")
       /\ int_of_str (py "9223372036854775808") = Val (2 ^ 63)%Z
       /\ (2 ^ 63 - 33 <= 2 ^ 63)%Z)
      /\ exists e, Index.handle (with_header "9223372036854775808") = (Raise e, [])
                   /\ exn_class e = OverflowError)
  /\ ((headers_get (with_header "8589934592") (py "content-length") None
       = Some (py "8589934592")
       /\ int_of_str (py "8589934592") = Val (2 ^ 33)%Z
       /\ (Z.of_N (w_memory (with_header "8589934592")) < 2 ^ 33)%Z)
      /\ exists e, Index.handle (with_header "8589934592") = (Raise e, [])
                   /\ exn_class e = MemoryError).
Proof.
  assert (A : (-5 < -1)%Z) by reflexivity.
  assert (B : (2 ^ 63 - 33 <= 2 ^ 63)%Z) by (vm_compute; discriminate).
  assert (C : (Z.of_N (w_memory (with_header "8589934592")) < 2 ^ 33)%Z)
    by reflexivity.
  split; [|split; [|split]].
  - split; [split; reflexivity|].
    exact (proj1 (echo_unusable_length_uncaught (with_header "many") (py "many")
                    eq_refl) invalid_literal eq_refl).
  - split; [split; [reflexivity | split; [reflexivity | exact A]]|].
    exact (proj2 (echo_unusable_length_uncaught (with_header "-5") (py "-5")
                    eq_refl) (-5)%Z eq_refl (or_introl A)).
  - split; [split; [reflexivity | split; [reflexivity | exact B]]|].
    exact (proj2 (echo_unusable_length_uncaught
                    (with_header "9223372036854775808")
                    (py "9223372036854775808") eq_refl) (2 ^ 63)%Z eq_refl
             (or_intror (or_intror B))).
  - split; [split; [reflexivity | split; [reflexivity | exact C]]|].
    exact (proj2 (echo_unusable_length_uncaught (with_header "8589934592")
                    (py "8589934592") eq_refl) (2 ^ 33)%Z eq_refl
             (or_intror (or_introl C))).
Defined.

(** X28, for a body with an unquoted key. *)
Lemma unparsable_body_witness :
  request_json malformed
  = Raise (Json.err "Expecting property name enclosed in double quotes")
  /\ Route.handle malformed
     = (Raise (Json.err "Expecting property name enclosed in double quotes"), []).
Proof.
  split; [reflexivity|].
  exact (unparsable_body_never_answered malformed
           (Json.err "Expecting property name enclosed in double quotes") eq_refl).
Defined.

(** X29, when the client has gone before the status line is sent, and
    when it leaves after the status line. *)
Lemma answered_again_witness :
  (all_stages_succeed happy latex_field explanations_field the_sandbox
                      script_content mp4
   /\ gone (successful_calls happy latex_field explanations_field the_sandbox
                             script_content ++ head 200 "video/mp4")
      = Raise broken_pipe
   /\ is_Exception broken_pipe = true)
  /\ (snd (Route.serve happy gone)
      = successful_calls happy latex_field explanations_field the_sandbox
                         script_content
        ++ head 200 "video/mp4" ++ head 500 "application/json"
        ++ [Remove the_sandbox]
      /\ count is_SendResponse (snd (Route.serve happy gone)) = 2%nat)
  /\ (snd (Route.serve happy leaves_early)
      = successful_calls happy latex_field explanations_field the_sandbox
                         script_content
        ++ video_response mp4 ++ head 500 "application/json"
        ++ [Remove the_sandbox]
      /\ count is_SendResponse (snd (Route.serve happy leaves_early)) = 2%nat).
Proof.
  assert (H : all_stages_succeed happy latex_field explanations_field the_sandbox
                                 script_content mp4)
    by (apply download_succeeds; reflexivity).
  split; [split; [exact H | split; reflexivity]|]. split.
  - rewrite !app_assoc.
    exact (failed_write_is_answered_again happy gone _ _ _ _ mp4 _ broken_pipe H
             (or_introl eq_refl) eq_refl eq_refl).
  - rewrite !app_assoc.
    exact (failed_write_is_answered_again happy leaves_early _ _ _ _ mp4 _
             broken_pipe H (or_intror (conj eq_refl eq_refl)) eq_refl eq_refl).
Defined.

End MoreRuns.
